(** * edgeai-torchvision reference pipelines: a shallow embedding

    Two source files are embedded:
    - [references/segmentation/dataset_utils.py]  (module [DatasetUtils])
    - [references/classification/train.py]        (module [Train])

    Python [float] values are IEEE binary64, modelled by Rocq's primitive
    floats; Python [int] values are [Z]; [str] values are [string], each
    character read as one code point below 256. *)

From Stdlib Require Import ZArith Uint63 Lia Ascii String.
From Stdlib Require Import Floats.PrimFloat Floats.FloatOps Floats.SpecFloat.
From Stdlib Require Import Floats.FloatAxioms.
From stdpp Require Import base option list strings gmap pretty.

Set Warnings "-inexact-float,-clear-no-such-hyp".
Local Open Scope Z_scope.

(** ** Python numbers *)

(** [float(n)] for a Python int; exact whenever [|n| < 2^53]. *)
Definition float_of_Z (z : Z) : float :=
  if z <? 0 then PrimFloat.opp (PrimFloat.of_uint63 (Uint63.of_Z (- z)))
  else PrimFloat.of_uint63 (Uint63.of_Z z).

(** Truth value of a float: every value but [0.0] and [-0.0] is true. *)
Definition float_truthy (x : float) : bool := negb (PrimFloat.eqb x 0%float).

(** [x > y] and [x >= y] on floats. *)
Definition float_gt (x y : float) : bool := PrimFloat.ltb y x.
Definition float_ge (x y : float) : bool := PrimFloat.leb y x.

(** ** Python sequences and paths *)

(** [seq[idx]] with Python's negative indices. *)
Definition py_getitem {A} (l : list A) (idx : Z) : option A :=
  if idx <? 0 then
    (if idx + Z.of_nat (length l) <? 0 then None
     else l !! Z.to_nat (idx + Z.of_nat (length l)))
  else l !! Z.to_nat idx.

(** [seq[:n]] with Python's negative bounds. *)
Definition py_slice_to {A} (l : list A) (n : Z) : list A :=
  if n <? 0 then take (Z.to_nat (Z.of_nat (length l) + n)) l
  else take (Z.to_nat n) l.

(** [os.path.join(a, b)] on a POSIX system. *)
Definition os_path_join (a b : string) : string :=
  match b with
  | String "/"%char _ => b
  | _ =>
      match a with
      | "" => b
      | _ => if bool_decide (String.substring (String.length a - 1) 1 a = "/")
             then a +:+ b else a +:+ "/" +:+ b
      end
  end.

(** ** [references/segmentation/dataset_utils.py] *)
Module DatasetUtils.

(** numpy's fixed-width unsigned arithmetic. *)
Definition uint8 (z : Z) : Z := z mod 256.
Definition uint64 (z : Z) : Z := z mod 2 ^ 64.

(** A two-dimensional array is a list of rows; a stack of them (axis 0
    first) is a list of such arrays. *)
Abbreviation Array2 A := (list (list A)) (only parsing).

Definition pixel {A} (a : Array2 A) (y x : nat) : option A :=
  a !! y ≫= λ row, row !! x.

Definition has_shape {A} (h w : nat) (a : Array2 A) : Prop :=
  length a = h ∧ Forall (λ row, length row = w) a.

(** Elementwise application, and elementwise combination of two arrays of
    the same shape. *)
Definition amap {A B} (g : A → B) (a : Array2 A) : Array2 B :=
  fmap (M:=list) (fmap (M:=list) g) a.

Definition map2 {A B C} (f : A → B → C) (a : Array2 A) (b : Array2 B) : Array2 C :=
  zip_with (zip_with f) a b.

(** [np.zeros((h, w), dtype=np.uint8)] *)
Definition np_zeros (h w : nat) : Array2 Z := replicate h (replicate w 0).

(** What [coco_mask.decode] returns: height x width for a single run-length
    object, height x width x parts for a list of them. *)
Inductive decoded : Type :=
  | Decoded2 (a : Array2 Z)
  | Decoded3 (a : Array2 (list Z)).

(** [mask[..., None]] when the array has fewer than three axes. *)
Definition expand_last (m : decoded) : Array2 (list Z) :=
  match m with
  | Decoded2 a => amap (λ v, [v]) a
  | Decoded3 a => a
  end.

(** [mask.any(axis=2)] *)
Definition any_axis2 (a : Array2 (list Z)) : Array2 bool :=
  amap (existsb (λ v, negb (v =? 0))) a.

(** [mask.astype(np.uint8)] *)
Definition astype_uint8 (a : Array2 bool) : Array2 Z :=
  amap (λ b : bool, if b then 1 else 0) a.

(** Reduction of a stack along axis 0, starting from its first array. *)
Definition reduce_axis0 (f : Z → Z → Z) (first : Array2 Z) (rest : list (Array2 Z)) : Array2 Z :=
  foldl (map2 f) first rest.

(** [a.max(axis=0)] on a non-empty stack. *)
Definition max_axis0 (first : Array2 Z) (rest : list (Array2 Z)) : Array2 Z :=
  reduce_axis0 Z.max first rest.

(** [a.sum(0)] on a non-empty stack of uint8: numpy accumulates in uint64. *)
Definition sum_axis0 (first : Array2 Z) (rest : list (Array2 Z)) : Array2 Z :=
  reduce_axis0 (λ s v, uint64 (s + v)) (amap uint64 first) rest.

(** [masks * cats] with [cats] reshaped to [(-1, 1, 1)], in uint8. *)
Definition mul_cats (masks : list (Array2 Z)) (cats : list Z) : list (Array2 Z) :=
  zip_with (λ m c, amap (λ v, uint8 (v * c)) m) masks cats.

(** [target[cond > 1] = 255] *)
Definition set_overlaps (sums target : Array2 Z) : Array2 Z :=
  map2 (λ s t, if 1 <? s then 255 else t) sums target.

(** The image as far as this file looks at it: [image.size] and the number
    of channels of [np.array(image)]. *)
Record Image : Type := { im_width : nat; im_height : nat; im_channels : nat }.

(** [cv2.cvtColor(image, cv2.COLOR_GRAY2RGB)] when the array has two axes or
    a single channel. *)
Definition to_rgb (im : Image) : Image :=
  if bool_decide (im_channels im ≤ 1)%nat
  then {| im_width := im_width im; im_height := im_height im; im_channels := 3 |}
  else im.

Section COCO.
(** The segmentation of an annotation (polygons or run-length data) is
    opaque here; pycocotools decodes it, and [random.shuffle] and
    [Image.open] are the interpreter's and PIL's. *)
Context {Segmentation : Type}.
Context (coco_decode : Segmentation → nat → nat → decoded).
Context (random_shuffle : Z → list Z → list Z).
Context (Image_open : string → Image).

Record Annotation : Type := {
  category_id : Z;
  area : float;
  segmentation : Segmentation
}.

(** The annotation index: the image table in file order (identifier and
    file name) and the annotations of each image. *)
Record COCO : Type := {
  coco_imgs : list (Z * string);
  imgToAnns : gmap Z (list Annotation)
}.

Definition getImgIds (c : COCO) : list Z := (coco_imgs c).*1.

(** [loadAnns(getAnnIds(imgIds=img_id, iscrowd=None))] *)
Definition loadAnns (c : COCO) (img_id : Z) : list Annotation :=
  default [] (imgToAnns c !! img_id).

(** [loadImgs([img_id])[0]['file_name']]; a missing key is an error. *)
Definition loadImg_file_name (c : COCO) (img_id : Z) : option string :=
  (λ r, r.2.2) <$> list_find (λ p, p.1 = img_id) (coco_imgs c).

Record COCOSegmentation : Type := {
  categories : list Z;
  class_names : option (list string);
  coco_dataset : COCO;
  img_ids : list Z;
  imgs : list string;
  num_imgs : nat
}.

Definition categories_21 : list Z :=
  [0; 5; 2; 16; 9; 44; 6; 3; 17; 62; 21; 67; 18; 19; 4; 1; 64; 20; 63; 7; 72].

Definition class_names_21 : list string :=
  ["__background__"; "aeroplane"; "bicycle"; "bird"; "boat"; "bottle"; "bus";
   "car"; "cat"; "chair"; "cow"; "diningtable"; "dog"; "horse"; "motorbike";
   "person"; "pottedplant"; "sheep"; "sofa"; "train"; "tvmonitor"].

(** Lines 20-28 of [__init__]: [range(num_classes)] is empty for a
    non-positive count. *)
Definition init_categories (num_classes : option Z) : list Z * option (list string) :=
  let n := default 80 num_classes in
  if n =? 21 then (categories_21, Some class_names_21) else (seqZ 0 n, None).

Definition in_categories (cats : list Z) (obj : Annotation) : bool :=
  bool_decide (category_id obj ∈ cats).

(** [sum(obj["area"] for obj in anno)], added left to right from 0. *)
Definition sum_areas (anno : list Annotation) : float :=
  foldl (λ acc obj, PrimFloat.add acc (area obj)) 0%float anno.

Definition _has_valid_annotation (anno : list Annotation) : bool :=
  match anno with
  | [] => false
  | _ => float_gt (sum_areas anno) 1000%float
  end.

(** The category filter runs only when the category list is non-empty
    ([if self.categories:]). *)
Definition construction_annotations (cats : list Z) (c : COCO) (img_id : Z) : list Annotation :=
  let anno := loadAnns c img_id in
  match cats with
  | [] => anno
  | _ => filter (λ obj, in_categories cats obj = true) anno
  end.

Definition _remove_images_without_annotations (cats : list Z) (c : COCO) (ids : list Z) : list Z :=
  filter (λ img_id, _has_valid_annotation (construction_annotations cats c img_id) = true) ids.

(** [self.categories.index(v)]: the first position of [v]. *)
Definition index_of (cats : list Z) (v : Z) : option nat :=
  fst <$> list_find (λ c, c = v) cats.

Definition set_category (obj : Annotation) (k : Z) : Annotation :=
  {| category_id := k; area := area obj; segmentation := segmentation obj |}.

(** The remapping works on a deep copy, so the index is left untouched;
    [index] raises on a value that is not in the list. *)
Definition _filter_and_remap_categories (cats : list Z) (anno : list Annotation) (remap : bool)
  : option (list Annotation) :=
  let anno := filter (λ obj, in_categories cats obj = true) anno in
  if remap
  then mapM (λ obj, set_category obj ∘ Z.of_nat <$> index_of cats (category_id obj)) anno
  else Some anno.

Definition _convert_poly_to_mask (segmentations : list Segmentation) (height width : nat)
  : list (Array2 Z) :=
  (λ polygons, astype_uint8 (any_axis2 (expand_last (coco_decode polygons height width))))
    <$> segmentations.

Definition _convert_polys_to_mask (image : Image) (anno : list Annotation) : Array2 Z :=
  let w := im_width image in
  let h := im_height image in
  let segmentations := segmentation <$> anno in
  let cats := category_id <$> anno in
  match _convert_poly_to_mask segmentations h w with
  | first :: rest =>
      match mul_cats (first :: rest) (uint8 <$> cats) with
      | p :: ps => set_overlaps (sum_axis0 first rest) (max_axis0 p ps)
      | [] => []
      end
  | [] => np_zeros h w
  end.

Inductive item : Type :=
  | Labelled (image : Image) (target : Array2 Z)
  | Unlabelled (path : string).

(** [__init__], from the listing of [root] on: [image_dir] is the
    directory of the split's images.  [None] is the failed assertion or a
    missing image record. *)
Definition __init__ (dataset_folders : list string) (image_dir : string) (c : COCO)
    (shuffle : Z) (num_imgs_arg : option Z) (num_classes : option Z)
  : option COCOSegmentation :=
  let '(cats, names) := init_categories num_classes in
  if negb (bool_decide ("annotations" ∈ dataset_folders)) then None else
  let ids := _remove_images_without_annotations cats c (getImgIds c) in
  let ids := if shuffle =? 0 then ids else random_shuffle shuffle ids in
  let ids := match num_imgs_arg with
             | Some n => py_slice_to ids n
             | None => ids
             end in
  paths ← mapM (λ img_id, os_path_join image_dir <$> loadImg_file_name c img_id) ids;
  Some {| categories := cats; class_names := names; coco_dataset := c;
          img_ids := ids; imgs := paths; num_imgs := length paths |}.

Definition __getitem__ (self : COCOSegmentation) (idx : Z) (with_label : bool) : option item :=
  if with_label then
    path ← py_getitem (imgs self) idx;
    let image := Image_open path in
    img_id ← py_getitem (img_ids self) idx;
    let anno := loadAnns (coco_dataset self) img_id in
    anno ← _filter_and_remap_categories (categories self) anno true;
    let target := _convert_polys_to_mask image anno in
    Some (Labelled (to_rgb image) target)
  else
    Unlabelled <$> py_getitem (imgs self) idx.

Definition __len__ (self : COCOSegmentation) : nat := num_imgs self.

(** *** Notions the properties below are stated with *)

(** The annotations of an image that lie within the category list: the
    ones an access decodes. *)
Definition kept_annotations (cats : list Z) (c : COCO) (img_id : Z) : list Annotation :=
  filter (λ obj, in_categories cats obj = true) (loadAnns c img_id).

(** The class index of an annotation: the position of its category. *)
Definition class_index (cats : list Z) (obj : Annotation) : Z :=
  Z.of_nat (default 0%nat (index_of cats (category_id obj))).

(** Whether the region decoded for an annotation contains pixel [(y, x)]
    of a [height] x [width] image. *)
Definition covers (height width : nat) (obj : Annotation) (y x : nat) : bool :=
  default false
    (pixel (any_axis2 (expand_last (coco_decode (segmentation obj) height width))) y x).

(** pycocotools decodes every annotation to the size it is asked for. *)
Definition decodes_to_size : Prop :=
  ∀ s h w, has_shape h w (expand_last (coco_decode s h w)).

(** [random.shuffle] rearranges the list and does nothing else. *)
Definition shuffle_permutes : Prop :=
  ∀ seed l, random_shuffle seed l ≡ₚ l.

(** How many of the annotations cover a pixel. *)
Definition cover_count (height width : nat) (anno : list Annotation) (y x : nat) : nat :=
  length (filter (λ obj, covers height width obj y x = true) anno).

(** The largest class index (as a uint8) among the annotations covering a
    pixel, 0 when there is none. *)
Definition max_class (cats : list Z) (height width : nat) (anno : list Annotation)
    (y x : nat) : Z :=
  foldr Z.max 0
    ((λ obj, if covers height width obj y x then uint8 (class_index cats obj) else 0) <$> anno).

End COCO.

End DatasetUtils.

(** ** Python strings *)

(** [c.isspace()] on the code points below 256. *)
Definition py_isspace (c : ascii) : bool :=
  let n := nat_of_ascii c in
  ((9 <=? n) && (n <=? 13) || (28 <=? n) && (n <=? 32) || (n =? 133) || (n =? 160))%nat.

(** [s.lstrip()] *)
Fixpoint lstrip (s : string) : string :=
  match s with
  | String c s' => if py_isspace c then lstrip s' else s
  | EmptyString => EmptyString
  end.

(** [s.strip()]: blanks removed at both ends.  The code never calls it; it
    is what "a trimmed token" says, and stands next to [lstrip] to be
    compared with it. *)
Definition strip (s : string) : string :=
  String.rev (lstrip (String.rev (lstrip s))).

(** [s.split(sep)] for a one-character separator: never an empty list. *)
Fixpoint py_split (sep : ascii) (s : string) : list string :=
  match s with
  | EmptyString => [EmptyString]
  | String c s' =>
      if Ascii.eqb c sep then EmptyString :: py_split sep s'
      else match py_split sep s' with
           | t :: ts => String c t :: ts
           | [] => [String c EmptyString]
           end
  end.

(** [c.lower()] on the code points below 256: A-Z and the accented capitals
    of Latin-1 (all of 0xC0-0xDE but the multiplication sign). *)
Definition py_lower_char (c : ascii) : ascii :=
  let n := nat_of_ascii c in
  if ((65 <=? n) && (n <=? 90) || (192 <=? n) && (n <=? 222) && negb (n =? 215))%nat
  then ascii_of_nat (n + 32) else c.

Fixpoint py_lower (s : string) : string :=
  match s with
  | String c s' => String (py_lower_char c) (py_lower s')
  | EmptyString => EmptyString
  end.

(** [s.startswith(p)] *)
Definition startswith (s p : string) : bool := String.prefix p s.

(** [p in s] *)
Fixpoint py_contains (p s : string) : bool :=
  String.prefix p s ||
  match s with
  | String _ s' => py_contains p s'
  | EmptyString => false
  end.

(** Truth value of a string. *)
Definition str_truthy (s : string) : bool := negb (String.eqb s "").

(** [round(x)] of a float: to the nearest integer, ties to the even one;
    an error on infinities and NaN. *)
Inductive exn : Type :=
  | AttributeError (msg : string)
  | RuntimeError (msg : string)
  | AssertionError (msg : string)
  | ZeroDivisionError (msg : string)
  | ValueError (msg : string)
  | OverflowError (msg : string).

Inductive result (A : Type) : Type :=
  | Ok (a : A)
  | Raise (e : exn).
Arguments Ok {A} a.
Arguments Raise {A} e.

Definition round_half_even (m : Z) (e : Z) : Z :=
  if 0 <=? e then m * 2 ^ e
  else
    let d := 2 ^ (- e) in
    let q := m / d in
    let r := m mod d in
    if 2 * r <? d then q
    else if d <? 2 * r then q + 1
    else if Z.even q then q else q + 1.

Definition py_round (x : float) : result Z :=
  match Prim2SF x with
  | S754_zero _ => Ok 0
  | S754_infinity _ => Raise (OverflowError "cannot convert float infinity to integer")
  | S754_nan => Raise (ValueError "cannot convert float NaN to integer")
  | S754_finite s m e =>
      let v := round_half_even (Z.pos m) e in
      Ok (if s then - v else v)
  end.

(** [a / b] on Python ints, for operands that binary64 holds exactly. *)
Definition py_truediv (a b : Z) : result float :=
  if b =? 0 then Raise (ZeroDivisionError "division by zero")
  else Ok (PrimFloat.div (float_of_Z a) (float_of_Z b)).

(** [min(1.0, x)]: the second argument wins only when it is smaller. *)
Definition py_min_1 (x : float) : float :=
  if PrimFloat.ltb x 1%float then x else 1%float.

(** ** [references/classification/train.py] *)
Module Train.

(** The options that [main], [train_one_epoch], [evaluate] and
    [export_model] branch or compute on, with [weights_url] and
    [weights_enum], which [main] adds.  Hyper-parameters that are only handed
    to the constructors of other libraries are left out. *)
Record Args : Type := {
  data_path : string;
  model : string;
  batch_size : Z;
  epochs : Z;
  opt : string;
  bias_weight_decay : option float;
  transformer_embedding_decay : option float;
  mixup_alpha : float;
  cutmix_alpha : float;
  lr_scheduler : string;
  lr_warmup_epochs : Z;
  lr_warmup_method : string;
  output_dir : string;
  resume : string;
  start_epoch : Z;
  sync_bn : bool;
  test_only : bool;
  amp : bool;
  world_size : Z;
  distributed : Z;
  parallel : Z;
  model_ema : bool;
  model_ema_steps : Z;
  model_ema_decay : float;
  use_deterministic_algorithms : bool;
  clip_grad_norm : option float;
  weights : option string;
  model_surgery : Z;
  quantization : Z;
  pruning : Z;
  compile_model : Z;
  train_epoch_size_factor : float;
  val_epoch_size_factor : float;
  weights_url : option string;
  weights_enum : option string
}.

(** The defaults of [get_args_parser]. *)
Definition default_args : Args := {|
  data_path := "/datasets01/imagenet_full_size/061417/";
  model := "resnet18";
  batch_size := 32;
  epochs := 90;
  opt := "sgd";
  bias_weight_decay := None;
  transformer_embedding_decay := None;
  mixup_alpha := 0%float;
  cutmix_alpha := 0%float;
  lr_scheduler := "steplr";
  lr_warmup_epochs := 0;
  lr_warmup_method := "constant";
  output_dir := ".";
  resume := "";
  start_epoch := 0;
  sync_bn := false;
  test_only := false;
  amp := false;
  world_size := 1;
  distributed := 0;
  parallel := 0;
  model_ema := false;
  model_ema_steps := 32;
  model_ema_decay := 0.99998%float;
  use_deterministic_algorithms := false;
  clip_grad_norm := None;
  weights := None;
  model_surgery := 0;
  quantization := 0;
  pruning := 0;
  compile_model := 0;
  train_epoch_size_factor := 0%float;
  val_epoch_size_factor := 0%float;
  weights_url := None;
  weights_enum := None
|}.

(** [(args.weights_url, args.weights_enum) = ...] *)
Definition set_weights_split (a : Args) (url enum : option string) : Args := {|
  data_path := data_path a; model := model a; batch_size := batch_size a;
  epochs := epochs a; opt := opt a; bias_weight_decay := bias_weight_decay a;
  transformer_embedding_decay := transformer_embedding_decay a;
  mixup_alpha := mixup_alpha a; cutmix_alpha := cutmix_alpha a;
  lr_scheduler := lr_scheduler a; lr_warmup_epochs := lr_warmup_epochs a;
  lr_warmup_method := lr_warmup_method a; output_dir := output_dir a;
  resume := resume a; start_epoch := start_epoch a; sync_bn := sync_bn a;
  test_only := test_only a; amp := amp a; world_size := world_size a;
  distributed := distributed a; parallel := parallel a; model_ema := model_ema a;
  model_ema_steps := model_ema_steps a; model_ema_decay := model_ema_decay a;
  use_deterministic_algorithms := use_deterministic_algorithms a;
  clip_grad_norm := clip_grad_norm a; weights := weights a;
  model_surgery := model_surgery a; quantization := quantization a;
  pruning := pruning a; compile_model := compile_model a;
  train_epoch_size_factor := train_epoch_size_factor a;
  val_epoch_size_factor := val_epoch_size_factor a;
  weights_url := url; weights_enum := enum
|}.

(** [args.lr_scheduler = args.lr_scheduler.lower()] *)
Definition set_lr_scheduler (a : Args) (s : string) : Args := {|
  data_path := data_path a; model := model a; batch_size := batch_size a;
  epochs := epochs a; opt := opt a; bias_weight_decay := bias_weight_decay a;
  transformer_embedding_decay := transformer_embedding_decay a;
  mixup_alpha := mixup_alpha a; cutmix_alpha := cutmix_alpha a;
  lr_scheduler := s; lr_warmup_epochs := lr_warmup_epochs a;
  lr_warmup_method := lr_warmup_method a; output_dir := output_dir a;
  resume := resume a; start_epoch := start_epoch a; sync_bn := sync_bn a;
  test_only := test_only a; amp := amp a; world_size := world_size a;
  distributed := distributed a; parallel := parallel a; model_ema := model_ema a;
  model_ema_steps := model_ema_steps a; model_ema_decay := model_ema_decay a;
  use_deterministic_algorithms := use_deterministic_algorithms a;
  clip_grad_norm := clip_grad_norm a; weights := weights a;
  model_surgery := model_surgery a; quantization := quantization a;
  pruning := pruning a; compile_model := compile_model a;
  train_epoch_size_factor := train_epoch_size_factor a;
  val_epoch_size_factor := val_epoch_size_factor a;
  weights_url := weights_url a; weights_enum := weights_enum a
|}.

(** [args.start_epoch = checkpoint["epoch"] + 1] *)
Definition set_start_epoch (a : Args) (e : Z) : Args := {|
  data_path := data_path a; model := model a; batch_size := batch_size a;
  epochs := epochs a; opt := opt a; bias_weight_decay := bias_weight_decay a;
  transformer_embedding_decay := transformer_embedding_decay a;
  mixup_alpha := mixup_alpha a; cutmix_alpha := cutmix_alpha a;
  lr_scheduler := lr_scheduler a; lr_warmup_epochs := lr_warmup_epochs a;
  lr_warmup_method := lr_warmup_method a; output_dir := output_dir a;
  resume := resume a; start_epoch := e; sync_bn := sync_bn a;
  test_only := test_only a; amp := amp a; world_size := world_size a;
  distributed := distributed a; parallel := parallel a; model_ema := model_ema a;
  model_ema_steps := model_ema_steps a; model_ema_decay := model_ema_decay a;
  use_deterministic_algorithms := use_deterministic_algorithms a;
  clip_grad_norm := clip_grad_norm a; weights := weights a;
  model_surgery := model_surgery a; quantization := quantization a;
  pruning := pruning a; compile_model := compile_model a;
  train_epoch_size_factor := train_epoch_size_factor a;
  val_epoch_size_factor := val_epoch_size_factor a;
  weights_url := weights_url a; weights_enum := weights_enum a
|}.

(** Truth value of an int and of an optional string ([None] and the empty
    string are false). *)
Definition int_truthy (z : Z) : bool := negb (z =? 0).
Definition opt_str_truthy (s : option string) : bool :=
  match s with
  | Some s => str_truthy s
  | None => false
  end.

(** What is saved in a checkpoint, as far as it varies between calls. *)
Record Checkpoint : Type := {
  ck_epoch : Z;
  ck_model_ema : bool;
  ck_scaler : bool
}.

Inductive optimizer : Type :=
  | AdaptiveSGD (nesterov : bool)
  | RMSprop
  | AdamW.

Inductive scheduler : Type :=
  | StepLR
  | CosineAnnealingLR
  | ExponentialLR
  | LinearLR
  | ConstantLR
  | SequentialLR.

(** The calls into other modules and libraries, in the order made. *)
Inductive event : Type :=
  | Mkdir (path : string)
  | TeeLogger (path : string)
  | InitDistributedMode
  | PrintArgs
  | UseDeterministicAlgorithms (on : bool)
  | LoadData (train_dir val_dir : string)
  | MixupCutmix (mixup cutmix : bool)
  | DataLoaders
  | GetModel (name : string) (weights_enum : option string)
  | ConvertToLiteModel
  | ConvertToLiteFx
  | LoadWeights (url : string)
  | PrunerModule
  | QuantTrainModule
  | QATFxModule
  | ModelToDevice
  | ConvertSyncBatchnorm
  | TorchCompile
  | CrossEntropyLoss
  | SetWeightDecay (custom_keys : list string)
  | Optimizer (o : optimizer)
  | GradScaler
  | LrScheduler (s : scheduler)
  | DistributedDataParallel
  | DataParallel
  | ExponentialMovingAverage (decay : float)
  | TorchLoad (path : string)
  | LoadStateDict (what : string)
  | CudnnDeterministic
  | SamplerSetEpoch (epoch : Z)
  | TrainOneEpoch (epoch : Z)
  | LrSchedulerStep
  | Evaluate (log_suffix : string) (epoch : Z)
  | ConvertQuantized
  | ExportOnMaster (path : string)
  | SaveOnMaster (checkpoint : Checkpoint) (path : string)
  | LoggerClose
  | PrintTrainingTime
  (* inside [train_one_epoch] and [evaluate] *)
  | OptimizerStep (epoch i : Z) (scaled clipped : bool)
  | EmaUpdate (i : Z)
  | EmaReset
  | MetricUpdate (i batch_size : Z)
  | ReduceAcrossProcesses (n : Z)
  | Warn
  | SynchronizeBetweenProcesses.

(** A run: the calls made so far and either a value or the exception that
    ended the run.  Nothing catches an exception. *)
Definition M (A : Type) : Type := list event * result A.

Definition ret {A} (a : A) : M A := ([], Ok a).

Definition bind {A B} (m : M A) (f : A → M B) : M B :=
  match m with
  | (t, Ok a) => let '(t', r) := f a in (t ++ t', r)
  | (t, Raise e) => (t, Raise e)
  end.

Definition emit (ev : event) : M unit := ([ev], Ok tt).
Definition raise {A} (e : exn) : M A := ([], Raise e).
Definition lift {A} (r : result A) : M A := ([], r).
Definition when (c : bool) (ev : event) : M unit := if c then emit ev else ret tt.

Definition trace {A} (m : M A) : list event := m.1.
Definition outcome {A} (m : M A) : result A := m.2.

Notation "x <- m ;; k" := (bind m (λ x, k))
  (at level 100, m at next level, right associativity, only parsing).
Notation "m ;; k" := (bind m (λ _, k))
  (at level 100, right associativity, only parsing).

(** What the run gets from outside this file. *)
Record World : Type := {
  (* edgeai_torchmodelopt.xnn.utils.is_url_or_file *)
  is_url_or_file : string → bool;
  (* utils.init_distributed_mode, which updates [args] *)
  init_distributed_mode : Args → Args;
  (* the mode constants of edgeai_torchmodelopt.xmodelopt *)
  SURGERY_LEGACY : Z;
  SURGERY_FX : Z;
  PRUNING_LEGACY : Z;
  PRUNING_FX : Z;
  QUANTIZATION_LEGACY : Z;
  QUANTIZATION_FX : Z;
  (* the "epoch" entry of the checkpoint file at a path *)
  checkpoint_epoch : string → Z;
  (* the average top-1 accuracy a call of [evaluate] in [main] returns:
     for the plain ([false]) or the EMA ([true]) model after an epoch *)
  evaluate_acc1 : bool → Z → float;
  (* utils.reduce_across_processes, torch.distributed.get_rank and the
     metric logger's [acc1.global_avg] over the batches seen *)
  reduce_across_processes : Z → Z;
  get_rank : Z;
  acc1_global_avg : list Z → float
}.

Section Driver.
Context (w : World).

(** Lines 229-241.  [None.split] is an AttributeError. *)
Definition split_weights_step (acc : list string * list string) (tok : string)
  : list string * list string :=
  let tok := lstrip tok in
  if is_url_or_file w tok then (acc.1 ++ [tok], acc.2) else (acc.1, acc.2 ++ [tok]).

Definition split_weights (weights_name : option string)
  : result (option string * option string) :=
  match weights_name with
  | None => Raise (AttributeError "'NoneType' object has no attribute 'split'")
  | Some s =>
      let weights_list := py_split ","%char s in
      let '(weights_urls, weights_enums) := foldl split_weights_step ([], []) weights_list in
      Ok (head weights_urls, head weights_enums)
  end.

(** The test that ends a batch loop early:
    [factor and i >= round(factor * dataset_len)]. *)
Definition epoch_size_reached (factor : float) (i dataset_len : Z) : M bool :=
  if float_truthy factor then
    t <- lift (py_round (PrimFloat.mul factor (float_of_Z dataset_len))) ;;
    ret (t <=? i)
  else ret false.

(** Lines 23-66.  The loader is the list of its batches, each given by
    its number of samples; [model_ema] says whether an EMA model was
    passed, [scaler] whether a gradient scaler was. *)
Definition ema_step (args : Args) (model_ema : bool) (epoch i : Z) : M unit :=
  if model_ema then
    (if model_ema_steps args =? 0
     then raise (ZeroDivisionError "integer division or modulo by zero")
     else
       if i mod model_ema_steps args =? 0 then
         emit (EmaUpdate i) ;;
         when (epoch <? lr_warmup_epochs args) EmaReset
       else ret tt)
  else ret tt.

Fixpoint train_batches (args : Args) (model_ema scaler : bool) (epoch dataset_len : Z)
    (i : Z) (batches : list Z) : M unit :=
  match batches with
  | [] => ret tt
  | n :: rest =>
      emit (OptimizerStep epoch i scaler (bool_decide (is_Some (clip_grad_norm args)))) ;;
      ema_step args model_ema epoch i ;;
      emit (MetricUpdate i n) ;;
      stop <- epoch_size_reached (train_epoch_size_factor args) i dataset_len ;;
      if stop then ret tt
      else train_batches args model_ema scaler epoch dataset_len (i + 1) rest
  end.

Definition train_one_epoch (args : Args) (model_ema scaler : bool) (epoch : Z)
    (data_loader : list Z) : M unit :=
  let dataset_len := Z.of_nat (length data_loader) in
  train_batches args model_ema scaler epoch dataset_len 0 data_loader.

(** Lines 69-112.  [dataset_size] is [len(data_loader.dataset)]; the
    second component of the value is [num_processed_samples] before the
    reduction. *)
Fixpoint evaluate_batches (args : Args) (dataset_len : Z) (i : Z) (batches : list Z)
    (num_processed_samples : Z) (seen : list Z) : M (Z * list Z) :=
  match batches with
  | [] => ret (num_processed_samples, seen)
  | n :: rest =>
      emit (MetricUpdate i n) ;;
      let num_processed_samples := num_processed_samples + n in
      let seen := seen ++ [n] in
      stop <- epoch_size_reached (val_epoch_size_factor args) i dataset_len ;;
      if stop then ret (num_processed_samples, seen)
      else evaluate_batches args dataset_len (i + 1) rest num_processed_samples seen
  end.

Definition evaluate (args : Args) (data_loader : list Z) (dataset_size : Z) : M (float * Z) :=
  let dataset_len := Z.of_nat (length data_loader) in
  r <- evaluate_batches args dataset_len 0 data_loader 0 [] ;;
  let '(num_processed_samples, seen) := r in
  emit (ReduceAcrossProcesses num_processed_samples) ;;
  let reduced := reduce_across_processes w num_processed_samples in
  when (negb (dataset_size =? reduced)
        && (negb (int_truthy (distributed args)) || (get_rank w =? 0))) Warn ;;
  emit SynchronizeBetweenProcesses ;;
  ret (acc1_global_avg w seen, num_processed_samples).

(** Lines 216-226. *)
Definition export_model (args : Args) (epoch : Z) (model_name : string) : M unit :=
  when (int_truthy (quantization args)) ConvertQuantized ;;
  emit (ExportOnMaster (os_path_join (output_dir args) model_name)).

(** *** [main], lines 244-483, in the order of the source *)

(** Lines 245-258: output directory, log file, the weights specifier, the
    distributed set-up and the check of the two parallel modes.  The value
    is [args] as the rest of [main] sees it. *)
Definition main_startup (args : Args) : M Args :=
  when (str_truthy (output_dir args)) (Mkdir (output_dir args)) ;;
  emit (TeeLogger (os_path_join (output_dir args) "run.log")) ;;
  sw <- lift (split_weights (weights args)) ;;
  let args := set_weights_split args sw.1 sw.2 in
  emit InitDistributedMode ;;
  let args := init_distributed_mode w args in
  emit PrintArgs ;;
  if int_truthy (distributed args) && int_truthy (parallel args) then
    raise (RuntimeError
      "both DistributedDataParallel and DataParallel cannot be used simultaneously")
  else ret args.

(** Lines 260-295: device, determinism, datasets and loaders. *)
Definition main_data (args : Args) : M unit :=
  emit (UseDeterministicAlgorithms (use_deterministic_algorithms args)) ;;
  emit (LoadData (os_path_join (data_path args) "train")
                 (os_path_join (data_path args) "val")) ;;
  let mixup := float_gt (mixup_alpha args) 0%float in
  let cutmix := float_gt (cutmix_alpha args) 0%float in
  when (mixup || cutmix) (MixupCutmix mixup cutmix) ;;
  emit DataLoaders.

(** Lines 297-334: the model and its transforms. *)
Definition main_model (args : Args) : M unit :=
  emit (GetModel (model args) (weights_enum args)) ;;
  (if model_surgery args =? SURGERY_LEGACY w then emit ConvertToLiteModel
   else when (model_surgery args =? SURGERY_FX w) ConvertToLiteFx) ;;
  (if opt_str_truthy (weights_url args) && negb (test_only args)
   then emit (LoadWeights (default "" (weights_url args))) else ret tt) ;;
  (if pruning args =? PRUNING_LEGACY w then
     raise (AssertionError
       "Pruning is currently not supported in the legacy modules based method")
   else when (pruning args =? PRUNING_FX w) PrunerModule) ;;
  (if quantization args =? QUANTIZATION_LEGACY w then emit QuantTrainModule
   else when (quantization args =? QUANTIZATION_FX w) QATFxModule) ;;
  (if opt_str_truthy (weights_url args) && test_only args
   then emit (LoadWeights (default "" (weights_url args))) else ret tt) ;;
  emit ModelToDevice ;;
  when (int_truthy (distributed args) && sync_bn args) ConvertSyncBatchnorm ;;
  when (int_truthy (compile_model args)) TorchCompile ;;
  emit CrossEntropyLoss.

(** Lines 336-347: the parameter groups. *)
Definition main_weight_decay (args : Args) : M unit :=
  let custom_keys_weight_decay :=
    (if bool_decide (is_Some (bias_weight_decay args)) then ["bias"] else []) ++
    (if bool_decide (is_Some (transformer_embedding_decay args))
     then ["class_token"; "position_embedding"; "relative_position_bias_table"]
     else []) in
  emit (SetWeightDecay custom_keys_weight_decay).

(** Lines 349-367: the optimizer. *)
Definition main_optimizer (args : Args) : M unit :=
  let opt_name := py_lower (opt args) in
  if startswith opt_name "sgd" then
    emit (Optimizer (AdaptiveSGD (py_contains "nesterov" opt_name)))
  else if String.eqb opt_name "rmsprop" then emit (Optimizer RMSprop)
  else if String.eqb opt_name "adamw" then emit (Optimizer AdamW)
  else raise (RuntimeError
    ("Invalid optimizer " +:+ opt args +:+ ". Only SGD, RMSprop and AdamW are supported.")).

(** Lines 369-403: the gradient scaler and the learning-rate schedule. *)
Definition main_scheduler (args : Args) : M Args :=
  when (amp args) GradScaler ;;
  let args := set_lr_scheduler args (py_lower (lr_scheduler args)) in
  (if String.eqb (lr_scheduler args) "steplr" then emit (LrScheduler StepLR)
   else if String.eqb (lr_scheduler args) "cosineannealinglr"
        then emit (LrScheduler CosineAnnealingLR)
   else if String.eqb (lr_scheduler args) "exponentiallr"
        then emit (LrScheduler ExponentialLR)
   else raise (RuntimeError
     ("Invalid lr scheduler '" +:+ lr_scheduler args +:+
      "'. Only StepLR, CosineAnnealingLR and ExponentialLR are supported."))) ;;
  (if 0 <? lr_warmup_epochs args then
     (if String.eqb (lr_warmup_method args) "linear" then emit (LrScheduler LinearLR)
      else if String.eqb (lr_warmup_method args) "constant"
           then emit (LrScheduler ConstantLR)
      else raise (RuntimeError
        ("Invalid warmup lr method '" +:+ lr_warmup_method args +:+
         "'. Only linear and constant are supported."))) ;;
     emit (LrScheduler SequentialLR)
   else ret tt) ;;
  ret args.

(** Lines 405-411: the parallel wrappers. *)
Definition main_wrap (args : Args) : M unit :=
  if int_truthy (distributed args) then emit DistributedDataParallel
  else when (int_truthy (parallel args)) DataParallel.

(** Lines 421-423: the weight of the newest parameters in the average. *)
Definition ema_alpha (args : Args) : result float :=
  match py_truediv (world_size args * batch_size args * model_ema_steps args) (epochs args) with
  | Raise e => Raise e
  | Ok adjust =>
      let alpha := PrimFloat.sub 1%float (model_ema_decay args) in
      Ok (py_min_1 (PrimFloat.mul alpha adjust))
  end.

(** Lines 413-424.  The value says whether there is an EMA model. *)
Definition main_ema (args : Args) : M bool :=
  if model_ema args then
    alpha <- lift (ema_alpha args) ;;
    emit (ExponentialMovingAverage (PrimFloat.sub 1%float alpha)) ;;
    ret true
  else ret false.

(** Lines 426-436. *)
Definition main_resume (args : Args) (model_ema scaler : bool) : M Args :=
  if str_truthy (resume args) then
    emit (TorchLoad (resume args)) ;;
    emit (LoadStateDict "model") ;;
    (if negb (test_only args) then
       emit (LoadStateDict "optimizer") ;; emit (LoadStateDict "lr_scheduler")
     else ret tt) ;;
    let args := set_start_epoch args (checkpoint_epoch w (resume args) + 1) in
    when model_ema (LoadStateDict "model_ema") ;;
    when scaler (LoadStateDict "scaler") ;;
    ret args
  else ret args.

(** Lines 438-447. *)
Definition main_test_only (args : Args) (model_ema : bool) : M unit :=
  emit CudnnDeterministic ;;
  emit (Evaluate (if model_ema then "EMA" else "") (start_epoch args)) ;;
  export_model args 0 "model_test.onnx".

(** Lines 453-478: one epoch.  The value is [best_acc] after it. *)
Definition main_epoch (args : Args) (model_ema scaler : bool) (epoch : Z) (best_acc : float)
  : M float :=
  when (int_truthy (distributed args)) (SamplerSetEpoch epoch) ;;
  emit (TrainOneEpoch epoch) ;;
  emit LrSchedulerStep ;;
  emit (Evaluate "" epoch) ;;
  let epoch_acc := evaluate_acc1 w false epoch in
  epoch_acc <- (if model_ema
                then emit (Evaluate "EMA" epoch) ;; ret (evaluate_acc1 w true epoch)
                else ret epoch_acc) ;;
  if str_truthy (output_dir args) then
    let checkpoint :=
      {| ck_epoch := epoch; ck_model_ema := model_ema; ck_scaler := scaler |} in
    (if (epoch =? 0) || (epochs args - 10 <=? epoch) then
       emit (SaveOnMaster checkpoint
               (os_path_join (output_dir args) ("checkpoint_" +:+ pretty epoch +:+ ".pth"))) ;;
       export_model args epoch ("model_" +:+ pretty epoch +:+ ".onnx")
     else ret tt) ;;
    if float_ge epoch_acc best_acc then
      emit (SaveOnMaster checkpoint (os_path_join (output_dir args) "checkpoint.pth")) ;;
      export_model args epoch "model.onnx" ;;
      ret epoch_acc
    else ret best_acc
  else ret best_acc.

(** Lines 451-478: [for epoch in range(args.start_epoch, args.epochs)]. *)
Fixpoint main_epochs (args : Args) (model_ema scaler : bool) (es : list Z) (best_acc : float)
  : M float :=
  match es with
  | [] => ret best_acc
  | epoch :: rest =>
      best_acc <- main_epoch args model_ema scaler epoch best_acc ;;
      main_epochs args model_ema scaler rest best_acc
  end.

Definition py_range (a b : Z) : list Z := seqZ a (b - a).

Definition main_train (args : Args) (model_ema scaler : bool) : M unit :=
  let best_acc := 0%float in
  main_epochs args model_ema scaler (py_range (start_epoch args) (epochs args)) best_acc ;;
  emit LoggerClose ;;
  emit PrintTrainingTime.

(** Everything before the EMA model: lines 245-411. *)
Definition main_setup (args : Args) : M Args :=
  args <- main_startup args ;;
  main_data args ;;
  main_model args ;;
  main_weight_decay args ;;
  main_optimizer args ;;
  args <- main_scheduler args ;;
  main_wrap args ;;
  ret args.

(** Everything before the test-only branch: lines 245-436.  The value is
    [args] with whether there is an EMA model and a gradient scaler. *)
Definition main_prologue (args : Args) : M (Args * bool * bool) :=
  args <- main_setup args ;;
  let scaler := amp args in
  model_ema <- main_ema args ;;
  args <- main_resume args model_ema scaler ;;
  ret (args, model_ema, scaler).

Definition main (args : Args) : M unit :=
  r <- main_prologue args ;;
  let '(args, model_ema, scaler) := r in
  if test_only args then main_test_only args model_ema
  else main_train args model_ema scaler.

(** *** Notions the properties below are stated with *)




(** The files of an epoch. *)
Definition numbered_checkpoint (args : Args) (epoch : Z) : string :=
  os_path_join (output_dir args) ("checkpoint_" +:+ pretty epoch +:+ ".pth").


(** How many batches a batch loop goes through when it starts at index
    [i] with [remaining] batches left and stops after the first index that
    has reached [threshold], if there is one. *)
Definition batches_done (threshold : option Z) (i remaining : Z) : Z :=
  match threshold with
  | Some t => Z.min remaining (Z.max (t - i) 0 + 1)
  | None => remaining
  end.

(** The first token that is a URL or a path, and the first that is not. *)
Definition first_of_each_kind (tokens : list string) : option string * option string :=
  (head (filter (λ t, is_url_or_file w t = true) tokens),
   head (filter (λ t, is_url_or_file w t = false) tokens)).

(** [split_weights] as the specification words it: the first trimmed token
    of each kind. *)
Definition spec_split_weights (s : string) : option string * option string :=
  first_of_each_kind (strip <$> py_split ","%char s).

End Driver.





(** Calls that build a dataset, a loader or a model. *)
Definition is_construction (ev : event) : bool :=
  match ev with
  | LoadData _ _ | MixupCutmix _ _ | DataLoaders | GetModel _ _
  | ConvertToLiteModel | ConvertToLiteFx | LoadWeights _ | PrunerModule
  | QuantTrainModule | QATFxModule | ModelToDevice | ConvertSyncBatchnorm
  | TorchCompile => true
  | _ => false
  end.

(** Calls of the training loop and of the test-only branch. *)
Definition is_training (ev : event) : bool :=
  match ev with
  | SamplerSetEpoch _ | TrainOneEpoch _ | LrSchedulerStep | Evaluate _ _
  | ConvertQuantized | ExportOnMaster _ | SaveOnMaster _ _ | CudnnDeterministic
  | LoggerClose | PrintTrainingTime => true
  | _ => false
  end.


(** The batches a batch loop went through, by their index. *)
Definition processed (t : list event) : list Z :=
  omap (λ ev, match ev with MetricUpdate i _ => Some i | _ => None end) t.

End Train.

(** ** Concrete data for the examples *)
Module Examples.
Import DatasetUtils.

(** A stand-in for pycocotools: a segmentation is a rectangle
    [(y0, x0, y1, x1)], decoded to a height x width x 1 array. *)
Definition rect : Type := nat * nat * nat * nat.

Definition in_rect (r : rect) (y x : nat) : bool :=
  let '(y0, x0, y1, x1) := r in
  ((y0 <=? y) && (y <? y1) && (x0 <=? x) && (x <? x1))%nat.

Definition rect_decode (r : rect) (h w : nat) : decoded :=
  Decoded3 ((λ y, (λ x, [if in_rect r y x then 1 else 0]) <$> seq 0 w) <$> seq 0 h).

Definition reverse_shuffle (seed : Z) (l : list Z) : list Z := reverse l.

Definition open_4x4 (path : string) : Image :=
  {| im_width := 4; im_height := 4; im_channels := 1 |}.

Definition ann (cat : Z) (a : float) (r : rect) : @Annotation rect :=
  {| category_id := cat; area := a; segmentation := r |}.

(** Image 1: a bottle (44) and a car (3) that overlap, and a second car.
    Image 2: one bottle of area exactly 1000.  Image 3: one bottle of area
    1001.  Image 4: only a category outside the 21-class table.  Image 5:
    no annotation. *)
Definition coco_example : @COCO rect := {|
  coco_imgs := [(1, "a.jpg"); (2, "b.jpg"); (3, "c.jpg"); (4, "d.jpg"); (5, "e.jpg")];
  imgToAnns := list_to_map
    [(1, [ann 44 600%float (0, 0, 2, 2)%nat; ann 3 600%float (1, 1, 3, 3)%nat;
          ann 3 50%float (1, 1, 2, 4)%nat]);
     (2, [ann 44 1000%float (0, 0, 2, 2)%nat]);
     (3, [ann 44 1001%float (0, 0, 2, 2)%nat]);
     (4, [ann 10 5000%float (0, 0, 4, 4)%nat])]
|}.

Definition folders_example : list string := ["annotations"; "images"].

(** A stand-in for what [train.py] gets from outside: a specifier is a
    URL or a path when it holds a slash or a dot; the distributed set-up
    leaves [args] alone; the plain model scores 10, 20, 30, 30, 20, 40, ...
    over the epochs (repeating every six) and the EMA model always 25. *)
Definition plain_acc (epoch : Z) : float :=
  match epoch mod 6 with
  | 0 => 10%float
  | 1 => 20%float
  | 2 => 30%float
  | 3 => 30%float
  | 4 => 20%float
  | _ => 40%float
  end.

Definition world_example : Train.World := {|
  Train.is_url_or_file := λ s, py_contains "/" s || py_contains "." s;
  Train.init_distributed_mode := λ a, a;
  Train.SURGERY_LEGACY := 1;
  Train.SURGERY_FX := 2;
  Train.PRUNING_LEGACY := 1;
  Train.PRUNING_FX := 2;
  Train.QUANTIZATION_LEGACY := 1;
  Train.QUANTIZATION_FX := 2;
  Train.checkpoint_epoch := λ _, 0;
  Train.evaluate_acc1 := λ ema epoch, if ema then 25%float else plain_acc epoch;
  Train.reduce_across_processes := λ n, n;
  Train.get_rank := 0;
  Train.acc1_global_avg := λ _, 0%float
|}.

(** The defaults of the parser with some options given. *)
Definition example_args (weights : option string) (opt : string) (epochs : Z)
    (model_ema : bool) (world_size distributed parallel : Z) (factor : float)
  : Train.Args := {|
  Train.data_path := "/datasets01/imagenet_full_size/061417/";
  Train.model := "resnet18";
  Train.batch_size := 32;
  Train.epochs := epochs;
  Train.opt := opt;
  Train.bias_weight_decay := None;
  Train.transformer_embedding_decay := None;
  Train.mixup_alpha := 0%float;
  Train.cutmix_alpha := 0%float;
  Train.lr_scheduler := "steplr";
  Train.lr_warmup_epochs := 0;
  Train.lr_warmup_method := "constant";
  Train.output_dir := ".";
  Train.resume := "";
  Train.start_epoch := 0;
  Train.sync_bn := false;
  Train.test_only := false;
  Train.amp := false;
  Train.world_size := world_size;
  Train.distributed := distributed;
  Train.parallel := parallel;
  Train.model_ema := model_ema;
  Train.model_ema_steps := 32;
  Train.model_ema_decay := 0.99998%float;
  Train.use_deterministic_algorithms := false;
  Train.clip_grad_norm := None;
  Train.weights := weights;
  Train.model_surgery := 0;
  Train.quantization := 0;
  Train.pruning := 0;
  Train.compile_model := 0;
  Train.train_epoch_size_factor := factor;
  Train.val_epoch_size_factor := factor;
  Train.weights_url := None;
  Train.weights_enum := None
|}.

(** A 90-epoch run with an EMA model on two processes, and one without. *)
Definition args_ema : Train.Args :=
  example_args (Some "a/b.pth, IMAGENET1K_V1") "sgd" 90 true 2 0 0 0%float.
Definition args_plain : Train.Args :=
  example_args (Some "IMAGENET1K_V1") "sgd" 90 false 1 0 0 0%float.

Definition a_ema : Train.Args :=
  Eval vm_compute in
    match Train.outcome (Train.main_prologue world_example args_ema) with
    | Ok (a, _, _) => a
    | Raise _ => args_ema
    end.

(** Runs that stop early: both parallel modes on, and an optimizer that
    does not exist. *)
Definition args_both : Train.Args :=
  example_args (Some "IMAGENET1K_V1") "sgd" 90 false 1 1 1 0%float.
Definition args_adam : Train.Args :=
  example_args (Some "IMAGENET1K_V1") "Adam" 90 false 1 0 0 0%float.
Definition a_adam : Train.Args :=
  Eval vm_compute in
    match Train.outcome (Train.main_startup world_example args_adam) with
    | Ok a => a
    | Raise _ => args_adam
    end.

(** Half an epoch of ten batches. *)
Definition args_half : Train.Args :=
  example_args (Some "IMAGENET1K_V1") "sgd" 90 false 1 0 0 0.5%float.
Definition ten_batches : list Z := replicate 10 32.
End Examples.

(** ** What a run did, read off its calls *)

(** The batch indices at which the EMA model was updated, and how often
    its buffer was reset. *)
Definition ema_updates (t : list Train.event) : list Z :=
  omap (λ ev, match ev with Train.EmaUpdate i => Some i | _ => None end) t.

Definition ema_resets (t : list Train.event) : nat :=
  length (omap (λ ev, match ev with Train.EmaReset => Some tt | _ => None end) t).

(** The gradient steps: batch index, whether the loss was scaled and
    whether the gradients were clipped. *)
Definition optimizer_steps (t : list Train.event) : list (Z * bool * bool) :=
  omap (λ ev, match ev with
              | Train.OptimizerStep _ i scaled clipped => Some (i, scaled, clipped)
              | _ => None
              end) t.




Definition weights_loaded (t : list Train.event) : list string :=
  omap (λ ev, match ev with Train.LoadWeights u => Some u | _ => None end) t.

(** Calls that wrap the model for pruning or quantization. *)
Definition is_wrapper (ev : Train.event) : bool :=
  match ev with
  | Train.PrunerModule | Train.QuantTrainModule | Train.QATFxModule => true
  | _ => false
  end.

(** Calls of the batch loop of [evaluate]. *)
Definition is_metric_update (ev : Train.event) : bool :=
  match ev with
  | Train.MetricUpdate _ _ => true
  | _ => false
  end.


(** ** More runs for the examples *)
Module Runs.

(** The defaults of the parser with a weights enum and some options
    given. *)
Definition run_args (output_dir resume : string) (test_only model_ema : bool)
    (epochs model_ema_steps : Z) (lr_scheduler : string) (factor : float)
  : Train.Args := {|
  Train.data_path := "/datasets01/imagenet_full_size/061417/";
  Train.model := "resnet18";
  Train.batch_size := 32;
  Train.epochs := epochs;
  Train.opt := "sgd";
  Train.bias_weight_decay := None;
  Train.transformer_embedding_decay := None;
  Train.mixup_alpha := 0%float;
  Train.cutmix_alpha := 0%float;
  Train.lr_scheduler := lr_scheduler;
  Train.lr_warmup_epochs := 0;
  Train.lr_warmup_method := "constant";
  Train.output_dir := output_dir;
  Train.resume := resume;
  Train.start_epoch := 0;
  Train.sync_bn := false;
  Train.test_only := test_only;
  Train.amp := false;
  Train.world_size := 1;
  Train.distributed := 0;
  Train.parallel := 0;
  Train.model_ema := model_ema;
  Train.model_ema_steps := model_ema_steps;
  Train.model_ema_decay := 0.99998%float;
  Train.use_deterministic_algorithms := false;
  Train.clip_grad_norm := None;
  Train.weights := Some "IMAGENET1K_V1";
  Train.model_surgery := 0;
  Train.quantization := 0;
  Train.pruning := 0;
  Train.compile_model := 0;
  Train.train_epoch_size_factor := factor;
  Train.val_epoch_size_factor := factor;
  Train.weights_url := None;
  Train.weights_enum := None
|}.




(** A run that names a schedule this program does not know. *)
Definition args_plateau : Train.Args :=
  run_args "." "" false false 3 32 "ReduceLROnPlateau" 0%float.
Definition t0_plateau : list Train.event :=
  Eval vm_compute in Train.trace (Train.main_startup Examples.world_example args_plateau).
Definition a_plateau : Train.Args :=
  Eval vm_compute in
    match Train.outcome (Train.main_startup Examples.world_example args_plateau) with
    | Ok a => a
    | Raise _ => args_plateau
    end.

(** Options with [model_ema_steps = 0], and with a factor that is NaN. *)
Definition args_steps0 : Train.Args := run_args "." "" false true 3 0 "steplr" 0%float.
Definition args_nan : Train.Args := run_args "." "" false false 3 32 "steplr" PrimFloat.nan.

(** An epoch of seventy batches. *)
Definition seventy_batches : list Z := replicate 70 32.

End Runs.

(** ** [COCOSegmentation(root, split, ...)] from the file system on *)
Module DatasetFiles.
Import DatasetUtils.

Section Files.
Context {Segmentation : Type}.
(** [os.listdir], [None] when the directory cannot be listed, and
    pycocotools' [COCO(annotation_file)], [None] when the file cannot be
    read. *)
Context (listdir : string → option (list string)).
Context (load_COCO : string → option (@COCO Segmentation)).
Context (random_shuffle : Z → list Z → list Z).

(** Lines 33-38: the directories. *)
Definition annotations_dir (root : string) : string := os_path_join root "annotations".

Definition image_base_dir (root : string) (dataset_folders : list string) : string :=
  os_path_join root (if bool_decide ("images" ∈ dataset_folders) then "images" else "").

Definition image_dir (root split : string) (dataset_folders : list string) : string :=
  os_path_join (image_base_dir root dataset_folders) split.

Definition annotation_file (root split : string) : string :=
  os_path_join (annotations_dir root) ("instances_" +:+ split +:+ ".json").

(** Lines 18-62 with the file system: the listing of [root], the
    assertion, the listing of the image directory (its result is not
    used), the annotation index, and the rest as [__init__] has it. *)
Definition COCOSegmentation_new (root split : string) (shuffle : Z)
    (num_imgs num_classes : option Z) : option (@COCOSegmentation Segmentation) :=
  dataset_folders ← listdir root;
  if negb (bool_decide ("annotations" ∈ dataset_folders)) then None else
  image_split_dirs ← listdir (image_base_dir root dataset_folders);
  c ← load_COCO (annotation_file root split);
  __init__ random_shuffle dataset_folders (image_dir root split dataset_folders) c
    shuffle num_imgs num_classes.

End Files.
End DatasetFiles.


(** ** [load_data] and [_get_cache_path] of [train.py] *)
Module LoadData.

(** The options that [load_data] reads and [main] does not.  An option
    that the code reads with [getattr] or after [hasattr] may be missing
    ([None]). *)
Record DataArgs : Type := {
  val_resize_size : Z;
  val_crop_size : Z;
  train_crop_size : Z;
  interpolation : string;
  cache_dataset : bool;
  dataset : string;
  annotation_prefix : string;
  auto_augment : option string;
  random_erase : option float;
  ra_magnitude : option Z;
  augmix_severity : option Z;
  ra_sampler : option bool;
  ra_reps : Z
}.

Inductive transform : Type :=
  | ClassificationPresetTrain (crop_size : Z) (interpolation : string)
      (auto_augment_policy : option string) (random_erase_prob : float)
      (ra_magnitude augmix_severity : option Z)
  | ClassificationPresetEval (crop_size resize_size : Z) (interpolation : string)
  (* torchvision.models.get_weight(enum).transforms() *)
  | WeightsTransforms (weights_enum : string).

Inductive torch_dataset : Type :=
  (* dataset, _ = torch.load(cache_path) *)
  | FromCache (cache_path : string)
  | CocoClassification (root annotation_file : string) (t : transform)
  | ImageFolder (root : string) (t : transform).

Inductive sampler : Type :=
  | RASampler (repetitions : Z)
  | DistributedSampler (shuffle : bool)
  | RandomSampler
  | SequentialSampler.

(** The calls that read or write the cache. *)
Inductive call : Type :=
  | TorchLoad (path : string)
  | Mkdir (path : string)
  | SaveOnMaster (d : torch_dataset) (dir : string) (path : string).

Section Loader.
(** From outside this file: [hashlib.sha1(...).hexdigest()],
    [os.path.expanduser], [os.path.normpath], [os.path.dirname], whether
    [InterpolationMode(name)] exists, the error of
    [torchvision.models.get_weight(name)] if it has one, and whether this
    process is the main one: [utils.save_on_master] writes only there. *)
Context (sha1_hexdigest : string → string).
Context (expanduser normpath dirname : string → string).
Context (is_interpolation_mode : string → bool).
Context (get_weight_error : string → option exn).
Context (is_main_process : bool).

(** Lines 115-121. *)
Definition _get_cache_path (filepath : string) : string :=
  let h := sha1_hexdigest filepath in
  let cache_path :=
    foldl os_path_join "~"
      [".torch"; "vision"; "datasets"; "imagefolder"; String.substring 0 10 h +:+ ".pt"] in
  expanduser cache_path.

(** Lines 157-158 and 188-189: the annotation file of a 'modelmaker'
    dataset, in the folder [annotations] beside the image folder. *)
Definition annotation_path (dir annotation_prefix suffix : string) : string :=
  let folders := py_split "/"%char (normpath dir) in
  os_path_join
    (os_path_join (String.concat "/" (py_slice_to folders (-1))) "annotations")
    (annotation_prefix +:+ suffix).

(** Lines 156-164 and 187-195. *)
Definition make_dataset (dargs : DataArgs) (dir suffix : string) (t : transform)
  : torch_dataset :=
  if String.eqb (dataset dargs) "modelmaker"
  then CocoClassification dir (annotation_path dir (annotation_prefix dargs) suffix) t
  else ImageFolder dir t.

(** Lines 166-169 and 197-200, on the set of the paths that exist. *)
Definition save_cache (dargs : DataArgs) (fs : gset string) (d : torch_dataset)
    (dir cache_path : string) : list call * gset string :=
  if cache_dataset dargs then
    ([Mkdir (dirname cache_path); SaveOnMaster d dir cache_path],
     if is_main_process
     then {[cache_path]} ∪ ({[dirname cache_path]} ∪ fs)
     else {[dirname cache_path]} ∪ fs)
  else ([], fs).

(** Lines 203-211. *)
Definition make_samplers (args : Train.Args) (dargs : DataArgs) : sampler * sampler :=
  if Train.int_truthy (Train.distributed args) then
    ((if default false (ra_sampler dargs) then RASampler (ra_reps dargs)
      else DistributedSampler true),
     DistributedSampler false)
  else (RandomSampler, SequentialSampler).

(** Lines 124-213.  The value holds the calls made, the paths that exist
    afterwards and the four results.  The constructors of the datasets and
    [torch.load] are taken to return; the file system is changed by this
    process only. *)
Definition load_data (traindir valdir : string) (args : Train.Args) (dargs : DataArgs)
    (fs : gset string)
  : list call * gset string * result (torch_dataset * torch_dataset * sampler * sampler) :=
  if negb (is_interpolation_mode (interpolation dargs)) then
    ([], fs, Raise (ValueError
       ("'" +:+ interpolation dargs +:+ "' is not a valid InterpolationMode")))
  else
    let cache_path := _get_cache_path traindir in
    let '(calls1, fs1, dataset_train) :=
      if cache_dataset dargs && bool_decide (cache_path ∈ fs) then
        ([TorchLoad cache_path], fs, FromCache cache_path)
      else
        let train_transform :=
          ClassificationPresetTrain (train_crop_size dargs) (interpolation dargs)
            (auto_augment dargs) (default 0%float (random_erase dargs))
            (ra_magnitude dargs) (augmix_severity dargs) in
        let d := make_dataset dargs traindir "_train.json" train_transform in
        let '(calls, fs') := save_cache dargs fs d traindir cache_path in
        (calls, fs', d) in
    let cache_path := _get_cache_path valdir in
    if cache_dataset dargs && bool_decide (cache_path ∈ fs1) then
      (calls1 ++ [TorchLoad cache_path], fs1,
       Ok (dataset_train, FromCache cache_path,
           (make_samplers args dargs).1, (make_samplers args dargs).2))
    else
      let preprocessing :=
        if Train.opt_str_truthy (Train.weights_enum args) && Train.test_only args then
          match get_weight_error (default "" (Train.weights_enum args)) with
          | Some e => Raise e
          | None => Ok (WeightsTransforms (default "" (Train.weights_enum args)))
          end
        else Ok (ClassificationPresetEval (val_crop_size dargs) (val_resize_size dargs)
                   (interpolation dargs)) in
      match preprocessing with
      | Raise e => (calls1, fs1, Raise e)
      | Ok preprocessing =>
          let d := make_dataset dargs valdir "_val.json" preprocessing in
          let '(calls2, fs2) := save_cache dargs fs1 d valdir cache_path in
          (calls1 ++ calls2, fs2,
           Ok (dataset_train, d, (make_samplers args dargs).1, (make_samplers args dargs).2))
      end.

(** Whether a dataset was read from the cache. *)
Definition from_cache (d : torch_dataset) : bool :=
  match d with
  | FromCache _ => true
  | _ => false
  end.

End Loader.
End LoadData.


(** ** Concrete data for [load_data] and the constructor *)
Module DataExamples.

(** A root folder [coco] with annotations and images of the split [val]. *)
Definition listdir_example (path : string) : option (list string) :=
  if String.eqb path "coco" then Some ["annotations"; "images"]
  else if String.eqb path "coco/images" then Some ["val"]
  else None.

Definition load_COCO_example (path : string) : option (@DatasetUtils.COCO Examples.rect) :=
  if String.eqb path "coco/annotations/instances_val.json" then Some Examples.coco_example
  else None.

(** Stand-ins for the digest and the path functions: paths are taken as
    normalized, and every cache file lies in [cache]. *)
Definition digest_example (path : string) : string := path.
Definition same_path (path : string) : string := path.
Definition dirname_example (path : string) : string := "cache".
Definition interpolation_example (name : string) : bool := String.eqb name "bilinear".
Definition no_weight_error (name : string) : option exn := None.

(** The defaults of the parser, with the cache on and a 'modelmaker'
    dataset. *)
Definition dargs_example : LoadData.DataArgs := {|
  LoadData.val_resize_size := 256;
  LoadData.val_crop_size := 224;
  LoadData.train_crop_size := 224;
  LoadData.interpolation := "bilinear";
  LoadData.cache_dataset := true;
  LoadData.dataset := "modelmaker";
  LoadData.annotation_prefix := "instances";
  LoadData.auto_augment := None;
  LoadData.random_erase := Some 0%float;
  LoadData.ra_magnitude := Some 9;
  LoadData.augmix_severity := Some 3;
  LoadData.ra_sampler := Some false;
  LoadData.ra_reps := 3
|}.

Definition load_data_example (traindir valdir : string) (fs : gset string) :=
  LoadData.load_data digest_example same_path same_path dirname_example
    interpolation_example no_weight_error true traindir valdir Examples.args_plain
    dargs_example fs.

End DataExamples.

(** * Properties of [dataset_utils.py] *)

Section ArrayFacts.
Import DatasetUtils.

Lemma pixel_amap {A B} (g : A → B) (a : Array2 A) (y x : nat) :
  pixel (amap g a) y x = g <$> pixel a y x.
Proof.
  unfold pixel, amap. rewrite list_lookup_fmap.
  destruct (a !! y) as [row|]; simpl; [|done].
  by rewrite list_lookup_fmap.
Qed.

Lemma pixel_map2 {A B C} (f : A → B → C) (a : Array2 A) (b : Array2 B) (y x : nat) :
  pixel (map2 f a b) y x
  = pixel a y x ≫= λ u, pixel b y x ≫= λ v, Some (f u v).
Proof.
  unfold pixel, map2. rewrite lookup_zip_with.
  destruct (a !! y) as [ra|]; simpl; [|done].
  destruct (b !! y) as [rb|]; simpl.
  - by rewrite lookup_zip_with.
  - by destruct (ra !! x).
Qed.

Lemma pixel_in_shape {A} (h w : nat) (a : Array2 A) (y x : nat) :
  has_shape h w a → (y < h)%nat → (x < w)%nat → is_Some (pixel a y x).
Proof.
  intros [Hh Hw] Hy Hx. unfold pixel.
  destruct (lookup_lt_is_Some_2 a y) as [row Hrow]; [lia|].
  rewrite Hrow. simpl. apply lookup_lt_is_Some_2.
  rewrite Forall_forall in Hw.
  rewrite (Hw row); [done|]. by eapply list_elem_of_lookup_2.
Qed.

Lemma pixel_np_zeros (h w y x : nat) :
  (y < h)%nat → (x < w)%nat → pixel (np_zeros h w) y x = Some 0.
Proof.
  intros Hy Hx. unfold pixel, np_zeros.
  rewrite lookup_replicate_2 by done. simpl.
  by rewrite lookup_replicate_2.
Qed.

(** A reduction along axis 0, read at one pixel, is the fold of the
    values of that pixel. *)
Lemma pixel_reduce_axis0 {A} (f : Z → Z → Z) (g : A → Array2 Z) (val : A → Z)
    (y x : nat) :
  (∀ a, pixel (g a) y x = Some (val a)) →
  ∀ (rest : list A) (first : Array2 Z) (v : Z),
    pixel first y x = Some v →
    pixel (reduce_axis0 f first (g <$> rest)) y x = Some (foldl f v (val <$> rest)).
Proof.
  intros Hg rest. induction rest as [|a rest IH]; intros first v Hv; simpl; [done|].
  apply IH. rewrite pixel_map2, Hv, Hg. done.
Qed.

End ArrayFacts.

Section DatasetProperties.
Import DatasetUtils.
Context {Segmentation : Type}.
Context (coco_decode : Segmentation → nat → nat → decoded).
Context (random_shuffle : Z → list Z → list Z).
Context (Image_open : string → Image).

Implicit Types (obj : @Annotation Segmentation) (anno : list (@Annotation Segmentation)).
Implicit Types (cats : list Z) (c : @COCO Segmentation).

(** The mask of an annotation as [_convert_poly_to_mask] builds it. *)
Local Abbreviation mask_of h w obj :=
  (astype_uint8 (any_axis2 (expand_last (coco_decode (segmentation obj) h w)))).

Lemma has_shape_amap {A B} (g : A → B) (h w : nat) (a : Array2 A) :
  has_shape h w a → has_shape h w (amap g a).
Proof.
  intros [Hh Hw]. split; unfold amap.
  - by rewrite length_fmap.
  - rewrite Forall_fmap. eapply Forall_impl; [exact Hw|].
    intros row Hrow. simpl. by rewrite length_fmap.
Qed.

Lemma pixel_mask_of (h w : nat) obj (y x : nat) :
  decodes_to_size coco_decode → (y < h)%nat → (x < w)%nat →
  pixel (mask_of h w obj) y x = Some (if covers coco_decode h w obj y x then 1 else 0).
Proof.
  intros Hdec Hy Hx. unfold astype_uint8, covers.
  rewrite pixel_amap.
  destruct (pixel_in_shape h w (any_axis2 (expand_last (coco_decode (segmentation obj) h w))) y x)
    as [b Hb]; [|done|done|].
  - apply has_shape_amap, Hdec.
  - rewrite Hb. done.
Qed.

(** *** Filtering and remapping *)

Lemma index_of_elem cats (v : Z) :
  v ∈ cats → ∃ k, index_of cats v = Some k ∧ cats !! k = Some v.
Proof.
  intros Hin. unfold index_of.
  destruct (list_find_elem_of (λ u, u = v) cats v Hin eq_refl) as [[k u] Hfind].
  rewrite Hfind. exists k. split; [done|].
  apply list_find_Some in Hfind as (Hk & -> & _). done.
Qed.

Lemma filter_and_remap_total cats anno :
  _filter_and_remap_categories cats anno true
  = Some ((λ obj, set_category obj (class_index cats obj))
            <$> filter (λ obj, in_categories cats obj = true) anno).
Proof.
  unfold _filter_and_remap_categories. apply mapM_Some.
  apply Forall2_fmap_r, Forall_Forall2_diag, Forall_forall.
  intros obj Hobj. apply list_elem_of_filter in Hobj as [Hin _].
  unfold in_categories in Hin. apply bool_decide_eq_true in Hin.
  destruct (index_of_elem cats _ Hin) as (k & Hk & _).
  unfold compose, class_index. simpl. rewrite Hk. done.
Qed.

(** *** The label map, pixel by pixel *)

Lemma foldl_sum_uint64 (val : @Annotation Segmentation → bool) anno (s : Z) :
  0 ≤ s → s + Z.of_nat (length anno) < 2 ^ 64 →
  foldl (λ s v, uint64 (s + v)) s ((λ obj, if val obj then 1 else 0) <$> anno)
  = s + Z.of_nat (length (filter (λ obj, val obj = true) anno)).
Proof.
  revert s. induction anno as [|obj anno IH]; intros s Hs Hlen; simpl in *; [lia|].
  rewrite filter_cons. unfold uint64 at 2.
  destruct (val obj) eqn:Hv.
  - rewrite decide_True by done. simpl length.
    rewrite Z.mod_small by lia. rewrite IH by lia. lia.
  - rewrite decide_False by done.
    rewrite Z.mod_small by lia. rewrite IH by lia. lia.
Qed.

Lemma foldl_max_foldr (l : list Z) (a : Z) :
  0 ≤ a → foldl Z.max a l = Z.max a (foldr Z.max 0 l).
Proof.
  revert a. induction l as [|x l IH]; intros a Ha; simpl; [lia|].
  rewrite IH by lia. lia.
Qed.

Lemma uint8_product (b : bool) (k : Z) :
  uint8 ((if b then 1 else 0) * uint8 k) = if b then uint8 k else 0.
Proof.
  unfold uint8. destruct b.
  - rewrite Z.mul_1_l. apply Z.mod_mod. done.
  - done.
Qed.

Lemma uint8_nonneg (k : Z) : 0 ≤ uint8 k.
Proof. unfold uint8. apply Z.mod_pos_bound. done. Qed.

(** What [_convert_polys_to_mask] leaves at a pixel inside the image. *)
Lemma convert_polys_pixel (image : Image) anno (y x : nat) :
  decodes_to_size coco_decode →
  (y < im_height image)%nat → (x < im_width image)%nat →
  Z.of_nat (length anno) < 2 ^ 64 →
  pixel (_convert_polys_to_mask coco_decode image anno) y x
  = Some (if 1 <? Z.of_nat (cover_count coco_decode (im_height image) (im_width image) anno y x)
          then 255
          else foldr Z.max 0
                 ((λ obj, if covers coco_decode (im_height image) (im_width image) obj y x
                          then uint8 (category_id obj) else 0) <$> anno)).
Proof.
  intros Hdec Hy Hx Hlen.
  set (h := im_height image) in *. set (w := im_width image) in *.
  unfold _convert_polys_to_mask, _convert_poly_to_mask. fold h w.
  rewrite <- list_fmap_compose.
  destruct anno as [|o os]; simpl.
  - rewrite pixel_np_zeros by done. done.
  - unfold mul_cats. simpl.
    rewrite <- !list_fmap_compose, zip_with_fmap_l, zip_with_fmap_r, zip_with_diag.
    unfold set_overlaps, sum_axis0, max_axis0.
    rewrite pixel_map2.
    rewrite (pixel_reduce_axis0 _ _
               (λ obj, if covers coco_decode h w obj y x then 1 else 0) y x
               (λ obj, pixel_mask_of h w obj y x Hdec Hy Hx) os _
               (uint64 (if covers coco_decode h w o y x then 1 else 0))).
    2:{ rewrite pixel_amap, (pixel_mask_of h w o y x Hdec Hy Hx). done. }
    simpl mbind.
    assert (Hprod : ∀ obj,
      pixel (amap (λ v, uint8 (v * uint8 (category_id obj))) (mask_of h w obj)) y x
      = Some (if covers coco_decode h w obj y x then uint8 (category_id obj) else 0)).
    { intros obj. rewrite pixel_amap, (pixel_mask_of h w obj y x Hdec Hy Hx).
      simpl. rewrite uint8_product. done. }
    rewrite (pixel_reduce_axis0 _ _ _ y x Hprod os _ _ (Hprod o)).
    simpl. f_equal.
    assert (Hsum :
      foldl (λ s v, uint64 (s + v)) (uint64 (if covers coco_decode h w o y x then 1 else 0))
        ((λ obj, if covers coco_decode h w obj y x then 1 else 0) <$> os)
      = Z.of_nat (cover_count coco_decode h w (o :: os) y x)).
    { unfold cover_count. rewrite filter_cons. simpl length in Hlen.
      destruct (covers coco_decode h w o y x) eqn:Hc.
      - rewrite decide_True by done. simpl length.
        unfold uint64 at 2. rewrite Z.mod_small by lia.
        rewrite foldl_sum_uint64 by lia. lia.
      - rewrite decide_False by done.
        unfold uint64 at 2. rewrite Z.mod_small by lia.
        rewrite foldl_sum_uint64 by lia. lia. }
    rewrite Hsum.
    rewrite foldl_max_foldr.
    + done.
    + destruct (covers coco_decode h w o y x); [apply uint8_nonneg|done].
Qed.

(** *** Labelled access *)

Lemma getitem_labelled (ds : @COCOSegmentation Segmentation) (idx : Z) (path : string)
    (img_id : Z) :
  py_getitem (imgs ds) idx = Some path →
  py_getitem (img_ids ds) idx = Some img_id →
  __getitem__ coco_decode Image_open ds idx true
  = Some (Labelled (to_rgb (Image_open path))
            (_convert_polys_to_mask coco_decode (Image_open path)
               ((λ obj, set_category obj (class_index (categories ds) obj))
                  <$> kept_annotations (categories ds) (coco_dataset ds) img_id))).
Proof.
  intros Hpath Hid. unfold __getitem__.
  rewrite Hpath, Hid. cbn [mbind option_bind].
  rewrite filter_and_remap_total. done.
Qed.

Lemma cover_count_remap (h w : nat) (f : @Annotation Segmentation → Z) anno (y x : nat) :
  cover_count coco_decode h w ((λ obj, set_category obj (f obj)) <$> anno) y x
  = cover_count coco_decode h w anno y x.
Proof.
  unfold cover_count. induction anno as [|obj anno IH]; [done|].
  rewrite fmap_cons, !filter_cons.
  change (covers coco_decode h w (set_category obj (f obj)) y x)
    with (covers coco_decode h w obj y x).
  destruct (decide (covers coco_decode h w obj y x = true)); simpl; by rewrite IH.
Qed.


(** The label map of a labelled access at a pixel inside the image: 255
    where two or more of the kept annotations cover the pixel, else the
    largest class index among those covering it, 0 when there is none. *)
Lemma getitem_pixel (ds : @COCOSegmentation Segmentation) (idx : Z) (path : string)
    (img_id : Z) (y x : nat) :
  decodes_to_size coco_decode →
  py_getitem (imgs ds) idx = Some path →
  py_getitem (img_ids ds) idx = Some img_id →
  (y < im_height (Image_open path))%nat →
  (x < im_width (Image_open path))%nat →
  Z.of_nat (length (kept_annotations (categories ds) (coco_dataset ds) img_id)) < 2 ^ 64 →
  ∃ target,
    __getitem__ coco_decode Image_open ds idx true
    = Some (Labelled (to_rgb (Image_open path)) target)
    ∧ pixel target y x
      = Some (if 1 <? Z.of_nat (cover_count coco_decode (im_height (Image_open path))
                                  (im_width (Image_open path))
                                  (kept_annotations (categories ds) (coco_dataset ds) img_id)
                                  y x)
              then 255
              else max_class coco_decode (categories ds) (im_height (Image_open path))
                     (im_width (Image_open path))
                     (kept_annotations (categories ds) (coco_dataset ds) img_id) y x).
Proof.
  intros Hdec Hpath Hid Hy Hx Hlen.
  eexists. split; [by apply getitem_labelled|].
  rewrite convert_polys_pixel; [|done|done|done|by rewrite length_fmap].
  rewrite cover_count_remap. unfold max_class.
  rewrite <- list_fmap_compose. done.
Qed.


(** *** Construction *)

Lemma py_slice_to_subseteq {A} (l : list A) (n : Z) : py_slice_to l n ⊆ l.
Proof. unfold py_slice_to. destruct (n <? 0); apply subseteq_take. Qed.

Lemma in_categories_spec cats obj :
  in_categories cats obj = true ↔ category_id obj ∈ cats.
Proof. unfold in_categories. apply bool_decide_eq_true. Qed.

Lemma construction_annotations_kept cats c (img_id : Z) :
  cats ≠ [] → construction_annotations cats c img_id = kept_annotations cats c img_id.
Proof. intros Hne. unfold construction_annotations. by destruct cats. Qed.

Lemma has_valid_annotation_spec anno :
  _has_valid_annotation anno = true
  ↔ anno ≠ [] ∧ float_gt (sum_areas anno) 1000%float = true.
Proof.
  destruct anno as [|obj anno]; simpl; [split; [done|intros [? _]; done]|].
  split; [intros Hgt; split; [done|exact Hgt]|intros [_ Hgt]; exact Hgt].
Qed.

(** What a successful construction leaves in the object. *)
Lemma init_inv (folders : list string) (dir : string) c (shuffle : Z) (num : option Z)
    (nc : option Z) (ds : @COCOSegmentation Segmentation) :
  __init__ random_shuffle folders dir c shuffle num nc = Some ds →
  categories ds = (init_categories nc).1
  ∧ coco_dataset ds = c
  ∧ img_ids ds
    = (let ids := _remove_images_without_annotations (init_categories nc).1 c (getImgIds c) in
       let ids := if shuffle =? 0 then ids else random_shuffle shuffle ids in
       match num with Some n => py_slice_to ids n | None => ids end)
  ∧ length (imgs ds) = length (img_ids ds)
  ∧ num_imgs ds = length (img_ids ds).
Proof.
  unfold __init__. destruct (init_categories nc) as [cats names]. simpl.
  destruct (bool_decide ("annotations" ∈ folders)); simpl; [|done].
  match goal with |- context [mapM ?f ?l] => destruct (mapM f l) as [paths|] eqn:Hpaths end;
    simpl; [|done].
  intros [= <-]. simpl. apply length_mapM in Hpaths.
  repeat split; done.
Qed.

Lemma init_img_ids_filtered (folders : list string) (dir : string) c (shuffle : Z)
    (num : option Z) (nc : option Z) (ds : @COCOSegmentation Segmentation) :
  shuffle_permutes random_shuffle →
  __init__ random_shuffle folders dir c shuffle num nc = Some ds →
  img_ids ds ⊆ _remove_images_without_annotations (categories ds) c (getImgIds c).
Proof.
  intros Hperm Hinit. unfold shuffle_permutes in Hperm.
  apply init_inv in Hinit as (Hcats & _ & Hids & _).
  rewrite Hids, Hcats. simpl. intros img Himg.
  assert (Hshuf : img ∈ (if shuffle =? 0
                         then _remove_images_without_annotations (init_categories nc).1 c (getImgIds c)
                         else random_shuffle shuffle
                                (_remove_images_without_annotations (init_categories nc).1 c (getImgIds c)))).
  { destruct num as [n|]; [by eapply py_slice_to_subseteq|done]. }
  destruct (shuffle =? 0); [done|]. by rewrite Hperm in Hshuf.
Qed.

Lemma init_img_ids_uncapped (folders : list string) (dir : string) c (shuffle : Z)
    (nc : option Z) (ds : @COCOSegmentation Segmentation) (img : Z) :
  shuffle_permutes random_shuffle →
  __init__ random_shuffle folders dir c shuffle None nc = Some ds →
  img ∈ img_ids ds ↔ img ∈ _remove_images_without_annotations (categories ds) c (getImgIds c).
Proof.
  intros Hperm Hinit. unfold shuffle_permutes in Hperm.
  apply init_inv in Hinit as (Hcats & _ & Hids & _).
  rewrite Hids, Hcats. simpl. destruct (shuffle =? 0); [done|]. by rewrite Hperm.
Qed.

Lemma loadImg_file_name_is_Some c (img : Z) :
  img ∈ getImgIds c → is_Some (loadImg_file_name c img).
Proof.
  unfold getImgIds, loadImg_file_name. intros Hin.
  apply list_elem_of_fmap in Hin as ([i name] & -> & Hin).
  destruct (list_find_elem_of (λ p, p.1 = (i, name).1) (coco_imgs c) (i, name) Hin eq_refl)
    as [r Hr].
  rewrite Hr. done.
Qed.

(** Construction succeeds whenever the root holds an [annotations] folder. *)
Lemma init_total (folders : list string) (dir : string) c (shuffle : Z) (num : option Z)
    (nc : option Z) :
  shuffle_permutes random_shuffle →
  "annotations" ∈ folders →
  is_Some (__init__ random_shuffle folders dir c shuffle num nc).
Proof.
  intros Hperm Hfolder. unfold shuffle_permutes in Hperm.
  unfold __init__. destruct (init_categories nc) as [cats names].
  rewrite bool_decide_eq_true_2 by done. simpl.
  match goal with |- context [mapM ?f ?l] => assert (Hsome : is_Some (mapM f l)) end.
  { apply mapM_is_Some_2, Forall_forall. intros img Himg. simpl.
    assert (Hin : img ∈ getImgIds c).
    { assert (Hshuf : img ∈ (if shuffle =? 0
                             then _remove_images_without_annotations cats c (getImgIds c)
                             else random_shuffle shuffle
                                    (_remove_images_without_annotations cats c (getImgIds c)))).
      { destruct num as [n|]; [by eapply py_slice_to_subseteq|done]. }
      assert (Hfil : img ∈ _remove_images_without_annotations cats c (getImgIds c)).
      { destruct (shuffle =? 0); [done|]. by rewrite Hperm in Hshuf. }
      unfold _remove_images_without_annotations in Hfil.
      by apply list_elem_of_filter in Hfil as [_ ?]. }
    destruct (loadImg_file_name_is_Some c img Hin) as [name ->]. done. }
  destruct Hsome as [paths ->]. done.
Qed.

Lemma py_getitem_is_Some {A} (l : list A) (idx : Z) :
  0 ≤ idx < Z.of_nat (length l) → is_Some (py_getitem l idx).
Proof.
  intros Hidx. unfold py_getitem.
  destruct (Z.ltb_spec idx 0); [lia|]. apply lookup_lt_is_Some_2. lia.
Qed.

(** Access does not test the annotations again: every index below the
    length answers. *)
Lemma getitem_total (ds : @COCOSegmentation Segmentation) (idx : Z) (with_label : bool) :
  length (imgs ds) = length (img_ids ds) →
  0 ≤ idx < Z.of_nat (length (img_ids ds)) →
  is_Some (__getitem__ coco_decode Image_open ds idx with_label).
Proof.
  intros Hlen Hidx.
  destruct (py_getitem_is_Some (imgs ds) idx) as [path Hpath]; [lia|].
  destruct (py_getitem_is_Some (img_ids ds) idx) as [img Himg]; [lia|].
  destruct with_label.
  - rewrite (getitem_labelled ds idx path img Hpath Himg). done.
  - unfold __getitem__. rewrite Hpath. done.
Qed.

Lemma kept_annotations_none cats c (img : Z) :
  Forall (λ obj, category_id obj ∉ cats) (loadAnns c img) →
  kept_annotations cats c img = [].
Proof.
  unfold kept_annotations. induction (loadAnns c img) as [|obj anno IH]; [done|].
  intros Hall. apply Forall_cons in Hall as [Hobj Hall].
  rewrite filter_cons, decide_False; [by apply IH|].
  rewrite in_categories_spec. done.
Qed.



(** C5 (as the code has it).  The filter of construction keeps an image
    exactly when its annotations within the category list are not empty
    and their areas sum to more than 1000, provided the list is not empty;
    with an empty list ([num_classes <= 0]) the annotations are not
    filtered.  A constructed dataset holds only images that passed this
    filter, all of them when no cap [num_imgs] is given; construction
    succeeds, and access tests nothing again: every index below the length
    answers.  A single annotation of area 1000 does not pass, one of area
    1001 does. *)
Theorem retained_images_have_valid_annotations :
  (∀ cats c (ids : list Z) (img : Z), cats ≠ [] →
     img ∈ _remove_images_without_annotations cats c ids
     ↔ img ∈ ids
       ∧ kept_annotations cats c img ≠ []
       ∧ float_gt (sum_areas (kept_annotations cats c img)) 1000%float = true)
  ∧ (∀ c (ids : list Z) (img : Z),
       img ∈ _remove_images_without_annotations [] c ids
       ↔ img ∈ ids
         ∧ loadAnns c img ≠ []
         ∧ float_gt (sum_areas (loadAnns c img)) 1000%float = true)
  ∧ (∀ (folders : list string) (dir : string) c (shuffle : Z) (num : option Z)
       (nc : option Z),
       shuffle_permutes random_shuffle → "annotations" ∈ folders →
       ∃ ds : @COCOSegmentation Segmentation,
         __init__ random_shuffle folders dir c shuffle num nc = Some ds
         ∧ (∀ img, img ∈ img_ids ds →
              img ∈ _remove_images_without_annotations (categories ds) c (getImgIds c))
         ∧ (num = None →
            ∀ img, img ∈ _remove_images_without_annotations (categories ds) c (getImgIds c) →
                   img ∈ img_ids ds)
         ∧ __len__ ds = length (img_ids ds)
         ∧ (∀ idx with_label, 0 ≤ idx < Z.of_nat (__len__ ds) →
              is_Some (__getitem__ coco_decode Image_open ds idx with_label)))
  ∧ (∀ obj, area obj = 1000%float → _has_valid_annotation [obj] = false)
  ∧ (∀ obj, area obj = 1001%float → _has_valid_annotation [obj] = true).
Proof.
  repeat apply conj.
  - intros cats c ids img Hne. unfold _remove_images_without_annotations.
    rewrite list_elem_of_filter, construction_annotations_kept by done.
    rewrite has_valid_annotation_spec. tauto.
  - intros c ids img. unfold _remove_images_without_annotations.
    rewrite list_elem_of_filter. simpl.
    rewrite has_valid_annotation_spec. tauto.
  - intros folders dir c shuffle num nc Hperm Hfolder.
    destruct (init_total folders dir c shuffle num nc Hperm Hfolder) as [ds Hinit].
    exists ds. split; [exact Hinit|].
    pose proof (init_inv _ _ _ _ _ _ _ Hinit) as (_ & _ & _ & Hlen & Hnum).
    repeat split.
    + intros img. apply (init_img_ids_filtered _ _ _ _ _ _ _ Hperm Hinit).
    + intros -> img. by apply (init_img_ids_uncapped _ _ _ _ _ _ _ Hperm Hinit).
    + exact Hnum.
    + intros idx with_label Hidx. unfold __len__ in Hidx. rewrite Hnum in Hidx.
      by apply getitem_total.
  - intros obj Harea. unfold _has_valid_annotation, sum_areas. simpl.
    rewrite Harea. reflexivity.
  - intros obj Harea. unfold _has_valid_annotation, sum_areas. simpl.
    rewrite Harea. reflexivity.
Qed.

End DatasetProperties.

(** The stand-in decoder answers with the size asked for. *)
Lemma rect_decode_shape : DatasetUtils.decodes_to_size Examples.rect_decode.
Proof.
  intros r h w. unfold Examples.rect_decode, DatasetUtils.expand_last. split.
  - by rewrite length_fmap, length_seq.
  - apply Forall_fmap, Forall_forall. intros y _. simpl.
    by rewrite length_fmap, length_seq.
Qed.


Lemma reverse_shuffle_permutes : DatasetUtils.shuffle_permutes Examples.reverse_shuffle.
Proof. intros seed l. apply reverse_Permutation. Qed.


(** The example index with the default 80 classes: construction succeeds and
    the dataset answers at every index. *)
Lemma retained_images_have_valid_annotations_witness :
  ∃ ds,
    DatasetUtils.__init__ Examples.reverse_shuffle Examples.folders_example "val"
      Examples.coco_example 0 None None = Some ds
    ∧ DatasetUtils.img_ids ds = [1; 3; 4]
    ∧ DatasetUtils.__len__ ds = length (DatasetUtils.img_ids ds)
    ∧ is_Some (DatasetUtils.__getitem__ Examples.rect_decode Examples.open_4x4 ds 2 true).
Proof.
  destruct (proj1 (proj2 (proj2
              (retained_images_have_valid_annotations Examples.rect_decode
                 Examples.reverse_shuffle Examples.open_4x4)))
              Examples.folders_example "val" Examples.coco_example 0 None None
              reverse_shuffle_permutes)
    as (ds & Hinit & _ & _ & Hlen & Hget).
  - apply (bool_decide_unpack _). vm_compute. exact I.
  - assert (Hids : DatasetUtils.img_ids ds = [1; 3; 4]).
    { destruct (init_inv _ _ _ _ _ _ _ _ Hinit) as (_ & _ & Hids & _).
      rewrite Hids. vm_compute. reflexivity. }
    exists ds. split; [exact Hinit|]. split; [exact Hids|]. split; [exact Hlen|].
    apply Hget. rewrite Hlen, Hids. simpl. lia.
Defined.

(** C5 as the claim words it fails in two ways.  With [num_classes = 0]
    image 4 is in the dataset although none of its annotations is within the
    (empty) category list.  With [num_imgs = 1] image 3 is not in the dataset
    although its annotations within the 21-class table are not empty and sum
    to 1001. *)
Lemma retained_iff_counterexample :
  (∃ ds,
     DatasetUtils.__init__ Examples.reverse_shuffle Examples.folders_example "val"
       Examples.coco_example 0 None (Some 0) = Some ds
     ∧ DatasetUtils.img_ids ds = [1; 3; 4]
     ∧ DatasetUtils.kept_annotations (DatasetUtils.categories ds) Examples.coco_example 4 = [])
  ∧ (∃ ds,
       DatasetUtils.__init__ Examples.reverse_shuffle Examples.folders_example "val"
         Examples.coco_example 0 (Some 1) (Some 21) = Some ds
       ∧ DatasetUtils.img_ids ds = [1]
       ∧ length (DatasetUtils.kept_annotations (DatasetUtils.categories ds)
                   Examples.coco_example 3) = 1%nat
       ∧ float_gt (DatasetUtils.sum_areas
                     (DatasetUtils.kept_annotations (DatasetUtils.categories ds)
                        Examples.coco_example 3)) 1000%float = true).
Proof.
  split.
  - destruct (init_total Examples.reverse_shuffle Examples.folders_example "val"
                Examples.coco_example 0 None (Some 0) reverse_shuffle_permutes) as [ds Hinit].
    { apply (bool_decide_unpack _). vm_compute. exact I. }
    exists ds. split; [exact Hinit|].
    destruct (init_inv _ _ _ _ _ _ _ _ Hinit) as (Hcats & _ & Hids & _).
    rewrite Hids, Hcats. split; vm_compute; reflexivity.
  - destruct (init_total Examples.reverse_shuffle Examples.folders_example "val"
                Examples.coco_example 0 (Some 1) (Some 21) reverse_shuffle_permutes)
      as [ds Hinit].
    { apply (bool_decide_unpack _). vm_compute. exact I. }
    exists ds. split; [exact Hinit|].
    destruct (init_inv _ _ _ _ _ _ _ _ Hinit) as (Hcats & _ & Hids & _).
    rewrite Hids, Hcats. repeat split; vm_compute; reflexivity.
Qed.

(** * Properties of [train.py] *)

Section RunFacts.
Import Train.

Lemma bind_ret_l {A B} (a : A) (f : A → M B) : bind (ret a) f = f a.
Proof. unfold bind, ret. by destruct (f a). Qed.

Lemma bind_ok {A B} (m : M A) (f : A → M B) (t : list event) (a : A) :
  m = (t, Ok a) → bind m f = (t ++ trace (f a), outcome (f a)).
Proof. intros ->. unfold bind, trace, outcome. by destruct (f a). Qed.

Lemma bind_emit {B} (ev : event) (f : unit → M B) :
  bind (emit ev) f = (ev :: trace (f tt), outcome (f tt)).
Proof. unfold bind, emit, trace, outcome. by destruct (f tt). Qed.

Lemma bind_raised {A B} (m : M A) (f : A → M B) (t : list event) (e : exn) :
  m = (t, Raise e) → bind m f = (t, Raise e).
Proof. by intros ->. Qed.

Lemma run_eta {A} (m : M A) : m = (trace m, outcome m).
Proof. by destruct m. Qed.

Lemma outcome_bind {A B} (m : M A) (f : A → M B) (a : A) :
  outcome m = Ok a → outcome (bind m f) = outcome (f a).
Proof. intros Hm. rewrite (bind_ok m f (trace m) a); [done|]. rewrite <- Hm. apply run_eta. Qed.

Lemma trace_bind {A B} (m : M A) (f : A → M B) (a : A) :
  outcome m = Ok a → trace (bind m f) = trace m ++ trace (f a).
Proof. intros Hm. rewrite (bind_ok m f (trace m) a); [done|]. rewrite <- Hm. apply run_eta. Qed.

Lemma outcome_bind_raised {A B} (m : M A) (f : A → M B) (e : exn) :
  outcome m = Raise e → outcome (bind m f) = Raise e.
Proof. intros Hm. rewrite (bind_raised m f (trace m) e); [done|]. rewrite <- Hm. apply run_eta. Qed.

Lemma trace_bind_raised {A B} (m : M A) (f : A → M B) (e : exn) :
  outcome m = Raise e → trace (bind m f) = trace m.
Proof. intros Hm. rewrite (bind_raised m f (trace m) e); [done|]. rewrite <- Hm. apply run_eta. Qed.

Lemma outcome_when (c : bool) (ev : event) : outcome (when c ev) = Ok tt.
Proof. by destruct c. Qed.

Lemma trace_when (c : bool) (ev : event) : trace (when c ev) = if c then [ev] else [].
Proof. by destruct c. Qed.

(** A property of every call of a run follows from the property of the
    calls of its parts. *)
Lemma Forall_trace_bind {A B} (P : event → Prop) (m : M A) (f : A → M B) :
  Forall P (trace m) → (∀ a, Forall P (trace (f a))) → Forall P (trace (bind m f)).
Proof.
  intros Hm Hf. destruct m as [t [a|e]]; simpl in *; [|done].
  specialize (Hf a). destruct (f a) as [t' r]. simpl in *. by apply Forall_app.
Qed.

Lemma Forall_trace_emit (P : event → Prop) (ev : event) :
  P ev → Forall P (trace (emit ev)).
Proof. intros Hev. by apply Forall_singleton. Qed.

Lemma Forall_trace_when (P : event → Prop) (c : bool) (ev : event) :
  P ev → Forall P (trace (when c ev)).
Proof. intros Hev. destruct c; simpl; [by apply Forall_singleton|done]. Qed.

Lemma Forall_trace_nil {A} (P : event → Prop) (r : result A) : Forall P (trace (lift r)).
Proof. done. Qed.

End RunFacts.

(** Splits a property of all calls of a run along its binds and branches. *)
Ltac trace_forall :=
  repeat first
    [ apply Forall_trace_bind; [|intros]
    | apply Forall_trace_emit; reflexivity
    | apply Forall_trace_when; reflexivity
    | apply Forall_trace_nil
    | apply Forall_nil_2
    | match goal with
      | |- Forall _ (Train.trace (if ?c then _ else _)) => destruct c
      | |- Forall _ (Train.trace (match ?c with _ => _ end)) => destruct c
      end ].

Section DriverProperties.
Import Train.
Context (w : World).

(** *** The start of [main] *)

Lemma main_startup_no_weights (args : Args) :
  weights args = None →
  main_startup w args
  = ((if str_truthy (output_dir args) then [Mkdir (output_dir args)] else [])
       ++ [TeeLogger (os_path_join (output_dir args) "run.log")],
     Raise (AttributeError "'NoneType' object has no attribute 'split'")).
Proof.
  intros Hw. unfold main_startup. rewrite Hw.
  destruct (str_truthy (output_dir args)); reflexivity.
Qed.

Lemma main_startup_run (args : Args) (sw : option string * option string) :
  split_weights w (weights args) = Ok sw →
  main_startup w args
  = ((if str_truthy (output_dir args) then [Mkdir (output_dir args)] else [])
       ++ [TeeLogger (os_path_join (output_dir args) "run.log"); InitDistributedMode;
           PrintArgs],
     let a := init_distributed_mode w (set_weights_split args sw.1 sw.2) in
     if int_truthy (distributed a) && int_truthy (parallel a)
     then Raise (RuntimeError
            "both DistributedDataParallel and DataParallel cannot be used simultaneously")
     else Ok a).
Proof.
  intros Hsw. unfold main_startup. rewrite Hsw.
  destruct (str_truthy (output_dir args)); simpl;
    destruct (int_truthy _ && int_truthy _); reflexivity.
Qed.

Lemma main_of_startup_raised (args : Args) (t : list event) (e : exn) :
  main_startup w args = (t, Raise e) → main w args = (t, Raise e).
Proof.
  intros Hst. unfold main, main_prologue, main_setup.
  rewrite (bind_raised _ _ t e Hst).
  by rewrite !(bind_raised _ _ t e eq_refl).
Qed.

(** C10.  [--weights] defaults to [None]; with that value [split_weights]
    raises, and [main] ends with this error right after opening the log
    file: before the distributed set-up, the datasets and the model. *)
Theorem main_without_weights_raises :
  weights default_args = None
  ∧ split_weights w None
    = Raise (AttributeError "'NoneType' object has no attribute 'split'")
  ∧ (∀ args, weights args = None →
       main w args
       = ((if str_truthy (output_dir args) then [Mkdir (output_dir args)] else [])
            ++ [TeeLogger (os_path_join (output_dir args) "run.log")],
          Raise (AttributeError "'NoneType' object has no attribute 'split'"))
       ∧ Forall (λ ev, ev ≠ InitDistributedMode
                       ∧ is_construction ev = false ∧ is_training ev = false)
           (trace (main w args)))
  ∧ main w default_args
    = ([Mkdir "."; TeeLogger "./run.log"],
       Raise (AttributeError "'NoneType' object has no attribute 'split'")).
Proof.
  repeat apply conj; [done|done| |].
  - intros args Hw.
    rewrite (main_of_startup_raised args _ _ (main_startup_no_weights args Hw)).
    split; [done|]. simpl.
    destruct (str_truthy (output_dir args)); simpl; repeat constructor; done.
  - by rewrite (main_of_startup_raised default_args _ _
                  (main_startup_no_weights default_args eq_refl)).
Qed.

(** *** The set-up of [main] *)

Lemma main_of_setup_raised (args : Args) (t : list event) (e : exn) :
  main_setup w args = (t, Raise e) → main w args = (t, Raise e).
Proof.
  intros Hst. unfold main, main_prologue.
  rewrite (bind_raised _ _ t e Hst).
  by rewrite (bind_raised _ _ t e eq_refl).
Qed.

Lemma main_data_outcome (a : Args) : outcome (main_data a) = Ok tt.
Proof.
  unfold main_data.
  rewrite (outcome_bind _ _ tt) by reflexivity.
  rewrite (outcome_bind _ _ tt) by reflexivity.
  rewrite (outcome_bind _ _ tt) by apply outcome_when.
  reflexivity.
Qed.

Lemma main_model_trace_head (a : Args) :
  ∃ t, trace (main_model w a) = GetModel (model a) (weights_enum a) :: t.
Proof.
  unfold main_model.
  match goal with |- context [bind (emit ?ev) ?f] =>
    exists (trace (f tt)); rewrite (bind_ok (emit ev) f [ev] tt eq_refl) end.
  reflexivity.
Qed.

Lemma main_model_outcome (a : Args) :
  outcome (main_model w a)
  = if pruning a =? PRUNING_LEGACY w
    then Raise (AssertionError
           "Pruning is currently not supported in the legacy modules based method")
    else Ok tt.
Proof.
  unfold main_model.
  rewrite (outcome_bind _ _ tt) by reflexivity.
  rewrite (outcome_bind _ _ tt)
    by (destruct (model_surgery a =? SURGERY_LEGACY w); [reflexivity|apply outcome_when]).
  rewrite (outcome_bind _ _ tt)
    by (destruct (opt_str_truthy (weights_url a) && negb (test_only a)); reflexivity).
  destruct (pruning a =? PRUNING_LEGACY w).
  - reflexivity.
  - rewrite (outcome_bind _ _ tt) by apply outcome_when.
    rewrite (outcome_bind _ _ tt)
      by (destruct (quantization a =? QUANTIZATION_LEGACY w);
          [reflexivity|apply outcome_when]).
    rewrite (outcome_bind _ _ tt)
      by (destruct (opt_str_truthy (weights_url a) && test_only a); reflexivity).
    rewrite (outcome_bind _ _ tt) by reflexivity.
    rewrite (outcome_bind _ _ tt) by apply outcome_when.
    rewrite (outcome_bind _ _ tt) by apply outcome_when.
    reflexivity.
Qed.

Lemma main_optimizer_invalid (a : Args) :
  startswith (py_lower (opt a)) "sgd" = false →
  py_lower (opt a) ≠ "rmsprop" →
  py_lower (opt a) ≠ "adamw" →
  main_optimizer a
  = ([], Raise (RuntimeError
       ("Invalid optimizer " +:+ opt a +:+ ". Only SGD, RMSprop and AdamW are supported."))).
Proof.
  intros Hsgd Hrms Hadam. unfold main_optimizer. rewrite Hsgd.
  apply String.eqb_neq in Hrms, Hadam. rewrite Hrms, Hadam. reflexivity.
Qed.

Lemma main_setup_no_training (args : Args) :
  Forall (λ ev, is_training ev = false) (trace (main_setup w args)).
Proof.
  unfold main_setup, main_startup, main_data, main_model, main_weight_decay,
    main_optimizer, main_scheduler, main_wrap.
  trace_forall.
Qed.


Lemma main_setup_invalid_optimizer (args : Args) (t0 : list event) (a : Args) :
  main_startup w args = (t0, Ok a) →
  startswith (py_lower (opt a)) "sgd" = false →
  py_lower (opt a) ≠ "rmsprop" →
  py_lower (opt a) ≠ "adamw" →
  main_setup w args
  = (t0 ++ trace (main_data a) ++ trace (main_model w a)
        ++ (if pruning a =? PRUNING_LEGACY w then [] else trace (main_weight_decay a)),
     if pruning a =? PRUNING_LEGACY w
     then Raise (AssertionError
            "Pruning is currently not supported in the legacy modules based method")
     else Raise (RuntimeError
            ("Invalid optimizer " +:+ opt a
             +:+ ". Only SGD, RMSprop and AdamW are supported."))).
Proof.
  intros Hst Hsgd Hrms Hadam. unfold main_setup.
  rewrite (bind_ok _ _ t0 a Hst). f_equal.
  - f_equal. rewrite (trace_bind _ _ tt) by apply main_data_outcome. f_equal.
    pose proof (main_model_outcome a) as Hmodel.
    destruct (pruning a =? PRUNING_LEGACY w).
    + rewrite (trace_bind_raised _ _ _ Hmodel). by rewrite app_nil_r.
    + rewrite (trace_bind _ _ tt Hmodel). f_equal.
      rewrite (trace_bind _ _ tt) by reflexivity.
      rewrite (trace_bind_raised _ _ _
                 (f_equal outcome (main_optimizer_invalid a Hsgd Hrms Hadam))).
      rewrite (main_optimizer_invalid a Hsgd Hrms Hadam). by rewrite app_nil_r.
  - rewrite (outcome_bind _ _ tt) by apply main_data_outcome.
    pose proof (main_model_outcome a) as Hmodel.
    destruct (pruning a =? PRUNING_LEGACY w).
    + by rewrite (outcome_bind_raised _ _ _ Hmodel).
    + rewrite (outcome_bind _ _ tt Hmodel).
      rewrite (outcome_bind _ _ tt) by reflexivity.
      by rewrite (outcome_bind_raised _ _ _
                    (f_equal outcome (main_optimizer_invalid a Hsgd Hrms Hadam))).
Qed.

(** C8.  When both the distributed and the data-parallel mode are on (as
    [args] reads after the distributed set-up), [main] ends with a
    RuntimeError right after printing [args]: no dataset, loader or model
    has been built.  When the lower-cased optimizer name neither starts
    with "sgd" nor is "rmsprop" or "adamw", a run that passed that first
    check ends with an error after [get_model] was called and before any
    call of the training loop; unless legacy pruning stopped it earlier,
    the error is the RuntimeError of the optimizer and the last call made
    is the one that groups the parameters.  In both cases the error is the
    outcome of [main]: nothing runs after it. *)
Theorem main_fatal_configuration_errors :
  (∀ (args : Args) (sw : option string * option string),
     split_weights w (weights args) = Ok sw →
     int_truthy (distributed (init_distributed_mode w (set_weights_split args sw.1 sw.2)))
     && int_truthy (parallel (init_distributed_mode w (set_weights_split args sw.1 sw.2)))
     = true →
     main w args
     = ((if str_truthy (output_dir args) then [Mkdir (output_dir args)] else [])
          ++ [TeeLogger (os_path_join (output_dir args) "run.log"); InitDistributedMode;
              PrintArgs],
        Raise (RuntimeError
          "both DistributedDataParallel and DataParallel cannot be used simultaneously"))
     ∧ Forall (λ ev, is_construction ev = false ∧ is_training ev = false)
         (trace (main w args)))
  ∧ (∀ (args : Args) (t0 : list event) (a : Args),
       main_startup w args = (t0, Ok a) →
       startswith (py_lower (opt a)) "sgd" = false →
       py_lower (opt a) ≠ "rmsprop" →
       py_lower (opt a) ≠ "adamw" →
       ∃ e, outcome (main w args) = Raise e
         ∧ GetModel (model a) (weights_enum a) ∈ trace (main w args)
         ∧ Forall (λ ev, is_training ev = false) (trace (main w args))
         ∧ (pruning a ≠ PRUNING_LEGACY w →
            e = RuntimeError
                  ("Invalid optimizer " +:+ opt a
                   +:+ ". Only SGD, RMSprop and AdamW are supported.")
            ∧ last (trace (main w args)) = Some (SetWeightDecay
                ((if bool_decide (is_Some (bias_weight_decay a)) then ["bias"] else [])
                 ++ (if bool_decide (is_Some (transformer_embedding_decay a))
                     then ["class_token"; "position_embedding";
                           "relative_position_bias_table"]
                     else []))))).
Proof.
  split.
  - intros args sw Hsw Hboth.
    pose proof (main_startup_run args sw Hsw) as Hst. simpl in Hst.
    rewrite Hboth in Hst.
    rewrite (main_of_startup_raised args _ _ Hst). split; [done|]. simpl.
    destruct (str_truthy (output_dir args)); simpl; repeat constructor; done.
  - intros args t0 a Hst Hsgd Hrms Hadam.
    pose proof (main_setup_invalid_optimizer args t0 a Hst Hsgd Hrms Hadam) as Hsetup.
    pose proof (main_setup_no_training args) as Hno.
    rewrite Hsetup in Hno.
    destruct (main_model_trace_head a) as [t Ht].
    destruct (pruning a =? PRUNING_LEGACY w) eqn:Hp;
      rewrite (main_of_setup_raised args _ _ Hsetup);
      eexists; (split; [reflexivity|]); (split; [|split; [exact Hno|]]).
    + simpl. rewrite Ht.
      rewrite !elem_of_app. right. right. left. constructor.
    + intros Hprune. apply Z.eqb_eq in Hp. done.
    + simpl. rewrite Ht.
      rewrite !elem_of_app. right. right. left. constructor.
    + intros _. split; [done|].
      unfold main_weight_decay. simpl. rewrite !app_assoc. apply last_snoc.
Qed.


(** *** [split_weights] *)

Lemma split_weights_loop (toks : list string) (acc : list string * list string) :
  foldl (split_weights_step w) acc toks
  = (acc.1 ++ filter (λ t, is_url_or_file w t = true) (lstrip <$> toks),
     acc.2 ++ filter (λ t, is_url_or_file w t = false) (lstrip <$> toks)).
Proof.
  revert acc. induction toks as [|tok toks IH]; intros [urls enums]; simpl.
  - by rewrite !app_nil_r.
  - rewrite IH. unfold split_weights_step. simpl.
    rewrite !filter_cons.
    destruct (is_url_or_file w (lstrip tok)) eqn:Hurl; simpl.
    + by rewrite <- app_assoc.
    + by rewrite <- app_assoc.
Qed.

Lemma split_weights_spec (s : string) :
  split_weights w (Some s) = Ok (first_of_each_kind w (lstrip <$> py_split ","%char s)).
Proof.
  unfold split_weights, first_of_each_kind.
  rewrite split_weights_loop. reflexivity.
Qed.

Lemma py_split_app (sep : ascii) (t1 t2 : string) :
  py_split sep t1 = [t1] →
  py_split sep (t1 +:+ String sep t2) = t1 :: py_split sep t2.
Proof.
  induction t1 as [|c t1 IH]; simpl.
  - intros _. by rewrite Ascii.eqb_refl.
  - destruct (Ascii.eqb c sep); [intros [=]|].
    destruct (py_split sep t1) as [|t ts] eqn:Hsplit.
    + intros [= ->]. destruct t1; simpl in Hsplit; [done|].
      destruct (Ascii.eqb a sep); [done|]. by destruct (py_split sep t1).
    + intros [= -> ->]. by rewrite IH.
Qed.

Lemma split_weights_pair (t1 t2 : string) :
  py_split ","%char t1 = [t1] → py_split ","%char t2 = [t2] →
  split_weights w (Some (t1 +:+ String ","%char t2))
  = Ok (head (filter (λ t, is_url_or_file w t = true) [lstrip t1; lstrip t2]),
        head (filter (λ t, is_url_or_file w t = false) [lstrip t1; lstrip t2])).
Proof.
  intros H1 H2. rewrite split_weights_spec. unfold first_of_each_kind.
  by rewrite py_split_app, H2.
Qed.

(** C6, as the code has it.  For every specifier string, [split_weights]
    returns the first token (split at commas, leading blanks removed by
    [lstrip], trailing blanks kept) that [is_url_or_file] recognises, or
    [None], and the first that it does not recognise, or [None]; so the
    order of the two kinds does not matter.  A single token that is not
    recognised, such as "imagenet_v1", gives [(None, token)]; two such
    tokens give [(None, first token)]. *)
Theorem split_weights_first_of_each_kind :
  (∀ s : string,
     split_weights w (Some s)
     = Ok (head (filter (λ t, is_url_or_file w t = true)
                   (lstrip <$> py_split ","%char s)),
           head (filter (λ t, is_url_or_file w t = false)
                   (lstrip <$> py_split ","%char s))))
  ∧ (is_url_or_file w "imagenet_v1" = false →
     split_weights w (Some "imagenet_v1") = Ok (None, Some "imagenet_v1"))
  ∧ (∀ t1 t2 : string,
       py_split ","%char t1 = [t1] → py_split ","%char t2 = [t2] →
       is_url_or_file w (lstrip t1) = false → is_url_or_file w (lstrip t2) = false →
       split_weights w (Some (t1 +:+ String ","%char t2)) = Ok (None, Some (lstrip t1)))
  ∧ (∀ u e : string,
       py_split ","%char u = [u] → py_split ","%char e = [e] →
       is_url_or_file w (lstrip u) = true → is_url_or_file w (lstrip e) = false →
       split_weights w (Some (u +:+ String ","%char e))
       = Ok (Some (lstrip u), Some (lstrip e))
       ∧ split_weights w (Some (e +:+ String ","%char u))
         = Ok (Some (lstrip u), Some (lstrip e))).
Proof.
  repeat apply conj.
  - intros s. apply split_weights_spec.
  - intros Henum. rewrite split_weights_spec. unfold first_of_each_kind. simpl.
    rewrite !filter_cons, !filter_nil. simpl.
    rewrite decide_False, decide_True by (by rewrite Henum). done.
  - intros t1 t2 H1 H2 Hu1 Hu2. rewrite split_weights_pair by done.
    rewrite !filter_cons, !filter_nil.
    rewrite !decide_False by (by rewrite ?Hu1, ?Hu2).
    rewrite !decide_True by done. done.
  - intros u e Hu He Hurl Henum. rewrite !split_weights_pair by done.
    rewrite !filter_cons, !filter_nil.
    split; repeat case_decide; simpl; congruence.
Qed.


(** *** The EMA model *)





(** *** The batch loops *)

Lemma processed_app (t1 t2 : list event) :
  processed (t1 ++ t2) = processed t1 ++ processed t2.
Proof. apply omap_app. Qed.

(** The threshold of a loop, if it has one. *)
Lemma epoch_size_reached_off (factor : float) (i len : Z) :
  float_truthy factor = false → epoch_size_reached factor i len = ([], Ok false).
Proof. intros Hf. unfold epoch_size_reached. by rewrite Hf. Qed.

Lemma epoch_size_reached_on (factor : float) (i len t : Z) :
  float_truthy factor = true →
  py_round (PrimFloat.mul factor (float_of_Z len)) = Ok t →
  epoch_size_reached factor i len = ([], Ok (t <=? i)).
Proof. intros Hf Hr. unfold epoch_size_reached. rewrite Hf, Hr. reflexivity. Qed.

Lemma batches_done_step (threshold : option Z) (i r : Z) :
  0 ≤ r →
  batches_done threshold i (r + 1)
  = if match threshold with Some t => t <=? i | None => false end
    then 1 else 1 + batches_done threshold (i + 1) r.
Proof.
  intros Hr. unfold batches_done. destruct threshold as [t|]; [|lia].
  destruct (Z.leb_spec t i); lia.
Qed.

Lemma batches_done_nonneg (threshold : option Z) (i r : Z) :
  0 ≤ r → 0 ≤ batches_done threshold i r.
Proof. intros Hr. unfold batches_done. destruct threshold; lia. Qed.

Lemma ema_step_run (args : Args) (model_ema : bool) (epoch i : Z) :
  (model_ema = true → model_ema_steps args ≠ 0) →
  outcome (ema_step args model_ema epoch i) = Ok tt
  ∧ processed (trace (ema_step args model_ema epoch i)) = [].
Proof.
  intros Hsteps. unfold ema_step. destruct model_ema; [|done].
  specialize (Hsteps eq_refl). apply Z.eqb_neq in Hsteps. rewrite Hsteps.
  destruct (i mod model_ema_steps args =? 0); [|done].
  destruct (epoch <? lr_warmup_epochs args); done.
Qed.


Lemma evaluate_batches_run (args : Args) (len : Z) (threshold : option Z) :
  (∀ i, epoch_size_reached (val_epoch_size_factor args) i len
        = ([], Ok match threshold with Some t => t <=? i | None => false end)) →
  ∀ (batches : list Z) (i count : Z) (seen : list Z),
    let k := Z.to_nat (batches_done threshold i (Z.of_nat (length batches))) in
    outcome (evaluate_batches args len i batches count seen)
    = Ok (count + foldr Z.add 0 (take k batches), seen ++ take k batches)
    ∧ processed (trace (evaluate_batches args len i batches count seen))
      = seqZ i (batches_done threshold i (Z.of_nat (length batches))).
Proof.
  intros Hreach batches.
  induction batches as [|n rest IH]; intros i count seen k.
  - subst k. simpl. rewrite take_nil, app_nil_r, Z.add_0_r. split; [done|].
    unfold batches_done. destruct threshold; simpl; [|done].
    rewrite Z.min_l by lia. done.
  - cbn [evaluate_batches].
    rewrite bind_emit.
    rewrite (bind_ok _ _ [] _ (Hreach i)).
    subst k.
    replace (Z.of_nat (length (n :: rest))) with (Z.of_nat (length rest) + 1)
      by (simpl length; lia).
    rewrite batches_done_step by lia.
    destruct (match threshold with Some t => t <=? i | None => false end).
    + simpl. rewrite take_0. simpl. rewrite Z.add_0_r. done.
    + destruct (IH (i + 1) (count + n) (seen ++ [n])) as [IHok IHtr].
      pose proof (batches_done_nonneg threshold (i + 1) (Z.of_nat (length rest))
                    (Nat2Z.is_nonneg _)) as Hnn.
      replace (Z.to_nat (1 + batches_done threshold (i + 1) (Z.of_nat (length rest))))
        with (S (Z.to_nat (batches_done threshold (i + 1) (Z.of_nat (length rest)))))
        by lia.
      simpl. split.
      * rewrite IHok. rewrite <- app_assoc. simpl. f_equal. f_equal. lia.
      * rewrite IHtr. rewrite (seqZ_cons i) by lia. f_equal. f_equal; lia.
Qed.





(** *** One epoch of the training loop *)



(** *** File names *)

Lemma string_app_length (s1 s2 : string) :
  String.length (s1 +:+ s2) = (String.length s1 + String.length s2)%nat.
Proof.
  induction s1 as [|c s1 IH]; [done|].
  change (S (String.length (s1 +:+ s2)) = S (String.length s1 + String.length s2)).
  by rewrite IH.
Qed.

Lemma string_app_assoc (s1 s2 s3 : string) :
  (s1 +:+ s2) +:+ s3 = s1 +:+ (s2 +:+ s3).
Proof.
  induction s1 as [|c s1 IH]; [done|].
  change (String c ((s1 +:+ s2) +:+ s3) = String c (s1 +:+ (s2 +:+ s3))).
  by rewrite IH.
Qed.

Lemma string_app_inv_tail (s1 s2 t : string) :
  s1 +:+ t = s2 +:+ t → s1 = s2.
Proof.
  revert s2. induction s1 as [|c s1 IH]; intros [|c' s2] Heq.
  - done.
  - apply (f_equal String.length) in Heq.
    rewrite !string_app_length in Heq. simpl in Heq. lia.
  - apply (f_equal String.length) in Heq.
    rewrite !string_app_length in Heq. simpl in Heq. lia.
  - change (String c (s1 +:+ t) = String c' (s2 +:+ t)) in Heq.
    injection Heq as -> Heq. f_equal. by apply IH.
Qed.

(** Joining a directory with one of the file names of this program puts
    the same prefix before the name. *)
Lemma os_path_join_prefix (dir : string) :
  ∃ pre,
    (∀ rest, os_path_join dir (String "c" rest) = pre +:+ String "c" rest)
    ∧ (∀ rest, os_path_join dir (String "m" rest) = pre +:+ String "m" rest).
Proof.
  destruct dir as [|c0 dir].
  - exists "". split; reflexivity.
  - unfold os_path_join.
    destruct (bool_decide (substring (String.length (String c0 dir) - 1) 1 (String c0 dir)
                           = "/")).
    + exists (String c0 dir). split; reflexivity.
    + exists (String c0 dir +:+ "/").
      split; intros rest; symmetry; apply string_app_assoc.
Qed.




Lemma numbered_checkpoint_inj (args : Args) (e1 e2 : Z) :
  numbered_checkpoint args e1 = numbered_checkpoint args e2 → e1 = e2.
Proof.
  unfold numbered_checkpoint.
  destruct (os_path_join_prefix (output_dir args)) as (pre & Hc & _).
  change ("checkpoint_" +:+ pretty e1 +:+ ".pth")
    with (String "c" ("heckpoint_" +:+ pretty e1 +:+ ".pth")).
  change ("checkpoint_" +:+ pretty e2 +:+ ".pth")
    with (String "c" ("heckpoint_" +:+ pretty e2 +:+ ".pth")).
  rewrite !Hc. intros Heq. apply String.app_inj in Heq.
  injection Heq as Heq. apply String.app_inj in Heq.
  apply string_app_inv_tail in Heq.
  by apply pretty_Z_inj in Heq.
Qed.


(** *** What an epoch writes *)





(** *** The training loop *)




(** *** From [main] to the loop *)








End DriverProperties.

(** * The accuracy that the training loop tracks *)

Section TrackedAccuracy.
Import Train.






End TrackedAccuracy.

(** * The properties on the examples *)



(** A path and an enum name, in either order. *)
Lemma split_weights_first_of_each_kind_witness :
  Train.split_weights Examples.world_example (Some "a/b.pth, IMAGENET1K_V1")
  = Ok (Some "a/b.pth", Some "IMAGENET1K_V1")
  ∧ Train.split_weights Examples.world_example (Some " IMAGENET1K_V1,a/b.pth")
    = Ok (Some "a/b.pth", Some "IMAGENET1K_V1").
Proof.
  apply (proj2 (proj2 (proj2 (split_weights_first_of_each_kind Examples.world_example)))
           "a/b.pth" " IMAGENET1K_V1"); reflexivity.
Defined.

(** C6, as the specification words it, fails on a token that ends in a
    blank: [split_weights] returns the token with its trailing blank, and
    the trimmed token is another string. *)
Lemma split_weights_trimmed_counterexample :
  Train.split_weights Examples.world_example (Some "imagenet_v1 ")
  = Ok (None, Some "imagenet_v1 ")
  ∧ Train.spec_split_weights Examples.world_example "imagenet_v1 "
    = (None, Some "imagenet_v1")
  ∧ Train.split_weights Examples.world_example (Some "imagenet_v1 ")
    ≠ Ok (Train.spec_split_weights Examples.world_example "imagenet_v1 ").
Proof.
  repeat apply conj; [reflexivity|reflexivity|].
  intros [=].
Qed.



(** Both parallel modes on; and an optimizer name that is not known. *)
Lemma main_fatal_configuration_errors_witness :
  Train.main Examples.world_example Examples.args_both
  = ([Train.Mkdir "."; Train.TeeLogger "./run.log"; Train.InitDistributedMode;
      Train.PrintArgs],
     Raise (RuntimeError
       "both DistributedDataParallel and DataParallel cannot be used simultaneously"))
  ∧ ∃ e, Train.outcome (Train.main Examples.world_example Examples.args_adam) = Raise e
         ∧ e = RuntimeError
                 "Invalid optimizer Adam. Only SGD, RMSprop and AdamW are supported."
         ∧ Train.GetModel "resnet18" (Some "IMAGENET1K_V1")
             ∈ Train.trace (Train.main Examples.world_example Examples.args_adam).
Proof.
  split.
  - apply (proj1 (main_fatal_configuration_errors Examples.world_example)
             Examples.args_both (None, Some "IMAGENET1K_V1")); reflexivity.
  - destruct (proj2 (main_fatal_configuration_errors Examples.world_example)
                Examples.args_adam
                (Train.trace (Train.main_startup Examples.world_example Examples.args_adam))
                Examples.a_adam)
      as (e & Hout & Hmodel & _ & Hopt).
    + vm_compute. reflexivity.
    + reflexivity.
    + discriminate.
    + discriminate.
    + exists e. split; [exact Hout|]. split; [|exact Hmodel].
      apply Hopt. vm_compute. discriminate.
Defined.



(** * Further properties of [dataset_utils.py] *)

Section DatasetAccess.
Import DatasetUtils.
Context {Segmentation : Type}.
Context (coco_decode : Segmentation → nat → nat → decoded).
Context (random_shuffle : Z → list Z → list Z).
Context (Image_open : string → Image).

Implicit Types (obj : @Annotation Segmentation) (anno : list (@Annotation Segmentation)).
Implicit Types (cats : list Z) (c : @COCO Segmentation).

(** *** Indices *)

Lemma py_getitem_Some_iff {A} (l : list A) (idx : Z) :
  is_Some (py_getitem l idx) ↔ - Z.of_nat (length l) ≤ idx < Z.of_nat (length l).
Proof.
  unfold py_getitem. destruct (Z.ltb_spec idx 0).
  - destruct (Z.ltb_spec (idx + Z.of_nat (length l)) 0).
    + split; [by intros [? ?]|lia].
    + rewrite lookup_lt_is_Some. lia.
  - rewrite lookup_lt_is_Some. lia.
Qed.

Lemma py_getitem_negative {A} (l : list A) (idx : Z) :
  - Z.of_nat (length l) ≤ idx < 0 →
  py_getitem l idx = py_getitem l (idx + Z.of_nat (length l)).
Proof.
  intros Hidx. unfold py_getitem.
  destruct (Z.ltb_spec idx 0); [|lia].
  destruct (Z.ltb_spec (idx + Z.of_nat (length l)) 0); [lia|].
  destruct (Z.ltb_spec (idx + Z.of_nat (length l) + Z.of_nat (length l)) 0); [lia|].
  done.
Qed.

Lemma getitem_Some_iff (ds : @COCOSegmentation Segmentation) (idx : Z) (with_label : bool) :
  length (imgs ds) = length (img_ids ds) →
  is_Some (__getitem__ coco_decode Image_open ds idx with_label)
  ↔ - Z.of_nat (length (img_ids ds)) ≤ idx < Z.of_nat (length (img_ids ds)).
Proof.
  intros Hlen. rewrite <- (py_getitem_Some_iff (img_ids ds)). split.
  - intros Hsome. apply py_getitem_Some_iff. rewrite <- Hlen. apply py_getitem_Some_iff.
    unfold __getitem__ in Hsome. destruct with_label.
    + destruct (py_getitem (imgs ds) idx); [done|]. by destruct Hsome.
    + destruct (py_getitem (imgs ds) idx); [done|]. by destruct Hsome.
  - intros [img Himg].
    assert (Hpath : is_Some (py_getitem (imgs ds) idx)).
    { apply py_getitem_Some_iff. rewrite Hlen. apply py_getitem_Some_iff. by exists img. }
    destruct Hpath as [path Hpath]. destruct with_label.
    + rewrite (getitem_labelled coco_decode Image_open ds idx path img Hpath Himg). done.
    + unfold __getitem__. rewrite Hpath. done.
Qed.

(** X1.  A constructed dataset answers exactly at the indices from
    [-len] to [len - 1], with or without label; a negative index [idx]
    reads the item at [idx + len], as for a Python list. *)
Theorem getitem_index_range (folders : list string) (dir : string) c (shuffle : Z)
    (num nc : option Z) (ds : @COCOSegmentation Segmentation) (idx : Z) (with_label : bool) :
  __init__ random_shuffle folders dir c shuffle num nc = Some ds →
  (is_Some (__getitem__ coco_decode Image_open ds idx with_label)
   ↔ - Z.of_nat (__len__ ds) ≤ idx < Z.of_nat (__len__ ds))
  ∧ (- Z.of_nat (__len__ ds) ≤ idx < 0 →
     __getitem__ coco_decode Image_open ds idx with_label
     = __getitem__ coco_decode Image_open ds (idx + Z.of_nat (__len__ ds)) with_label).
Proof.
  intros Hinit.
  destruct (init_inv random_shuffle _ _ _ _ _ _ _ Hinit) as (_ & _ & _ & Hlen & Hnum).
  unfold __len__. rewrite Hnum. split.
  - by apply getitem_Some_iff.
  - intros Hidx. unfold __getitem__.
    rewrite (py_getitem_negative (img_ids ds)) by done.
    rewrite (py_getitem_negative (imgs ds)) by (rewrite Hlen; done).
    by rewrite Hlen.
Qed.

(** *** Paths *)

Lemma init_paths (folders : list string) (dir : string) c (shuffle : Z)
    (num nc : option Z) (ds : @COCOSegmentation Segmentation) :
  __init__ random_shuffle folders dir c shuffle num nc = Some ds →
  Forall2 (λ img_id path, os_path_join dir <$> loadImg_file_name c img_id = Some path)
    (img_ids ds) (imgs ds).
Proof.
  unfold __init__. destruct (init_categories nc) as [cats names]. simpl.
  destruct (bool_decide ("annotations" ∈ folders)); simpl; [|done].
  match goal with |- context [mapM ?f ?l] => destruct (mapM f l) as [paths|] eqn:Hpaths end;
    simpl; [|done].
  intros [= <-]. simpl. by apply mapM_Some_1 in Hpaths.
Qed.

(** X2.  In a constructed dataset the path at a position is the image
    directory joined with the file name that the index records for the
    image identifier at the same position: the unlabelled access at [i]
    names the image whose annotations the labelled access at [i] reads. *)
Theorem getitem_path_of_image (folders : list string) (dir : string) c (shuffle : Z)
    (num nc : option Z) (ds : @COCOSegmentation Segmentation) (i : nat) (img_id : Z) :
  __init__ random_shuffle folders dir c shuffle num nc = Some ds →
  img_ids ds !! i = Some img_id →
  ∃ name,
    loadImg_file_name c img_id = Some name
    ∧ imgs ds !! i = Some (os_path_join dir name)
    ∧ __getitem__ coco_decode Image_open ds (Z.of_nat i) false
      = Some (Unlabelled (os_path_join dir name))
    ∧ ∃ target,
        __getitem__ coco_decode Image_open ds (Z.of_nat i) true
        = Some (Labelled (to_rgb (Image_open (os_path_join dir name))) target)
        ∧ target = _convert_polys_to_mask coco_decode (Image_open (os_path_join dir name))
                     ((λ obj, set_category obj (class_index (categories ds) obj))
                        <$> kept_annotations (categories ds) c img_id).
Proof.
  intros Hinit Hid.
  pose proof (init_paths _ _ _ _ _ _ _ Hinit) as Hpaths.
  destruct (init_inv random_shuffle _ _ _ _ _ _ _ Hinit) as (_ & Hc & _).
  destruct (Forall2_lookup_l _ _ _ _ _ Hpaths Hid) as (path & Hpath & Hjoin).
  destruct (loadImg_file_name c img_id) as [name|] eqn:Hname; [|done].
  simpl in Hjoin. injection Hjoin as <-.
  exists name. split; [done|]. split; [exact Hpath|].
  assert (Hget : ∀ {A} (l : list A) x, l !! i = Some x → py_getitem l (Z.of_nat i) = Some x).
  { intros A l x Hl. unfold py_getitem.
    destruct (Z.ltb_spec (Z.of_nat i) 0); [lia|]. by rewrite Nat2Z.id. }
  split.
  - unfold __getitem__. by rewrite (Hget _ _ _ Hpath).
  - eexists. split; [|reflexivity].
    rewrite (getitem_labelled coco_decode Image_open ds _ _ img_id
               (Hget _ _ _ Hpath) (Hget _ _ _ Hid)).
    by rewrite Hc.
Qed.

(** *** The shape of the label map *)

Lemma has_shape_map2 {A B C} (f : A → B → C) (h w : nat) (a : Array2 A) (b : Array2 B) :
  has_shape h w a → has_shape h w b → has_shape h w (map2 f a b).
Proof.
  intros [Hha Hwa] [Hhb Hwb]. split; unfold map2.
  - rewrite length_zip_with. lia.
  - apply Forall_forall. intros row Hrow.
    apply elem_of_lookup_zip_with in Hrow as (i & ra & rb & -> & Hra & Hrb).
    rewrite length_zip_with.
    rewrite Forall_forall in Hwa. rewrite Forall_forall in Hwb.
    rewrite (Hwa ra), (Hwb rb); [lia| |]; by eapply list_elem_of_lookup_2.
Qed.

Lemma has_shape_reduce_axis0 (f : Z → Z → Z) (h w : nat) (rest : list (Array2 Z))
    (first : Array2 Z) :
  has_shape h w first → Forall (has_shape h w) rest →
  has_shape h w (reduce_axis0 f first rest).
Proof.
  revert first. induction rest as [|a rest IH]; intros first Hfirst Hrest; [done|].
  apply Forall_cons in Hrest as [Ha Hrest]. simpl. apply IH; [|done].
  by apply has_shape_map2.
Qed.

Lemma has_shape_np_zeros (h w : nat) : has_shape h w (np_zeros h w).
Proof.
  split; unfold np_zeros.
  - by rewrite length_replicate.
  - apply Forall_replicate. by rewrite length_replicate.
Qed.

Lemma convert_polys_shape (image : Image) anno :
  decodes_to_size coco_decode →
  has_shape (im_height image) (im_width image) (_convert_polys_to_mask coco_decode image anno).
Proof.
  intros Hdec. set (h := im_height image). set (w := im_width image).
  assert (Hmask : ∀ obj, has_shape h w
    (astype_uint8 (any_axis2 (expand_last (coco_decode (segmentation obj) h w))))).
  { intros obj. apply has_shape_amap, has_shape_amap, Hdec. }
  unfold _convert_polys_to_mask, _convert_poly_to_mask. fold h w.
  rewrite <- list_fmap_compose.
  destruct anno as [|o os]; simpl.
  - apply has_shape_np_zeros.
  - unfold mul_cats, set_overlaps, sum_axis0, max_axis0.
    apply has_shape_map2.
    + apply has_shape_reduce_axis0; [apply has_shape_amap, Hmask|].
      apply Forall_fmap, Forall_forall. intros obj _. apply Hmask.
    + apply has_shape_reduce_axis0; [apply has_shape_amap, Hmask|].
      apply Forall_forall. intros p Hp.
      apply elem_of_lookup_zip_with in Hp as (i & m & k & -> & Hm & _).
      apply has_shape_amap.
      apply list_lookup_fmap_Some in Hm as (obj & -> & _). apply Hmask.
Qed.

(** X3.  The label map of a labelled access has the height and the width
    of the opened image, whatever the annotations are (none included); the
    image returned has the same size and is never single-channel. *)
Theorem getitem_target_shape (ds : @COCOSegmentation Segmentation) (idx : Z)
    (path : string) (img_id : Z) :
  decodes_to_size coco_decode →
  py_getitem (imgs ds) idx = Some path →
  py_getitem (img_ids ds) idx = Some img_id →
  ∃ image target,
    __getitem__ coco_decode Image_open ds idx true = Some (Labelled image target)
    ∧ has_shape (im_height (Image_open path)) (im_width (Image_open path)) target
    ∧ im_height image = im_height (Image_open path)
    ∧ im_width image = im_width (Image_open path)
    ∧ (2 ≤ im_channels image)%nat.
Proof.
  intros Hdec Hpath Hid. eexists _, _.
  split; [by apply getitem_labelled|].
  split; [by apply convert_polys_shape|].
  unfold to_rgb. case_bool_decide; simpl; repeat split; lia.
Qed.

(** *** The values of the label map *)

Lemma class_index_bound cats obj :
  category_id obj ∈ cats → 0 ≤ class_index cats obj < Z.of_nat (length cats).
Proof.
  intros Hin. destruct (index_of_elem cats _ Hin) as (k & Hk & Hlook).
  unfold class_index. rewrite Hk. simpl.
  apply lookup_lt_Some in Hlook. lia.
Qed.

Lemma max_class_bound cats (h w : nat) c (img_id : Z) (y x : nat) :
  0 ≤ max_class coco_decode cats h w (kept_annotations cats c img_id) y x ≤ 255
  ∧ (Z.of_nat (length cats) ≤ 256 →
     max_class coco_decode cats h w (kept_annotations cats c img_id) y x
     < Z.max 1 (Z.of_nat (length cats))).
Proof.
  unfold max_class, kept_annotations.
  induction (loadAnns c img_id) as [|obj anno IH]; [simpl; lia|].
  rewrite filter_cons. case_decide as Hin; [|exact IH].
  rewrite fmap_cons. cbn [foldr].
  apply in_categories_spec, class_index_bound in Hin.
  assert (Hu : 0 ≤ uint8 (class_index cats obj) ≤ 255
               ∧ (Z.of_nat (length cats) ≤ 256 →
                  uint8 (class_index cats obj) < Z.of_nat (length cats))).
  { unfold uint8.
    pose proof (Z.mod_pos_bound (class_index cats obj) 256 eq_refl) as Hmod.
    split; [lia|]. intros Hlen. rewrite Z.mod_small by lia. lia. }
  destruct IH as [IH1 IH2], Hu as [Hu1 Hu2].
  destruct (covers coco_decode h w obj y x); (split; [lia|]);
    intros Hlen; specialize (IH2 Hlen); specialize (Hu2 Hlen); lia.
Qed.

(** X4.  A pixel of the label map inside the image holds a value from 0
    to 255.  With at most 255 categories it is 255 exactly where two or
    more of the kept annotations cover the pixel, and otherwise a class
    index below the number of categories (0 where nothing covers it): 255
    marks overlap and nothing else. *)
Theorem getitem_label_values (ds : @COCOSegmentation Segmentation) (idx : Z)
    (path : string) (img_id : Z) (y x : nat) :
  decodes_to_size coco_decode →
  py_getitem (imgs ds) idx = Some path →
  py_getitem (img_ids ds) idx = Some img_id →
  (y < im_height (Image_open path))%nat →
  (x < im_width (Image_open path))%nat →
  Z.of_nat (length (kept_annotations (categories ds) (coco_dataset ds) img_id)) < 2 ^ 64 →
  ∃ image target v,
    __getitem__ coco_decode Image_open ds idx true = Some (Labelled image target)
    ∧ pixel target y x = Some v
    ∧ 0 ≤ v ≤ 255
    ∧ ((length (categories ds) ≤ 255)%nat →
       (v = 255
        ↔ (2 ≤ cover_count coco_decode (im_height (Image_open path))
                 (im_width (Image_open path))
                 (kept_annotations (categories ds) (coco_dataset ds) img_id) y x)%nat)
       ∧ (v ≠ 255 → v < Z.max 1 (Z.of_nat (length (categories ds))))).
Proof.
  intros Hdec Hpath Hid Hy Hx Hlen.
  destruct (getitem_pixel coco_decode Image_open ds idx path img_id y x
              Hdec Hpath Hid Hy Hx Hlen) as (target & Hget & Hpix).
  eexists _, target, _. split; [exact Hget|]. split; [exact Hpix|].
  destruct (max_class_bound (categories ds) (im_height (Image_open path))
              (im_width (Image_open path)) (coco_dataset ds) img_id y x) as [Hrange Hlt].
  destruct (Z.ltb_spec 1 (Z.of_nat (cover_count coco_decode (im_height (Image_open path))
              (im_width (Image_open path))
              (kept_annotations (categories ds) (coco_dataset ds) img_id) y x))) as [Hc|Hc].
  - split; [lia|]. intros _. split; [|done]. split; [lia|done].
  - split; [lia|]. intros Hcats. specialize (Hlt ltac:(lia)). split; [|lia].
    split; lia.
Qed.

(** X9.  When none of the annotations of the image lies within the
    category list (always so when the list is empty, [num_classes <= 0]),
    the labelled access returns the all-zero label map of the image's
    size. *)
Theorem getitem_without_kept_annotations (ds : @COCOSegmentation Segmentation) (idx : Z)
    (path : string) (img_id : Z) :
  py_getitem (imgs ds) idx = Some path →
  py_getitem (img_ids ds) idx = Some img_id →
  (categories ds = [] →
   kept_annotations (categories ds) (coco_dataset ds) img_id = [])
  ∧ (kept_annotations (categories ds) (coco_dataset ds) img_id = [] →
     __getitem__ coco_decode Image_open ds idx true
     = Some (Labelled (to_rgb (Image_open path))
               (np_zeros (im_height (Image_open path)) (im_width (Image_open path))))).
Proof.
  intros Hpath Hid. split.
  - intros ->. apply kept_annotations_none, Forall_forall.
    intros obj _. apply not_elem_of_nil.
  - intros Hkept. rewrite (getitem_labelled coco_decode Image_open ds idx path img_id Hpath Hid).
    by rewrite Hkept.
Qed.

End DatasetAccess.

Section DatasetConstruction.
Import DatasetUtils.
Context {Segmentation : Type}.
Context (random_shuffle : Z → list Z → list Z).

Implicit Types (obj : @Annotation Segmentation) (anno : list (@Annotation Segmentation)).
Implicit Types (cats : list Z) (c : @COCO Segmentation).

Lemma length_py_slice_to {A} (l : list A) (n : Z) :
  Z.of_nat (length (py_slice_to l n))
  = if n <? 0 then Z.max 0 (Z.of_nat (length l) + n) else Z.min n (Z.of_nat (length l)).
Proof.
  unfold py_slice_to. destruct (Z.ltb_spec n 0); rewrite length_take; lia.
Qed.

Lemma py_slice_to_prefix {A} (l : list A) (n : Z) : py_slice_to l n `prefix_of` l.
Proof. unfold py_slice_to. destruct (n <? 0); apply prefix_take. Qed.

Lemma py_slice_to_sublist {A} (l : list A) (n : Z) : py_slice_to l n `sublist_of` l.
Proof. unfold py_slice_to. destruct (n <? 0); apply sublist_take. Qed.

(** X5.  The size and the order of a constructed dataset.  Without a cap
    it holds as many images as pass the filter of construction; a cap
    [num_imgs >= 0] keeps the first [num_imgs] of them (all, when there are
    fewer), a negative cap drops that many from the end, as the slice
    [[:num_imgs]] does.  Without shuffling the images stay in the order of
    the annotation index; and no image is listed twice when the index
    lists none twice. *)
Theorem init_size_and_order (folders : list string) (dir : string) c (shuffle : Z)
    (num nc : option Z) (ds : @COCOSegmentation Segmentation) :
  shuffle_permutes random_shuffle →
  __init__ random_shuffle folders dir c shuffle num nc = Some ds →
  Z.of_nat (__len__ ds)
  = match num with
    | None =>
        Z.of_nat (length (_remove_images_without_annotations (categories ds) c (getImgIds c)))
    | Some n =>
        if n <? 0
        then Z.max 0
               (Z.of_nat (length (_remove_images_without_annotations (categories ds) c
                                    (getImgIds c))) + n)
        else Z.min n
               (Z.of_nat (length (_remove_images_without_annotations (categories ds) c
                                    (getImgIds c))))
    end
  ∧ (shuffle = 0 →
     img_ids ds `prefix_of` _remove_images_without_annotations (categories ds) c (getImgIds c)
     ∧ img_ids ds `sublist_of` getImgIds c)
  ∧ (NoDup (getImgIds c) → NoDup (img_ids ds)).
Proof.
  intros Hperm Hinit. unfold shuffle_permutes in Hperm.
  destruct (init_inv random_shuffle _ _ _ _ _ _ _ Hinit) as (Hcats & _ & Hids & _ & Hnum).
  unfold __len__. rewrite Hnum, Hids, Hcats. cbn zeta.
  set (kept := _remove_images_without_annotations (init_categories nc).1 c (getImgIds c)).
  set (shuffled := if shuffle =? 0 then kept else random_shuffle shuffle kept).
  assert (Hlen : length shuffled = length kept).
  { subst shuffled. destruct (shuffle =? 0); [done|]. by rewrite Hperm. }
  split; [|split].
  - destruct num as [n|]; [|by rewrite Hlen].
    rewrite length_py_slice_to, Hlen. done.
  - intros Hshuffle. subst shuffled. rewrite Hshuffle, Z.eqb_refl. split.
    + destruct num as [n|]; [apply py_slice_to_prefix|done].
    + transitivity kept; [|apply sublist_filter].
      destruct num as [n|]; [apply py_slice_to_sublist|done].
  - intros Hnodup.
    assert (Hkept : NoDup shuffled).
    { subst shuffled. destruct (shuffle =? 0); [|rewrite Hperm]; by apply NoDup_filter. }
    destruct num as [n|]; [|done].
    eapply sublist_NoDup; [exact Hkept|apply py_slice_to_sublist].
Qed.

(** X6.  The filter of construction judges every image by itself: it
    distributes over concatenation, keeps the order, changes nothing when
    applied a second time, and never keeps an image for which the index
    has no annotation entry. *)
Theorem remove_images_without_annotations_filter cats c :
  (∀ ids1 ids2 : list Z,
     _remove_images_without_annotations cats c (ids1 ++ ids2)
     = _remove_images_without_annotations cats c ids1
       ++ _remove_images_without_annotations cats c ids2)
  ∧ (∀ ids : list Z, _remove_images_without_annotations cats c ids `sublist_of` ids)
  ∧ (∀ ids : list Z,
       _remove_images_without_annotations cats c
         (_remove_images_without_annotations cats c ids)
       = _remove_images_without_annotations cats c ids)
  ∧ (∀ (ids : list Z) (img : Z),
       imgToAnns c !! img = None →
       img ∉ _remove_images_without_annotations cats c ids).
Proof.
  unfold _remove_images_without_annotations. repeat apply conj.
  - intros ids1 ids2. apply filter_app.
  - intros ids. apply sublist_filter.
  - intros ids. by apply list_filter_filter_r.
  - intros ids img Hnone Hin. apply list_elem_of_filter in Hin as [Hvalid _].
    unfold construction_annotations, loadAnns in Hvalid. rewrite Hnone in Hvalid.
    simpl in Hvalid. destruct cats; [done|]. by rewrite filter_nil in Hvalid.
Qed.

(** *** Remapping *)

Lemma index_of_seqZ (n v : Z) :
  0 ≤ v < n → index_of (seqZ 0 n) v = Some (Z.to_nat v).
Proof.
  intros Hv. assert (Hin : v ∈ seqZ 0 n) by (apply elem_of_seqZ; lia).
  destruct (index_of_elem (seqZ 0 n) v Hin) as (k & -> & Hk).
  apply lookup_seqZ in Hk as [-> _]. f_equal. lia.
Qed.

Lemma in_categories_seqZ (n : Z) obj :
  in_categories (seqZ 0 n) obj = true ↔ 0 ≤ category_id obj < n.
Proof. rewrite in_categories_spec, elem_of_seqZ. lia. Qed.

(** X7.  Filtering and remapping never fail.  Each annotation kept gets
    the position of its category in the table, so that looking that
    position up in the table gives the category back, and keeps its area
    and segmentation; without remapping the kept annotations come back
    unchanged.  With the table [range(n)] (every [num_classes] but 21)
    remapping changes nothing: the result is the annotations whose category
    lies in [0, n), as they were. *)
Theorem filter_and_remap_round_trip :
  (∀ cats anno, ∃ anno',
     _filter_and_remap_categories cats anno true = Some anno'
     ∧ Forall2 (λ obj obj',
           cats !! Z.to_nat (category_id obj') = Some (category_id obj)
           ∧ 0 ≤ category_id obj' < Z.of_nat (length cats)
           ∧ area obj' = area obj
           ∧ segmentation obj' = segmentation obj)
         (filter (λ obj, in_categories cats obj = true) anno) anno')
  ∧ (∀ cats anno,
       _filter_and_remap_categories cats anno false
       = Some (filter (λ obj, category_id obj ∈ cats) anno))
  ∧ (∀ (nc : option Z),
       default 80 nc ≠ 21 → (init_categories nc).1 = seqZ 0 (default 80 nc))
  ∧ (∀ (n : Z) anno,
       _filter_and_remap_categories (seqZ 0 n) anno true
       = Some (filter (λ obj, 0 ≤ category_id obj < n) anno)).
Proof.
  repeat apply conj.
  - intros cats anno. eexists. split; [apply filter_and_remap_total|].
    apply Forall2_fmap_r, Forall_Forall2_diag, Forall_forall.
    intros obj Hobj. apply list_elem_of_filter in Hobj as [Hin _].
    apply in_categories_spec in Hin.
    destruct (index_of_elem cats _ Hin) as (k & Hk & Hlook).
    simpl. unfold class_index. rewrite Hk. simpl. rewrite Nat2Z.id.
    apply lookup_lt_Some in Hlook as Hlt.
    repeat split; [done|lia|lia].
  - intros cats anno. unfold _filter_and_remap_categories. f_equal.
    apply list_filter_iff. intros obj. apply in_categories_spec.
  - intros nc Hnc. unfold init_categories.
    apply Z.eqb_neq in Hnc. by rewrite Hnc.
  - intros n anno. rewrite filter_and_remap_total. f_equal.
    rewrite (list_filter_iff _ (λ obj, 0 ≤ category_id obj < n))
      by (intros obj; apply in_categories_seqZ).
    induction anno as [|obj anno IH]; [done|].
    rewrite filter_cons. case_decide as Hobj; [|exact IH].
    rewrite fmap_cons, IH. f_equal.
    unfold class_index. rewrite index_of_seqZ by done. simpl.
    rewrite Z2Nat.id by lia. by destruct obj.
Qed.

End DatasetConstruction.

(** * The area test *)

Section AreaTest.
Import DatasetUtils.
Context {Segmentation : Type}.

Implicit Types (obj : @Annotation Segmentation) (anno : list (@Annotation Segmentation)).

Lemma SFltb_add_zero (k x : spec_float) :
  SFltb k (SF64add (S754_zero false) x) = SFltb k x.
Proof. by destruct x as [[]|[]| |[] m e], k as [[]|[]| |[] m' e']. Qed.

Lemma float_gt_add_zero (a y : float) :
  float_gt (PrimFloat.add 0%float a) y = float_gt a y.
Proof.
  unfold float_gt. rewrite !FloatAxioms.ltb_spec, FloatAxioms.add_spec.
  change (Prim2SF 0%float) with (S754_zero false). apply SFltb_add_zero.
Qed.

Lemma add_nan_l (x y : float) :
  Prim2SF x = S754_nan → Prim2SF (PrimFloat.add x y) = S754_nan.
Proof. intros Hx. by rewrite FloatAxioms.add_spec, Hx. Qed.

Lemma add_nan_r (x y : float) :
  Prim2SF y = S754_nan → Prim2SF (PrimFloat.add x y) = S754_nan.
Proof.
  intros Hy. rewrite FloatAxioms.add_spec, Hy. by destruct (Prim2SF x) as [[]|[]| |[] m e].
Qed.

Lemma float_gt_nan (x y : float) : Prim2SF x = S754_nan → float_gt x y = false.
Proof.
  intros Hx. unfold float_gt. rewrite FloatAxioms.ltb_spec, Hx.
  by destruct (Prim2SF y) as [[]|[]| |[] m e].
Qed.

Lemma sum_areas_nan anno (acc : float) :
  Prim2SF acc = S754_nan ∨ Exists (λ obj, Prim2SF (area obj) = S754_nan) anno →
  Prim2SF (foldl (λ acc obj, PrimFloat.add acc (area obj)) acc anno) = S754_nan.
Proof.
  revert acc. induction anno as [|obj anno IH]; intros acc [Hacc|Hex]; simpl.
  - done.
  - by apply Exists_nil in Hex.
  - apply IH. left. by apply add_nan_l.
  - apply IH. apply Exists_cons in Hex as [Hobj|Hex]; [left|by right].
    by apply add_nan_r.
Qed.

(** X8.  The area test at its edges: no annotation never passes; a single
    annotation passes exactly when its area is greater than 1000 (so not
    when the area is NaN); and a list that holds an annotation whose area
    is NaN never passes, whatever the other areas are. *)
Theorem has_valid_annotation_edges :
  _has_valid_annotation (@nil (@Annotation Segmentation)) = false
  ∧ (∀ obj, _has_valid_annotation [obj] = float_gt (area obj) 1000%float)
  ∧ (∀ anno obj,
       obj ∈ anno → Prim2SF (area obj) = S754_nan → _has_valid_annotation anno = false).
Proof.
  split; [done|]. split.
  - intros obj. unfold _has_valid_annotation, sum_areas. simpl.
    apply float_gt_add_zero.
  - intros anno obj Hin Hnan. unfold _has_valid_annotation.
    destruct anno as [|o anno]; [done|].
    apply float_gt_nan. unfold sum_areas. apply sum_areas_nan. right.
    apply Exists_exists. by exists obj.
Qed.

End AreaTest.

(** ** The further properties on the example index *)

(** The example index with the default 80 classes holds images 1, 3 and
    4: index -1 answers and reads the item at index 2. *)
Lemma getitem_index_range_witness :
  ∃ ds,
    DatasetUtils.__init__ Examples.reverse_shuffle Examples.folders_example "val"
      Examples.coco_example 0 None None = Some ds
    ∧ is_Some (DatasetUtils.__getitem__ Examples.rect_decode Examples.open_4x4 ds (-1) true)
    ∧ DatasetUtils.__getitem__ Examples.rect_decode Examples.open_4x4 ds (-1) true
      = DatasetUtils.__getitem__ Examples.rect_decode Examples.open_4x4 ds
          (-1 + Z.of_nat (DatasetUtils.__len__ ds)) true.
Proof.
  destruct (init_total Examples.reverse_shuffle Examples.folders_example "val"
              Examples.coco_example 0 None None reverse_shuffle_permutes) as [ds Hinit].
  { apply (bool_decide_unpack _). vm_compute. exact I. }
  exists ds. split; [exact Hinit|].
  assert (Hlen : DatasetUtils.__len__ ds = 3%nat).
  { destruct (init_inv _ _ _ _ _ _ _ _ Hinit) as (_ & _ & Hids & _ & Hnum).
    unfold DatasetUtils.__len__. rewrite Hnum, Hids. vm_compute. reflexivity. }
  destruct (getitem_index_range Examples.rect_decode Examples.reverse_shuffle
              Examples.open_4x4 Examples.folders_example "val" Examples.coco_example
              0 None None ds (-1) true Hinit) as [Hiff Hneg].
  split.
  - apply Hiff. rewrite Hlen. simpl. lia.
  - apply Hneg. rewrite Hlen. simpl. lia.
Defined.

(** Position 1 of that dataset is image 3, stored as [c.jpg]. *)
Lemma getitem_path_of_image_witness :
  ∃ ds,
    DatasetUtils.__init__ Examples.reverse_shuffle Examples.folders_example "val"
      Examples.coco_example 0 None None = Some ds
    ∧ DatasetUtils.__getitem__ Examples.rect_decode Examples.open_4x4 ds 1 false
      = Some (DatasetUtils.Unlabelled "val/c.jpg").
Proof.
  destruct (init_total Examples.reverse_shuffle Examples.folders_example "val"
              Examples.coco_example 0 None None reverse_shuffle_permutes) as [ds Hinit].
  { apply (bool_decide_unpack _). vm_compute. exact I. }
  exists ds. split; [exact Hinit|].
  assert (Hid : DatasetUtils.img_ids ds !! 1%nat = Some 3).
  { destruct (init_inv _ _ _ _ _ _ _ _ Hinit) as (_ & _ & Hids & _).
    rewrite Hids. vm_compute. reflexivity. }
  destruct (getitem_path_of_image Examples.rect_decode Examples.reverse_shuffle
              Examples.open_4x4 Examples.folders_example "val" Examples.coco_example
              0 None None ds 1 3 Hinit Hid) as (name & Hname & _ & Hget & _).
  vm_compute in Hname. injection Hname as <-. exact Hget.
Defined.

(** Image 1 of the example index under the 21-class table: the label map
    is 4 x 4, as the image is. *)
Lemma getitem_target_shape_witness :
  ∃ image target,
    DatasetUtils.__getitem__ Examples.rect_decode Examples.open_4x4
      {| DatasetUtils.categories := DatasetUtils.categories_21;
         DatasetUtils.class_names := None;
         DatasetUtils.coco_dataset := Examples.coco_example;
         DatasetUtils.img_ids := [1; 3];
         DatasetUtils.imgs := ["a.jpg"; "c.jpg"];
         DatasetUtils.num_imgs := 2 |} 0 true
    = Some (DatasetUtils.Labelled image target)
    ∧ DatasetUtils.has_shape 4 4 target.
Proof.
  destruct (getitem_target_shape Examples.rect_decode Examples.open_4x4
    {| DatasetUtils.categories := DatasetUtils.categories_21;
       DatasetUtils.class_names := None;
       DatasetUtils.coco_dataset := Examples.coco_example;
       DatasetUtils.img_ids := [1; 3];
       DatasetUtils.imgs := ["a.jpg"; "c.jpg"];
       DatasetUtils.num_imgs := 2 |} 0 "a.jpg" 1 rect_decode_shape eq_refl eq_refl)
    as (image & target & Hget & Hshape & _).
  exists image, target. split; [exact Hget|exact Hshape].
Defined.

(** The same access at pixel (0, 0), which only the bottle covers: the
    value is not 255 and lies below 21. *)
Lemma getitem_label_values_witness :
  ∃ image target v,
    DatasetUtils.__getitem__ Examples.rect_decode Examples.open_4x4
      {| DatasetUtils.categories := DatasetUtils.categories_21;
         DatasetUtils.class_names := None;
         DatasetUtils.coco_dataset := Examples.coco_example;
         DatasetUtils.img_ids := [1; 3];
         DatasetUtils.imgs := ["a.jpg"; "c.jpg"];
         DatasetUtils.num_imgs := 2 |} 0 true
    = Some (DatasetUtils.Labelled image target)
    ∧ DatasetUtils.pixel target 0 0 = Some v
    ∧ 0 ≤ v < 21.
Proof.
  destruct (getitem_label_values Examples.rect_decode Examples.open_4x4
    {| DatasetUtils.categories := DatasetUtils.categories_21;
       DatasetUtils.class_names := None;
       DatasetUtils.coco_dataset := Examples.coco_example;
       DatasetUtils.img_ids := [1; 3];
       DatasetUtils.imgs := ["a.jpg"; "c.jpg"];
       DatasetUtils.num_imgs := 2 |} 0 "a.jpg" 1 0%nat 0%nat rect_decode_shape eq_refl eq_refl)
    as (image & target & v & Hget & Hpix & Hrange & Hcats).
  - vm_compute. lia.
  - vm_compute. lia.
  - vm_compute. reflexivity.
  - exists image, target, v. split; [exact Hget|]. split; [exact Hpix|].
    destruct Hcats as [Hiff Hlt]; [simpl; lia|].
    assert (Hne : v ≠ 255).
    { intros H255. apply Hiff in H255. vm_compute in H255. lia. }
    specialize (Hlt Hne). simpl in Hlt. lia.
Defined.

(** With [num_classes = 0] image 4 is in the dataset and its label map is
    all zero. *)
Lemma getitem_without_kept_annotations_witness :
  DatasetUtils.__getitem__ Examples.rect_decode Examples.open_4x4
    {| DatasetUtils.categories := [];
       DatasetUtils.class_names := None;
       DatasetUtils.coco_dataset := Examples.coco_example;
       DatasetUtils.img_ids := [1; 3; 4];
       DatasetUtils.imgs := ["a.jpg"; "c.jpg"; "d.jpg"];
       DatasetUtils.num_imgs := 3 |} 2 true
  = Some (DatasetUtils.Labelled (DatasetUtils.to_rgb (Examples.open_4x4 "d.jpg"))
            (DatasetUtils.np_zeros 4 4)).
Proof.
  destruct (getitem_without_kept_annotations Examples.rect_decode Examples.open_4x4
    {| DatasetUtils.categories := [];
       DatasetUtils.class_names := None;
       DatasetUtils.coco_dataset := Examples.coco_example;
       DatasetUtils.img_ids := [1; 3; 4];
       DatasetUtils.imgs := ["a.jpg"; "c.jpg"; "d.jpg"];
       DatasetUtils.num_imgs := 3 |} 2 "d.jpg" 4 eq_refl eq_refl) as [Hempty Hzero].
  apply Hzero, Hempty. reflexivity.
Defined.

(** The example index under the 21-class table, capped at one image: the
    dataset holds one image, the first in file order. *)
Lemma init_size_and_order_witness :
  ∃ ds,
    DatasetUtils.__init__ Examples.reverse_shuffle Examples.folders_example "val"
      Examples.coco_example 0 (Some 1) (Some 21) = Some ds
    ∧ DatasetUtils.__len__ ds = 1%nat
    ∧ NoDup (DatasetUtils.img_ids ds).
Proof.
  destruct (init_total Examples.reverse_shuffle Examples.folders_example "val"
              Examples.coco_example 0 (Some 1) (Some 21) reverse_shuffle_permutes)
    as [ds Hinit].
  { apply (bool_decide_unpack _). vm_compute. exact I. }
  exists ds. split; [exact Hinit|].
  destruct (init_size_and_order Examples.reverse_shuffle Examples.folders_example "val"
              Examples.coco_example 0 (Some 1) (Some 21) ds reverse_shuffle_permutes Hinit)
    as (Hlen & _ & Hnodup).
  split.
  - destruct (init_inv _ _ _ _ _ _ _ _ Hinit) as (Hcats & _).
    rewrite Hcats in Hlen.
    remember (Z.of_nat (DatasetUtils.__len__ ds)) as n eqn:Hn.
    vm_compute in Hlen. lia.
  - apply Hnodup. apply (bool_decide_unpack _). vm_compute. exact I.
Defined.

(** Image 5 of the example index has no annotation entry: no table keeps
    it. *)
Lemma remove_images_without_annotations_filter_witness :
  5 ∈ DatasetUtils.getImgIds Examples.coco_example
  ∧ 5 ∉ DatasetUtils._remove_images_without_annotations DatasetUtils.categories_21
          Examples.coco_example (DatasetUtils.getImgIds Examples.coco_example).
Proof.
  split.
  - apply (bool_decide_unpack _). vm_compute. exact I.
  - apply (proj2 (proj2 (proj2 (remove_images_without_annotations_filter
             DatasetUtils.categories_21 Examples.coco_example)))).
    vm_compute. reflexivity.
Defined.

(** With the table [range(80)] the car of image 1 keeps category 3. *)
Lemma filter_and_remap_round_trip_witness :
  DatasetUtils._filter_and_remap_categories (seqZ 0 80)
    [Examples.ann 3 600%float (1, 1, 3, 3)%nat; Examples.ann 90 10%float (0, 0, 1, 1)%nat] true
  = Some [Examples.ann 3 600%float (1, 1, 3, 3)%nat].
Proof.
  rewrite (proj2 (proj2 (proj2 filter_and_remap_round_trip))).
  vm_compute. reflexivity.
Defined.

(** An annotation whose area is NaN makes the list fail the test, next to
    one of area 5000. *)
Lemma has_valid_annotation_edges_witness :
  DatasetUtils._has_valid_annotation
    [Examples.ann 3 5000%float (0, 0, 4, 4)%nat; Examples.ann 3 PrimFloat.nan (0, 0, 1, 1)%nat]
  = false.
Proof.
  apply (proj2 (proj2 has_valid_annotation_edges)
           _ (Examples.ann 3 PrimFloat.nan (0, 0, 1, 1)%nat)).
  - apply list_elem_of_further, list_elem_of_here.
  - reflexivity.
Defined.

Section RunCases.
Import Train.

Lemma trace_bind_cases {A B} (m : M A) (f : A → M B) :
  trace (bind m f)
  = trace m ++ match outcome m with Ok a => trace (f a) | Raise _ => [] end.
Proof.
  destruct m as [t [a|e]]; simpl.
  - by destruct (f a).
  - by rewrite app_nil_r.
Qed.

Lemma outcome_bind_cases {A B} (m : M A) (f : A → M B) :
  outcome (bind m f)
  = match outcome m with Ok a => outcome (f a) | Raise e => Raise e end.
Proof.
  destruct m as [t [a|e]]; simpl; [|done]. by destruct (f a).
Qed.

End RunCases.

Section BatchLoops.
Import Train.
Context (w : World).

Lemma ema_step_cases (args : Args) (model_ema : bool) (epoch i : Z) :
  ema_step args model_ema epoch i
  = if model_ema then
      if model_ema_steps args =? 0
      then ([], Raise (ZeroDivisionError "integer division or modulo by zero"))
      else if i mod model_ema_steps args =? 0
           then (EmaUpdate i :: (if epoch <? lr_warmup_epochs args then [EmaReset] else []),
                 Ok tt)
           else ([], Ok tt)
    else ([], Ok tt).
Proof.
  unfold ema_step. destruct model_ema; [|done].
  destruct (model_ema_steps args =? 0); [done|].
  destruct (i mod model_ema_steps args =? 0); [|done].
  by destruct (epoch <? lr_warmup_epochs args).
Qed.

Lemma trace_epoch_size_reached (factor : float) (i len : Z) :
  trace (epoch_size_reached factor i len) = [].
Proof.
  unfold epoch_size_reached. destruct (float_truthy factor); [|done].
  by destruct (py_round _).
Qed.

Lemma train_batches_cons (args : Args) (model_ema scaler : bool) (epoch len i n : Z)
    (rest : list Z) :
  trace (train_batches args model_ema scaler epoch len i (n :: rest))
  = OptimizerStep epoch i scaler (bool_decide (is_Some (clip_grad_norm args)))
    :: trace (ema_step args model_ema epoch i)
    ++ match outcome (ema_step args model_ema epoch i) with
       | Ok _ =>
           MetricUpdate i n
           :: match outcome (epoch_size_reached (train_epoch_size_factor args) i len) with
              | Ok false => trace (train_batches args model_ema scaler epoch len (i + 1) rest)
              | _ => []
              end
       | Raise _ => []
       end.
Proof.
  cbn [train_batches]. rewrite bind_emit. unfold trace at 1. cbn [fst].
  f_equal. rewrite trace_bind_cases. f_equal.
  destruct (outcome (ema_step args model_ema epoch i)) as [[]|e]; [|done].
  rewrite bind_emit. unfold trace at 1. cbn [fst]. f_equal.
  rewrite trace_bind_cases, trace_epoch_size_reached. simpl.
  by destruct (outcome (epoch_size_reached _ i len)) as [[|]|e].
Qed.

Lemma ema_updates_cons (ev : event) (t : list event) :
  ema_updates (ev :: t)
  = match ev with EmaUpdate i => i :: ema_updates t | _ => ema_updates t end.
Proof. by destruct ev. Qed.

Lemma ema_resets_cons (ev : event) (t : list event) :
  ema_resets (ev :: t) = match ev with EmaReset => S (ema_resets t) | _ => ema_resets t end.
Proof. by destruct ev. Qed.

Lemma optimizer_steps_cons (ev : event) (t : list event) :
  optimizer_steps (ev :: t)
  = match ev with
    | OptimizerStep _ i scaled clipped => (i, scaled, clipped) :: optimizer_steps t
    | _ => optimizer_steps t
    end.
Proof. by destruct ev. Qed.

Lemma processed_cons (ev : event) (t : list event) :
  processed (ev :: t)
  = match ev with MetricUpdate i _ => i :: processed t | _ => processed t end.
Proof. by destruct ev. Qed.

Ltac batch_cases args model_ema epoch i len :=
  rewrite train_batches_cons, ema_step_cases;
  destruct model_ema;
  [ destruct (Z.eqb_spec (model_ema_steps args) 0);
    [ | destruct (Z.eqb_spec (i mod model_ema_steps args) 0) ] | ];
  destruct (outcome (epoch_size_reached (train_epoch_size_factor args) i len)) as [[|]|?];
  destruct (epoch <? lr_warmup_epochs args);
  cbn [trace outcome fst snd app];
  rewrite ?ema_updates_cons, ?ema_resets_cons, ?optimizer_steps_cons, ?processed_cons;
  cbn beta iota.

Lemma train_batches_ema (args : Args) (model_ema scaler : bool) (epoch len : Z)
    (batches : list Z) (i : Z) :
  ema_updates (trace (train_batches args model_ema scaler epoch len i batches))
  = (if model_ema
     then filter (λ j, j mod model_ema_steps args = 0)
            (processed (trace (train_batches args model_ema scaler epoch len i batches)))
     else []).
Proof.
  revert i. induction batches as [|n rest IH]; intros i.
  - simpl. by destruct model_ema.
  - specialize (IH (i + 1)).
    batch_cases args model_ema epoch i len;
      rewrite ?filter_cons, ?filter_nil, ?decide_True, ?decide_False by done;
      rewrite ?IH; reflexivity.
Qed.

Lemma train_batches_resets (args : Args) (model_ema scaler : bool) (epoch len : Z)
    (batches : list Z) (i : Z) :
  ema_resets (trace (train_batches args model_ema scaler epoch len i batches))
  = (if epoch <? lr_warmup_epochs args
     then length (ema_updates (trace (train_batches args model_ema scaler epoch len i
                                        batches)))
     else 0%nat).
Proof.
  revert i. induction batches as [|n rest IH]; intros i.
  - simpl. by destruct (epoch <? lr_warmup_epochs args).
  - specialize (IH (i + 1)).
    destruct (epoch <? lr_warmup_epochs args) eqn:Hwarm;
      batch_cases args model_ema epoch i len; try discriminate;
      cbn [length]; rewrite ?IH; reflexivity.
Qed.

Lemma train_batches_steps (args : Args) (model_ema scaler : bool) (epoch len : Z)
    (batches : list Z) (i : Z) :
  (model_ema = true → model_ema_steps args ≠ 0) →
  optimizer_steps (trace (train_batches args model_ema scaler epoch len i batches))
  = (λ j, (j, scaler, bool_decide (is_Some (clip_grad_norm args))))
      <$> processed (trace (train_batches args model_ema scaler epoch len i batches)).
Proof.
  intros Hsteps. revert i. induction batches as [|n rest IH]; intros i.
  - done.
  - specialize (IH (i + 1)).
    batch_cases args model_ema epoch i len; try (by specialize (Hsteps eq_refl));
      cbn [fmap list_fmap]; rewrite ?IH; reflexivity.
Qed.

(** X10.  In [train_one_epoch] the EMA model is updated at exactly the
    batches gone through whose index is a multiple of [model_ema_steps]
    (none without an EMA model), and its buffer is reset after each of
    these updates exactly when the epoch lies before [lr_warmup_epochs];
    every batch gone through had one gradient step, taken with the loss
    scaled when there is a scaler and with the gradients clipped when
    [clip_grad_norm] is given. *)
Theorem train_one_epoch_ema_schedule (args : Args) (model_ema scaler : bool) (epoch : Z)
    (data_loader : list Z) :
  ema_updates (trace (train_one_epoch args model_ema scaler epoch data_loader))
  = (if model_ema
     then filter (λ j, j mod model_ema_steps args = 0)
            (processed (trace (train_one_epoch args model_ema scaler epoch data_loader)))
     else [])
  ∧ ema_resets (trace (train_one_epoch args model_ema scaler epoch data_loader))
    = (if epoch <? lr_warmup_epochs args
       then length (ema_updates (trace (train_one_epoch args model_ema scaler epoch
                                          data_loader)))
       else 0%nat)
  ∧ ((model_ema = true → model_ema_steps args ≠ 0) →
     optimizer_steps (trace (train_one_epoch args model_ema scaler epoch data_loader))
     = (λ j, (j, scaler, bool_decide (is_Some (clip_grad_norm args))))
         <$> processed (trace (train_one_epoch args model_ema scaler epoch data_loader))).
Proof.
  unfold train_one_epoch. split; [apply train_batches_ema|].
  split; [apply train_batches_resets|apply train_batches_steps].
Qed.

(** X11.  With an EMA model and [model_ema_steps = 0] the first batch
    ends [train_one_epoch] with a ZeroDivisionError, after its gradient
    step and before any update of the EMA model or of the metrics; an empty
    loader makes no call at all and returns. *)
Theorem train_one_epoch_zero_ema_steps (args : Args) (scaler : bool) (epoch n : Z)
    (rest : list Z) :
  model_ema_steps args = 0 →
  (∃ msg,
     train_one_epoch args true scaler epoch (n :: rest)
     = ([OptimizerStep epoch 0 scaler (bool_decide (is_Some (clip_grad_norm args)))],
        Raise (ZeroDivisionError msg)))
  ∧ train_one_epoch args true scaler epoch [] = ([], Ok tt).
Proof.
  intros Hsteps. split; [|done]. eexists.
  unfold train_one_epoch. cbn [train_batches]. rewrite bind_emit.
  rewrite ema_step_cases, Hsteps. reflexivity.
Qed.

(** *** A factor that is not a number *)

Lemma float_truthy_nan (x : float) : Prim2SF x = S754_nan → float_truthy x = true.
Proof.
  intros Hx. unfold float_truthy. rewrite FloatAxioms.eqb_spec, Hx. reflexivity.
Qed.

Lemma py_round_mul_nan (x y : float) :
  Prim2SF x = S754_nan →
  py_round (PrimFloat.mul x y)
  = Raise (ValueError "cannot convert float NaN to integer").
Proof.
  intros Hx. unfold py_round. rewrite FloatAxioms.mul_spec, Hx. reflexivity.
Qed.

Lemma epoch_size_reached_nan (factor : float) (i len : Z) :
  Prim2SF factor = S754_nan →
  epoch_size_reached factor i len
  = ([], Raise (ValueError "cannot convert float NaN to integer")).
Proof.
  intros Hnan. unfold epoch_size_reached.
  rewrite (float_truthy_nan _ Hnan), (py_round_mul_nan _ _ Hnan). reflexivity.
Qed.

(** X12.  A factor that is NaN counts as set; rounding its product with
    the number of batches raises a ValueError.  So [train_one_epoch] ends
    with this error at the end of the first batch, which it has gone
    through in full, and [evaluate] ends with it after the first batch,
    before the samples are counted across processes. *)
Theorem epoch_size_factor_nan :
  (∀ (args : Args) (model_ema scaler : bool) (epoch n : Z) (rest : list Z),
     Prim2SF (train_epoch_size_factor args) = S754_nan →
     (model_ema = true → model_ema_steps args ≠ 0) →
     ∃ msg,
       outcome (train_one_epoch args model_ema scaler epoch (n :: rest))
       = Raise (ValueError msg)
       ∧ processed (trace (train_one_epoch args model_ema scaler epoch (n :: rest))) = [0]
       ∧ optimizer_steps (trace (train_one_epoch args model_ema scaler epoch (n :: rest)))
         = [(0, scaler, bool_decide (is_Some (clip_grad_norm args)))])
  ∧ (∀ (args : Args) (n : Z) (rest : list Z) (dataset_size : Z),
       Prim2SF (val_epoch_size_factor args) = S754_nan →
       ∃ msg,
         evaluate w args (n :: rest) dataset_size
         = ([MetricUpdate 0 n], Raise (ValueError msg))).
Proof.
  split.
  - intros args model_ema scaler epoch n rest Hnan Hsteps. eexists.
    unfold train_one_epoch.
    split; [|split].
    + cbn [train_batches]. rewrite bind_emit. unfold outcome at 1. cbn [snd].
      rewrite outcome_bind_cases.
      destruct (ema_step_run args model_ema epoch 0 Hsteps) as [-> _].
      rewrite bind_emit. unfold outcome at 1. cbn [snd].
      rewrite outcome_bind_cases, (epoch_size_reached_nan _ _ _ Hnan). reflexivity.
    + rewrite train_batches_cons, (epoch_size_reached_nan _ _ _ Hnan).
      destruct (ema_step_run args model_ema epoch 0 Hsteps) as [-> Hpr].
      cbn [outcome snd]. rewrite processed_cons. cbn beta iota.
      rewrite processed_app, Hpr. reflexivity.
    + rewrite train_batches_steps by done.
      rewrite train_batches_cons, (epoch_size_reached_nan _ _ _ Hnan).
      destruct (ema_step_run args model_ema epoch 0 Hsteps) as [-> Hpr].
      cbn [outcome snd]. rewrite processed_cons. cbn beta iota.
      rewrite processed_app, Hpr. reflexivity.
  - intros args n rest dataset_size Hnan. eexists.
    unfold evaluate. cbn [evaluate_batches]. rewrite bind_emit.
    rewrite (epoch_size_reached_nan _ _ _ Hnan). reflexivity.
Qed.

(** *** What [evaluate] counts *)

Lemma evaluate_batches_metric_only (args : Args) (len : Z) (batches : list Z)
    (i count : Z) (seen : list Z) :
  Forall (λ ev, is_metric_update ev = true)
    (trace (evaluate_batches args len i batches count seen)).
Proof.
  revert i count seen. induction batches as [|n rest IH]; intros i count seen.
  - apply Forall_nil_2.
  - cbn [evaluate_batches]. rewrite bind_emit. unfold trace at 1. cbn [fst].
    apply Forall_cons. split; [done|].
    rewrite trace_bind_cases, trace_epoch_size_reached.
    destruct (outcome (epoch_size_reached _ i len)) as [[|]|e]; simpl;
      [apply Forall_nil_2|apply IH|apply Forall_nil_2].
Qed.

Lemma evaluate_trace (args : Args) (data_loader : list Z) (dataset_size : Z)
    (count : Z) (seen : list Z) :
  outcome (evaluate_batches args (Z.of_nat (length data_loader)) 0 data_loader 0 [])
  = Ok (count, seen) →
  trace (evaluate w args data_loader dataset_size)
  = trace (evaluate_batches args (Z.of_nat (length data_loader)) 0 data_loader 0 [])
    ++ ReduceAcrossProcesses count
    :: (if negb (dataset_size =? reduce_across_processes w count)
           && (negb (int_truthy (distributed args)) || (get_rank w =? 0))
        then [Warn] else [])
    ++ [SynchronizeBetweenProcesses].
Proof.
  intros Hloop. unfold evaluate.
  rewrite (bind_ok _ _ _ (count, seen) (eq_trans (run_eta _) (f_equal _ Hloop))).
  cbn beta iota. rewrite bind_emit.
  match goal with |- context [bind (when ?c Warn) ?f] =>
    rewrite (bind_ok (when c Warn) f (if c then [Warn] else []) tt)
      by (by destruct c) end.
  rewrite bind_emit. reflexivity.
Qed.

Lemma evaluate_calls (args : Args) (data_loader : list Z) (dataset_size : Z)
    (count : Z) (seen : list Z) :
  outcome (evaluate_batches args (Z.of_nat (length data_loader)) 0 data_loader 0 [])
  = Ok (count, seen) →
  (∀ n, ReduceAcrossProcesses n ∈ trace (evaluate w args data_loader dataset_size)
        ↔ n = count)
  ∧ (Warn ∈ trace (evaluate w args data_loader dataset_size)
     ↔ dataset_size ≠ reduce_across_processes w count
       ∧ (distributed args = 0 ∨ get_rank w = 0))
  ∧ last (trace (evaluate w args data_loader dataset_size))
    = Some SynchronizeBetweenProcesses.
Proof.
  intros Hloop. rewrite (evaluate_trace _ _ _ _ _ Hloop).
  pose proof (evaluate_batches_metric_only args (Z.of_nat (length data_loader))
                data_loader 0 0 []) as Hmetric.
  rewrite Forall_forall in Hmetric.
  assert (Hcond : negb (dataset_size =? reduce_across_processes w count)
                  && (negb (int_truthy (distributed args)) || (get_rank w =? 0)) = true
                  ↔ dataset_size ≠ reduce_across_processes w count
                    ∧ (distributed args = 0 ∨ get_rank w = 0)).
  { unfold int_truthy.
    rewrite andb_true_iff, orb_true_iff, !negb_true_iff, negb_false_iff,
      Z.eqb_neq, !Z.eqb_eq. done. }
  split; [|split].
  - intros n. rewrite elem_of_app, elem_of_cons, elem_of_app, list_elem_of_singleton.
    split.
    + intros [Hin|[Heq|[Hin|Heq]]]; [by apply Hmetric in Hin|by injection Heq| |done].
      destruct (_ && _); [|by apply elem_of_nil in Hin].
      by apply list_elem_of_singleton in Hin.
    + intros ->. right. by left.
  - rewrite elem_of_app, elem_of_cons, elem_of_app, list_elem_of_singleton, <- Hcond.
    split.
    + intros [Hin|[Heq|[Hin|Heq]]]; [by apply Hmetric in Hin|done| |done].
      destruct (_ && _); [done|by apply elem_of_nil in Hin].
    + intros ->. right. right. left. constructor.
  - rewrite app_comm_cons, app_assoc. apply last_snoc.
Qed.

Lemma sum_take_lt (l : list Z) (k : nat) :
  Forall (λ n, 0 < n) l → (k < length l)%nat →
  foldr Z.add 0 (take k l) < foldr Z.add 0 l.
Proof.
  revert k. induction l as [|n l IH]; intros k Hpos Hk; [simpl in Hk; lia|].
  apply Forall_cons in Hpos as [Hn Hpos].
  assert (Hnn : 0 ≤ foldr Z.add 0 l).
  { clear -Hpos. induction Hpos; simpl; lia. }
  destruct k as [|k]; simpl; [lia|].
  simpl in Hk. specialize (IH k Hpos ltac:(lia)). lia.
Qed.

(** X13.  [evaluate] reduces across the processes the number of samples
    of the batches it went through, once, and ends with the
    synchronization of the meters; it warns exactly when the size of the
    dataset differs from the reduced count and the process is not
    distributed or has rank 0.  So a single process whose loader covers
    the dataset does not warn on a full pass, and does warn whenever
    [val_epoch_size_factor] makes it stop before the last batch. *)
Theorem evaluate_counts_and_warns (args : Args) (data_loader : list Z) (dataset_size : Z) :
  (float_truthy (val_epoch_size_factor args) = false →
   (∀ n, ReduceAcrossProcesses n ∈ trace (evaluate w args data_loader dataset_size)
         ↔ n = foldr Z.add 0 data_loader)
   ∧ (Warn ∈ trace (evaluate w args data_loader dataset_size)
      ↔ dataset_size ≠ reduce_across_processes w (foldr Z.add 0 data_loader)
        ∧ (distributed args = 0 ∨ get_rank w = 0))
   ∧ last (trace (evaluate w args data_loader dataset_size))
     = Some SynchronizeBetweenProcesses)
  ∧ (∀ t : Z,
       float_truthy (val_epoch_size_factor args) = true →
       py_round (PrimFloat.mul (val_epoch_size_factor args)
                   (float_of_Z (Z.of_nat (length data_loader)))) = Ok t →
       (∀ n, ReduceAcrossProcesses n ∈ trace (evaluate w args data_loader dataset_size)
             ↔ n = foldr Z.add 0
                     (take (Z.to_nat (Z.min (Z.of_nat (length data_loader)) (Z.max t 0 + 1)))
                        data_loader))
       ∧ (Warn ∈ trace (evaluate w args data_loader dataset_size)
          ↔ dataset_size
            ≠ reduce_across_processes w
                (foldr Z.add 0
                   (take (Z.to_nat (Z.min (Z.of_nat (length data_loader)) (Z.max t 0 + 1)))
                      data_loader))
            ∧ (distributed args = 0 ∨ get_rank w = 0))
       ∧ (Forall (λ n, 0 < n) data_loader →
          Z.max t 0 + 1 < Z.of_nat (length data_loader) →
          (∀ n, reduce_across_processes w n = n) →
          distributed args = 0 →
          dataset_size = foldr Z.add 0 data_loader →
          Warn ∈ trace (evaluate w args data_loader dataset_size))).
Proof.
  split.
  - intros Hoff.
    destruct (evaluate_batches_run args (Z.of_nat (length data_loader)) None
                (λ i, epoch_size_reached_off _ i _ Hoff) data_loader 0 0 [])
      as [Hok _].
    unfold batches_done in Hok. rewrite Nat2Z.id, firstn_all in Hok. simpl in Hok.
    apply (evaluate_calls _ _ dataset_size _ _ Hok).
  - intros t Hon Hround.
    destruct (evaluate_batches_run args (Z.of_nat (length data_loader)) (Some t)
                (λ i, epoch_size_reached_on _ i _ t Hon Hround) data_loader 0 0 [])
      as [Hok _].
    unfold batches_done in Hok. rewrite Z.sub_0_r in Hok. simpl in Hok.
    destruct (evaluate_calls _ _ dataset_size _ _ Hok) as (Hreduce & Hwarn & _).
    split; [exact Hreduce|]. split; [exact Hwarn|].
    intros Hpos Hshort Hid Hdist Hsize. apply Hwarn. split; [|by left].
    rewrite Hid, Hsize.
    pose proof (sum_take_lt data_loader
                  (Z.to_nat (Z.min (Z.of_nat (length data_loader)) (Z.max t 0 + 1)))
                  Hpos ltac:(lia)).
    lia.
Qed.

End BatchLoops.

(** * Further properties of [main] *)

Section MainRuns.
Import Train.
Context (w : World).

(** *** Projections of a list of calls *)





(** *** The loop, whatever the output directory *)










(** *** Resuming *)






(** *** The best record in a run that starts at any epoch *)




(** *** Pretrained weights *)

Lemma main_model_run (a : Args) :
  pruning a ≠ PRUNING_LEGACY w →
  main_model w a
  = (GetModel (model a) (weights_enum a)
       :: (if model_surgery a =? SURGERY_LEGACY w then [ConvertToLiteModel]
           else if model_surgery a =? SURGERY_FX w then [ConvertToLiteFx] else [])
       ++ (if opt_str_truthy (weights_url a) && negb (test_only a)
           then [LoadWeights (default "" (weights_url a))] else [])
       ++ (if pruning a =? PRUNING_FX w then [PrunerModule] else [])
       ++ (if quantization a =? QUANTIZATION_LEGACY w then [QuantTrainModule]
           else if quantization a =? QUANTIZATION_FX w then [QATFxModule] else [])
       ++ (if opt_str_truthy (weights_url a) && test_only a
           then [LoadWeights (default "" (weights_url a))] else [])
       ++ ModelToDevice
       :: (if int_truthy (distributed a) && sync_bn a then [ConvertSyncBatchnorm] else [])
       ++ (if int_truthy (compile_model a) then [TorchCompile] else [])
       ++ [CrossEntropyLoss],
     Ok tt).
Proof.
  intros Hprune. apply Z.eqb_neq in Hprune. unfold main_model. rewrite Hprune.
  destruct (model_surgery a =? SURGERY_LEGACY w), (model_surgery a =? SURGERY_FX w),
    (opt_str_truthy (weights_url a)), (test_only a), (pruning a =? PRUNING_FX w),
    (quantization a =? QUANTIZATION_LEGACY w), (quantization a =? QUANTIZATION_FX w),
    (int_truthy (distributed a) && sync_bn a), (int_truthy (compile_model a));
    reflexivity.
Qed.

(** X19.  When the weights specifier names a URL or a file, the model
    set-up loads these weights exactly once: for training before the model
    is wrapped for pruning or quantization, in test-only mode after it.
    Without such a specifier no weights are loaded.  Legacy pruning stops
    the set-up with an AssertionError, for training after the weights were
    loaded. *)
Theorem main_model_loads_weights_once (a : Args) :
  (pruning a ≠ PRUNING_LEGACY w →
   outcome (main_model w a) = Ok tt
   ∧ (∀ u, weights_url a = Some u → u ≠ "" →
        weights_loaded (trace (main_model w a)) = [u]
        ∧ ∃ t1 t2,
            trace (main_model w a) = t1 ++ LoadWeights u :: t2
            ∧ Forall (λ ev, is_wrapper ev = false) (if test_only a then t2 else t1))
   ∧ (opt_str_truthy (weights_url a) = false →
      weights_loaded (trace (main_model w a)) = []))
  ∧ (pruning a = PRUNING_LEGACY w →
     (∃ msg, outcome (main_model w a) = Raise (AssertionError msg))
     ∧ weights_loaded (trace (main_model w a))
       = (if opt_str_truthy (weights_url a) && negb (test_only a)
          then [default "" (weights_url a)] else [])).
Proof.
  split.
  - intros Hprune. rewrite (main_model_run a Hprune). unfold trace, outcome. cbn [fst snd].
    split; [done|]. split.
    + intros u Hu Hne.
      assert (Htruthy : opt_str_truthy (weights_url a) = true).
      { rewrite Hu. simpl. unfold str_truthy. apply negb_true_iff.
        by apply String.eqb_neq. }
      rewrite Htruthy, Hu. simpl default.
      destruct (test_only a) eqn:Htest.
      * split.
        { destruct (model_surgery a =? SURGERY_LEGACY w),
            (model_surgery a =? SURGERY_FX w), (pruning a =? PRUNING_FX w),
            (quantization a =? QUANTIZATION_LEGACY w),
            (quantization a =? QUANTIZATION_FX w),
            (int_truthy (distributed a) && sync_bn a), (int_truthy (compile_model a));
            reflexivity. }
        exists (GetModel (model a) (weights_enum a)
                  :: (if model_surgery a =? SURGERY_LEGACY w then [ConvertToLiteModel]
                      else if model_surgery a =? SURGERY_FX w then [ConvertToLiteFx] else [])
                  ++ (if pruning a =? PRUNING_FX w then [PrunerModule] else [])
                  ++ (if quantization a =? QUANTIZATION_LEGACY w then [QuantTrainModule]
                      else if quantization a =? QUANTIZATION_FX w then [QATFxModule]
                      else [])),
          (ModelToDevice
             :: (if int_truthy (distributed a) && sync_bn a then [ConvertSyncBatchnorm]
                 else [])
             ++ (if int_truthy (compile_model a) then [TorchCompile] else [])
             ++ [CrossEntropyLoss]).
        split.
        { destruct (model_surgery a =? SURGERY_LEGACY w),
            (model_surgery a =? SURGERY_FX w), (pruning a =? PRUNING_FX w),
            (quantization a =? QUANTIZATION_LEGACY w),
            (quantization a =? QUANTIZATION_FX w); reflexivity. }
        destruct (int_truthy (distributed a) && sync_bn a), (int_truthy (compile_model a));
          repeat constructor.
      * split.
        { destruct (model_surgery a =? SURGERY_LEGACY w),
            (model_surgery a =? SURGERY_FX w), (pruning a =? PRUNING_FX w),
            (quantization a =? QUANTIZATION_LEGACY w),
            (quantization a =? QUANTIZATION_FX w),
            (int_truthy (distributed a) && sync_bn a), (int_truthy (compile_model a));
            reflexivity. }
        exists (GetModel (model a) (weights_enum a)
                  :: (if model_surgery a =? SURGERY_LEGACY w then [ConvertToLiteModel]
                      else if model_surgery a =? SURGERY_FX w then [ConvertToLiteFx]
                      else [])),
          ((if pruning a =? PRUNING_FX w then [PrunerModule] else [])
           ++ (if quantization a =? QUANTIZATION_LEGACY w then [QuantTrainModule]
               else if quantization a =? QUANTIZATION_FX w then [QATFxModule] else [])
           ++ ModelToDevice
           :: (if int_truthy (distributed a) && sync_bn a then [ConvertSyncBatchnorm]
               else [])
           ++ (if int_truthy (compile_model a) then [TorchCompile] else [])
           ++ [CrossEntropyLoss]).
        split; [reflexivity|].
        destruct (model_surgery a =? SURGERY_LEGACY w),
          (model_surgery a =? SURGERY_FX w); repeat constructor.
    + intros Hfalsy. rewrite Hfalsy. cbn [andb].
      destruct (model_surgery a =? SURGERY_LEGACY w),
        (model_surgery a =? SURGERY_FX w), (pruning a =? PRUNING_FX w),
        (quantization a =? QUANTIZATION_LEGACY w),
        (quantization a =? QUANTIZATION_FX w),
        (int_truthy (distributed a) && sync_bn a), (int_truthy (compile_model a));
        reflexivity.
  - intros Hprune. apply Z.eqb_eq in Hprune. split.
    + eexists. rewrite main_model_outcome, Hprune. reflexivity.
    + unfold main_model. rewrite Hprune.
      destruct (model_surgery a =? SURGERY_LEGACY w), (model_surgery a =? SURGERY_FX w),
        (opt_str_truthy (weights_url a)), (test_only a); reflexivity.
Qed.

(** *** The weight of the EMA update *)



(** *** The learning-rate schedule *)

Lemma main_scheduler_outcome (a : Args) :
  outcome (main_scheduler a)
  = if String.eqb (py_lower (lr_scheduler a)) "steplr"
       || String.eqb (py_lower (lr_scheduler a)) "cosineannealinglr"
       || String.eqb (py_lower (lr_scheduler a)) "exponentiallr"
    then
      if (0 <? lr_warmup_epochs a)
         && negb (String.eqb (lr_warmup_method a) "linear"
                  || String.eqb (lr_warmup_method a) "constant")
      then Raise (RuntimeError
             ("Invalid warmup lr method '" +:+ lr_warmup_method a
              +:+ "'. Only linear and constant are supported."))
      else Ok (set_lr_scheduler a (py_lower (lr_scheduler a)))
    else Raise (RuntimeError
           ("Invalid lr scheduler '" +:+ py_lower (lr_scheduler a)
            +:+ "'. Only StepLR, CosineAnnealingLR and ExponentialLR are supported.")).
Proof.
  unfold main_scheduler.
  cbn [lr_scheduler lr_warmup_epochs lr_warmup_method set_lr_scheduler].
  destruct (amp a), (String.eqb (py_lower (lr_scheduler a)) "steplr"),
    (String.eqb (py_lower (lr_scheduler a)) "cosineannealinglr"),
    (String.eqb (py_lower (lr_scheduler a)) "exponentiallr"),
    (0 <? lr_warmup_epochs a), (String.eqb (lr_warmup_method a) "linear"),
    (String.eqb (lr_warmup_method a) "constant"); reflexivity.
Qed.

Lemma main_wrap_outcome (a : Args) : outcome (main_wrap a) = Ok tt.
Proof. unfold main_wrap. by destruct (int_truthy (distributed a)), (int_truthy (parallel a)). Qed.

Lemma main_optimizer_built (a : Args) :
  outcome (main_optimizer a) = Ok tt → ∃ o, trace (main_optimizer a) = [Optimizer o].
Proof.
  unfold main_optimizer.
  destruct (startswith _ "sgd"); [by eexists|].
  destruct (String.eqb _ "rmsprop"); [by eexists|].
  destruct (String.eqb _ "adamw"); [by eexists|done].
Qed.

Lemma main_setup_to_scheduler (args : Args) (t0 : list event) (a : Args) :
  main_startup w args = (t0, Ok a) →
  pruning a ≠ PRUNING_LEGACY w →
  outcome (main_optimizer a) = Ok tt →
  outcome (main_setup w args) = outcome (main_scheduler a)
  ∧ ∃ o, Optimizer o ∈ trace (main_setup w args).
Proof.
  intros Hst Hprune Hopt.
  assert (Hmodel : outcome (main_model w a) = Ok tt).
  { rewrite main_model_outcome. apply Z.eqb_neq in Hprune. by rewrite Hprune. }
  unfold main_setup. rewrite (bind_ok _ _ t0 a Hst). split.
  - unfold outcome at 1. cbn [snd].
    rewrite (outcome_bind _ _ tt) by apply main_data_outcome.
    rewrite (outcome_bind _ _ tt Hmodel).
    rewrite (outcome_bind _ _ tt) by reflexivity.
    rewrite (outcome_bind _ _ tt Hopt).
    rewrite outcome_bind_cases.
    destruct (outcome (main_scheduler a)) as [a'|e]; [|done].
    by rewrite (outcome_bind _ _ tt) by apply main_wrap_outcome.
  - destruct (main_optimizer_built a Hopt) as [o Ho]. exists o.
    unfold trace at 1. cbn [fst].
    rewrite (trace_bind _ _ tt) by apply main_data_outcome.
    rewrite (trace_bind _ _ tt Hmodel).
    rewrite (trace_bind _ _ tt) by reflexivity.
    rewrite (trace_bind _ _ tt Hopt), Ho.
    rewrite !elem_of_app. right. right. right. right. left. constructor.
Qed.

(** X21.  The name of the learning-rate schedule is read in lower case
    and must be one of "steplr", "cosineannealinglr" and "exponentiallr";
    the warm-up method is read as given, and only when [lr_warmup_epochs] is
    positive, and must then be "linear" or "constant".  A run that fails
    either test ends with a RuntimeError after the datasets, the model and
    the optimizer were built and before anything is trained; a run that
    passes them goes on with the schedule name stored in lower case. *)
Theorem main_lr_scheduler_errors (args : Args) (t0 : list event) (a : Args) :
  main_startup w args = (t0, Ok a) →
  pruning a ≠ PRUNING_LEGACY w →
  outcome (main_optimizer a) = Ok tt →
  (py_lower (lr_scheduler a) ≠ "steplr" →
   py_lower (lr_scheduler a) ≠ "cosineannealinglr" →
   py_lower (lr_scheduler a) ≠ "exponentiallr" →
   outcome (main w args)
   = Raise (RuntimeError
       ("Invalid lr scheduler '" +:+ py_lower (lr_scheduler a)
        +:+ "'. Only StepLR, CosineAnnealingLR and ExponentialLR are supported."))
   ∧ (∃ o, Optimizer o ∈ trace (main w args))
   ∧ Forall (λ ev, is_training ev = false) (trace (main w args)))
  ∧ (py_lower (lr_scheduler a) = "steplr"
     ∨ py_lower (lr_scheduler a) = "cosineannealinglr"
     ∨ py_lower (lr_scheduler a) = "exponentiallr" →
     (0 < lr_warmup_epochs a →
      lr_warmup_method a ≠ "linear" → lr_warmup_method a ≠ "constant" →
      outcome (main w args)
      = Raise (RuntimeError
          ("Invalid warmup lr method '" +:+ lr_warmup_method a
           +:+ "'. Only linear and constant are supported."))
      ∧ Forall (λ ev, is_training ev = false) (trace (main w args)))
     ∧ (lr_warmup_epochs a ≤ 0
        ∨ lr_warmup_method a = "linear" ∨ lr_warmup_method a = "constant" →
        outcome (main_setup w args)
        = Ok (set_lr_scheduler a (py_lower (lr_scheduler a))))).
Proof.
  intros Hst Hprune Hopt.
  destruct (main_setup_to_scheduler args t0 a Hst Hprune Hopt) as [Hout [o Ho]].
  rewrite main_scheduler_outcome in Hout.
  assert (Hfail : ∀ e, outcome (main_setup w args) = Raise e →
    outcome (main w args) = Raise e
    ∧ (∃ o, Optimizer o ∈ trace (main w args))
    ∧ Forall (λ ev, is_training ev = false) (trace (main w args))).
  { intros e He.
    rewrite (main_of_setup_raised w args (trace (main_setup w args)) e)
      by (rewrite <- He; apply run_eta).
    split; [done|]. split; [by exists o|]. apply main_setup_no_training. }
  split.
  - intros H1 H2 H3. apply Hfail. rewrite Hout.
    apply String.eqb_neq in H1, H2, H3. by rewrite H1, H2, H3.
  - intros Hname.
    assert (Hvalid : String.eqb (py_lower (lr_scheduler a)) "steplr"
                     || String.eqb (py_lower (lr_scheduler a)) "cosineannealinglr"
                     || String.eqb (py_lower (lr_scheduler a)) "exponentiallr" = true).
    { rewrite !orb_true_iff, !String.eqb_eq. tauto. }
    rewrite Hvalid in Hout. split.
    + intros Hwarm H1 H2.
      destruct (Hfail (RuntimeError ("Invalid warmup lr method '" +:+ lr_warmup_method a
                         +:+ "'. Only linear and constant are supported.")))
        as (Hraise & _ & Hno); [|done].
      rewrite Hout. apply Z.ltb_lt in Hwarm. apply String.eqb_neq in H1, H2.
      by rewrite Hwarm, H1, H2.
    + intros Hok. rewrite Hout.
      destruct Hok as [Hwarm | [Hm | Hm] ].
      * apply Z.ltb_ge in Hwarm. by rewrite Hwarm.
      * apply String.eqb_eq in Hm. rewrite Hm. simpl. by rewrite andb_false_r.
      * apply String.eqb_eq in Hm. rewrite Hm, orb_true_r. simpl. by rewrite andb_false_r.
Qed.

(** *** What [split_weights] returns *)

Lemma py_split_nonempty (sep : ascii) (s : string) : py_split sep s ≠ [].
Proof.
  destruct s as [|c s]; simpl; [done|].
  destruct (Ascii.eqb c sep); [done|]. by destruct (py_split sep s).
Qed.

Lemma lstrip_idemp (s : string) : lstrip (lstrip s) = lstrip s.
Proof.
  induction s as [|c s IH]; [done|]. simpl.
  destruct (py_isspace c) eqn:Hc; [exact IH|]. simpl. by rewrite Hc.
Qed.

Lemma head_filter_Some {A} (P : A → Prop) `{∀ x, Decision (P x)} (l : list A) (x : A) :
  head (filter P l) = Some x → P x ∧ x ∈ l.
Proof.
  intros Hhead. apply head_Some in Hhead as [l' Hl'].
  assert (Hin : x ∈ filter P l) by (rewrite Hl'; constructor).
  by apply list_elem_of_filter in Hin.
Qed.

Lemma head_filter_None {A} (P : A → Prop) `{∀ x, Decision (P x)} (l : list A) :
  head (filter P l) = None ↔ Forall (λ x, ¬ P x) l.
Proof.
  rewrite head_None. induction l as [|x l IH].
  - split; [constructor|done].
  - rewrite filter_cons, Forall_cons. case_decide; [|tauto].
    split; [done|]. by intros [? _].
Qed.

(** X22.  [split_weights] always returns at least one of the two parts:
    a specifier without any URL or path still gives an enum part, the empty
    string for the empty specifier.  The URL part, when there is one, is
    recognised by [is_url_or_file] and the enum part is not; neither starts
    with white space; and a part is [None] exactly when no token of the
    specifier is of its kind. *)
Theorem split_weights_parts (s : string) :
  ∃ url enum,
    split_weights w (Some s) = Ok (url, enum)
    ∧ (is_Some url ∨ is_Some enum)
    ∧ (∀ u, url = Some u → is_url_or_file w u = true ∧ lstrip u = u)
    ∧ (∀ e, enum = Some e → is_url_or_file w e = false ∧ lstrip e = e)
    ∧ (url = None
       ↔ Forall (λ tok, is_url_or_file w (lstrip tok) = false) (py_split ","%char s))
    ∧ (enum = None
       ↔ Forall (λ tok, is_url_or_file w (lstrip tok) = true) (py_split ","%char s)).
Proof.
  eexists _, _. split; [apply split_weights_spec|].
  assert (Hstripped : ∀ x, x ∈ lstrip <$> py_split ","%char s → lstrip x = x).
  { intros x Hx. apply list_elem_of_fmap in Hx as (tok & -> & _). apply lstrip_idemp. }
  split; [|split; [|split; [|split]]].
  - pose proof (py_split_nonempty ","%char s) as Hne.
    destruct (py_split ","%char s) as [|tok toks]; [done|].
    rewrite fmap_cons, !filter_cons.
    destruct (is_url_or_file w (lstrip tok)) eqn:Hurl; [left|right];
      repeat case_decide; try done; by eexists.
  - intros u Hu. apply head_filter_Some in Hu as [Hurl Hin]. split; [done|by apply Hstripped].
  - intros e He. apply head_filter_Some in He as [Hurl Hin]. split; [done|by apply Hstripped].
  - rewrite head_filter_None, Forall_fmap. apply Forall_iff. intros tok. simpl.
    by destruct (is_url_or_file w (lstrip tok)).
  - rewrite head_filter_None, Forall_fmap. apply Forall_iff. intros tok. simpl.
    by destruct (is_url_or_file w (lstrip tok)).
Qed.

End MainRuns.

(** ** The further properties on the example runs *)

(** Seventy batches with an update every 32: the EMA model is updated at
    batches 0, 32 and 64. *)
Lemma train_one_epoch_ema_schedule_witness :
  ema_updates (Train.trace (Train.train_one_epoch Examples.a_ema true false 5
                              Runs.seventy_batches))
  = [0; 32; 64].
Proof.
  destruct (train_one_epoch_ema_schedule Examples.a_ema true false 5 Runs.seventy_batches)
    as (Hup & _ & _).
  rewrite Hup. vm_compute. reflexivity.
Defined.

Lemma train_one_epoch_zero_ema_steps_witness :
  ∃ msg,
    Train.train_one_epoch Runs.args_steps0 true false 0 [32; 32]
    = ([Train.OptimizerStep 0 0 false false], Raise (ZeroDivisionError msg)).
Proof.
  destruct (train_one_epoch_zero_ema_steps Runs.args_steps0 false 0 32 [32] eq_refl)
    as [[msg Hrun] _].
  exists msg. exact Hrun.
Defined.

Lemma epoch_size_factor_nan_witness :
  ∃ msg,
    Train.outcome (Train.train_one_epoch Runs.args_nan false false 0 [32; 32])
    = Raise (ValueError msg)
    ∧ Train.processed (Train.trace (Train.train_one_epoch Runs.args_nan false false 0
                                      [32; 32])) = [0].
Proof.
  destruct (proj1 (epoch_size_factor_nan Examples.world_example)
              Runs.args_nan false false 0 32 [32] eq_refl) as (msg & Hout & Hpr & _).
  - discriminate.
  - exists msg. split; [exact Hout|exact Hpr].
Defined.

(** Half of ten batches of 32 samples, in one process, on a dataset of 320
    samples: the evaluation stops after six batches and warns. *)
Lemma evaluate_counts_and_warns_witness :
  Train.Warn ∈ Train.trace (Train.evaluate Examples.world_example Examples.args_half
                              Examples.ten_batches 320).
Proof.
  destruct (proj2 (evaluate_counts_and_warns Examples.world_example Examples.args_half
                     Examples.ten_batches 320) 5) as (_ & _ & Hwarn).
  - reflexivity.
  - vm_compute. reflexivity.
  - apply Hwarn.
    + repeat constructor.
    + vm_compute. reflexivity.
    + reflexivity.
    + reflexivity.
    + reflexivity.
Defined.






(** The run with an EMA model of the examples gives a path and an enum:
    the weights at the path are loaded once. *)
Lemma main_model_loads_weights_once_witness :
  weights_loaded (Train.trace (Train.main_model Examples.world_example Examples.a_ema))
  = ["a/b.pth"].
Proof.
  destruct (proj1 (main_model_loads_weights_once Examples.world_example Examples.a_ema))
    as (_ & Hload & _).
  - discriminate.
  - destruct (Hload "a/b.pth" eq_refl) as [Hloaded _]; [discriminate|exact Hloaded].
Defined.


Lemma main_lr_scheduler_errors_witness :
  Train.outcome (Train.main Examples.world_example Runs.args_plateau)
  = Raise (RuntimeError
      "Invalid lr scheduler 'reducelronplateau'. Only StepLR, CosineAnnealingLR and ExponentialLR are supported.").
Proof.
  destruct (main_lr_scheduler_errors Examples.world_example Runs.args_plateau
              Runs.t0_plateau Runs.a_plateau) as [Hbad _].
  - vm_compute. reflexivity.
  - discriminate.
  - reflexivity.
  - destruct Hbad as (Hout & _); [discriminate|discriminate|discriminate|].
    exact Hout.
Defined.

Lemma split_weights_parts_witness :
  ∃ url enum,
    Train.split_weights Examples.world_example (Some "") = Ok (url, enum)
    ∧ (is_Some url ∨ is_Some enum).
Proof.
  destruct (split_weights_parts Examples.world_example "") as (url & enum & Hsplit & Hsome & _).
  exists url, enum. split; [exact Hsplit|exact Hsome].
Defined.

Section DatasetFilesProperties.
Import DatasetUtils DatasetFiles.
Context {Segmentation : Type}.
Context (listdir : string → option (list string)).
Context (load_COCO : string → option (@COCO Segmentation)).
Context (random_shuffle : Z → list Z → list Z).

Lemma substring_at_length (s : string) (c : ascii) :
  String.substring (String.length s) 1 (s +:+ String c "") = String c "".
Proof. induction s as [|c0 s IH]; [done|exact IH]. Qed.

Lemma ends_with_slash_app (s : string) :
  String.substring (String.length (s +:+ "/") - 1) 1 (s +:+ "/") = "/".
Proof.
  rewrite string_app_length. simpl String.length.
  replace (String.length s + 1 - 1)%nat with (String.length s) by lia.
  apply substring_at_length.
Qed.

Lemma string_app_nil_r (s : string) : s +:+ "" = s.
Proof.
  induction s as [|c s IH]; [done|].
  change (String c (s +:+ "") = String c s). by rewrite IH.
Qed.

Lemma os_path_join_empty_name (root split : string) :
  os_path_join (os_path_join root "") split = os_path_join root split.
Proof.
  unfold os_path_join at 2. destruct root as [|c root]; [done|].
  case_bool_decide as Hslash.
  - by rewrite string_app_nil_r.
  - rewrite string_app_nil_r. unfold os_path_join.
    destruct split as [|c' split'].
    + change (String c root +:+ "/") with (String c (root +:+ "/")).
      rewrite bool_decide_eq_true_2
        by (change (String c (root +:+ "/")) with (String c root +:+ "/");
            apply ends_with_slash_app).
      rewrite bool_decide_eq_false_2 by done.
      by rewrite !string_app_nil_r.
    + destruct (Ascii.eqb_spec c' "/"%char) as [->|Hc]; [done|].
      assert (Hmatch : ∀ (X : Type) (u v : X),
                 match String c' split' with String "/"%char _ => u | _ => v end = v).
      { intros X u v. destruct c' as [[] [] [] [] [] [] [] []]; try done. }
      rewrite !Hmatch.
      change (String c root +:+ "/") with (String c (root +:+ "/")).
      rewrite bool_decide_eq_true_2
        by (change (String c (root +:+ "/")) with (String c root +:+ "/");
            apply ends_with_slash_app).
      rewrite bool_decide_eq_false_2 by done.
      change (String c (root +:+ "/")) with (String c root +:+ "/").
      by rewrite string_app_assoc.
Qed.

(** X23.  The constructor from the file system on.  It succeeds exactly
    when the root can be listed and holds an [annotations] entry, the image
    base directory can be listed (although the listing is not used), and
    the annotation file [root/annotations/instances_<split>.json] can be
    read.  The images are then looked for under [root/images/<split>] when
    the root holds an [images] entry and under [root/<split>] otherwise,
    and the dataset is the one [__init__] builds from that index. *)
Theorem COCOSegmentation_new_succeeds (root split : string) (shuffle : Z)
    (num_imgs num_classes : option Z) :
  shuffle_permutes random_shuffle →
  (is_Some (COCOSegmentation_new listdir load_COCO random_shuffle root split shuffle
              num_imgs num_classes)
   ↔ ∃ dataset_folders,
       listdir root = Some dataset_folders
       ∧ "annotations" ∈ dataset_folders
       ∧ is_Some (listdir (image_base_dir root dataset_folders))
       ∧ is_Some (load_COCO (os_path_join (os_path_join root "annotations")
                               ("instances_" +:+ split +:+ ".json"))))
  ∧ (∀ dataset_folders, listdir root = Some dataset_folders →
       image_dir root split dataset_folders
       = if bool_decide ("images" ∈ dataset_folders)
         then os_path_join (os_path_join root "images") split
         else os_path_join root split)
  ∧ (∀ ds, COCOSegmentation_new listdir load_COCO random_shuffle root split shuffle
             num_imgs num_classes = Some ds →
       ∃ dataset_folders c,
         listdir root = Some dataset_folders
         ∧ load_COCO (annotation_file root split) = Some c
         ∧ coco_dataset ds = c
         ∧ Forall2 (λ img_id path,
               os_path_join (image_dir root split dataset_folders)
                 <$> loadImg_file_name c img_id = Some path)
             (img_ids ds) (imgs ds)).
Proof.
  intros Hperm. split; [|split].
  - unfold COCOSegmentation_new. split.
    + intros Hsome. destruct (listdir root) as [folders|]; [|by destruct Hsome].
      cbn [mbind option_bind] in Hsome. exists folders. split; [done|].
      case_bool_decide as Hann; [|by destruct Hsome]. cbn [negb] in Hsome.
      split; [done|].
      destruct (listdir (image_base_dir root folders)); [|by destruct Hsome].
      cbn [mbind option_bind] in Hsome. split; [done|].
      unfold annotation_file, annotations_dir in Hsome.
      destruct (load_COCO _); [done|by destruct Hsome].
    + intros (folders & -> & Hann & [dirs Hdirs] & [c Hc]). cbn [mbind option_bind].
      rewrite bool_decide_eq_true_2 by done. cbn [negb]. rewrite Hdirs.
      cbn [mbind option_bind].
      unfold annotation_file, annotations_dir. rewrite Hc. cbn [mbind option_bind].
      by apply init_total.
  - intros folders _. unfold image_dir, image_base_dir.
    case_bool_decide; [done|]. apply os_path_join_empty_name.
  - intros ds. unfold COCOSegmentation_new.
    destruct (listdir root) as [folders|]; [|done]. cbn [mbind option_bind].
    case_bool_decide as Hann; [|done]. cbn [negb].
    destruct (listdir (image_base_dir root folders)); [|done]. cbn [mbind option_bind].
    destruct (load_COCO (annotation_file root split)) as [c|] eqn:Hc; [|done].
    cbn [mbind option_bind].
    intros Hinit. exists folders, c. split; [done|]. split; [done|].
    destruct (init_inv random_shuffle _ _ _ _ _ _ _ Hinit) as (_ & Hds & _).
    split; [done|].
    unfold __init__ in Hinit. destruct (init_categories num_classes) as [cats names].
    rewrite bool_decide_eq_true_2 in Hinit by done. cbn [negb] in Hinit.
    match type of Hinit with context [mapM ?f ?l] =>
      destruct (mapM f l) as [paths|] eqn:Hpaths end; [|done].
    cbn [mbind option_bind] in Hinit. injection Hinit as <-.
    cbn [img_ids imgs]. by apply mapM_Some_1 in Hpaths.
Qed.

End DatasetFilesProperties.

(** * Properties of [load_data] *)

Section LoadDataProperties.
Import LoadData.
Context (sha1_hexdigest : string → string).
Context (expanduser normpath dirname : string → string).
Context (is_interpolation_mode : string → bool).
Context (get_weight_error : string → option exn).
Context (is_main_process : bool).

Local Abbreviation cache_path_of := (_get_cache_path sha1_hexdigest expanduser).
Local Abbreviation run_load_data :=
  (load_data sha1_hexdigest expanduser normpath dirname is_interpolation_mode
     get_weight_error is_main_process).

(** X24.  The cache of the datasets.  Without [--cache-dataset] nothing
    is read from or written to a cache and both datasets are built.  With
    it, the training dataset is read from its cache file when the file
    exists, whatever [--dataset] and the transforms are, and is otherwise
    built and then saved there.  When the validation directory is the
    training directory, on the main process, the validation dataset
    returned always comes from the cache, read last: from the file found,
    or from the file just written for the training dataset. *)
Theorem load_data_cache (traindir valdir : string) (args : Train.Args) (dargs : DataArgs)
    (fs fs' : gset string) (calls : list call)
    (res : result (torch_dataset * torch_dataset * sampler * sampler)) :
  is_interpolation_mode (interpolation dargs) = true →
  run_load_data traindir valdir args dargs fs = (calls, fs', res) →
  (cache_dataset dargs = false →
   calls = [] ∧ fs' = fs
   ∧ ∀ d dt s st, res = Ok (d, dt, s, st) → from_cache d = false ∧ from_cache dt = false)
  ∧ (cache_dataset dargs = true →
     ∀ d dt s st, res = Ok (d, dt, s, st) →
       if bool_decide (cache_path_of traindir ∈ fs)
       then d = FromCache (cache_path_of traindir)
            ∧ head calls = Some (TorchLoad (cache_path_of traindir))
       else from_cache d = false
            ∧ take 2 calls = [Mkdir (dirname (cache_path_of traindir));
                              SaveOnMaster d traindir (cache_path_of traindir)])
  ∧ (cache_dataset dargs = true → is_main_process = true → valdir = traindir →
     ∀ d dt s st, res = Ok (d, dt, s, st) →
       dt = FromCache (cache_path_of traindir)
       ∧ last calls = Some (TorchLoad (cache_path_of traindir))).
Proof.
  intros Hinterp Hrun. unfold load_data in Hrun. rewrite Hinterp in Hrun. cbn [negb] in Hrun.
  split; [|split].
  - intros Hcache. rewrite Hcache in Hrun. unfold save_cache in Hrun.
    rewrite Hcache in Hrun. cbn [andb] in Hrun.
    destruct (Train.opt_str_truthy (Train.weights_enum args) && Train.test_only args);
      [destruct (get_weight_error _)|]; injection Hrun as <- <- <-;
      (split; [done|]); (split; [done|]); intros d dt s st [=]; subst;
      unfold make_dataset; by destruct (String.eqb (dataset dargs) "modelmaker").
  - intros Hcache d dt s st ->. rewrite Hcache in Hrun. unfold save_cache in Hrun.
    rewrite Hcache in Hrun. cbn [andb] in Hrun.
    case_bool_decide as Hin; cbn beta iota zeta in Hrun.
    + destruct (bool_decide (cache_path_of valdir ∈ fs)).
      * by injection Hrun as <- _ <- _ _ _.
      * destruct (Train.opt_str_truthy (Train.weights_enum args) && Train.test_only args);
          [destruct (get_weight_error _); [done|]|];
          by injection Hrun as <- _ <- _ _ _.
    + match type of Hrun with context [bool_decide ?P] => destruct (bool_decide P) end.
      * injection Hrun as <- _ <- _ _ _. split; [|done].
        unfold make_dataset. by destruct (String.eqb (dataset dargs) "modelmaker").
      * destruct (Train.opt_str_truthy (Train.weights_enum args) && Train.test_only args);
          [destruct (get_weight_error _); [done|]|];
          injection Hrun as <- _ <- _ _ _; (split; [|done]);
          unfold make_dataset; by destruct (String.eqb (dataset dargs) "modelmaker").
  - intros Hcache Hmain -> d dt s st ->. rewrite Hcache in Hrun. unfold save_cache in Hrun.
    rewrite Hcache, Hmain in Hrun. cbn [andb] in Hrun.
    case_bool_decide as Hin; cbn beta iota zeta in Hrun;
      case_bool_decide as Hin'; try (exfalso; set_solver);
      by injection Hrun as <- _ _ <- _ _.
Qed.

(** X25.  The samplers and the validation transform.  The validation
    sampler never shuffles: sequential in one process, distributed without
    shuffling otherwise.  The repeated-augmentation sampler is used only in
    distributed mode with [ra_sampler] present and set; in one process the
    option is not looked at and the training sampler is random.  The
    validation dataset, when it is built, takes the transform of the weights
    enum only in test-only mode with an enum given, and the evaluation
    preset otherwise. *)
Theorem load_data_samplers (traindir valdir : string) (args : Train.Args) (dargs : DataArgs)
    (fs fs' : gset string) (calls : list call) (d dt : torch_dataset) (s st : sampler) :
  run_load_data traindir valdir args dargs fs = (calls, fs', Ok (d, dt, s, st)) →
  (Train.distributed args = 0 → s = RandomSampler ∧ st = SequentialSampler)
  ∧ (Train.distributed args ≠ 0 →
     st = DistributedSampler false
     ∧ s = if default false (ra_sampler dargs) then RASampler (ra_reps dargs)
           else DistributedSampler true)
  ∧ (from_cache dt = false →
     ∃ t, (dt = ImageFolder valdir t
           ∨ dt = CocoClassification valdir
                    (annotation_path normpath valdir (annotation_prefix dargs) "_val.json") t)
          ∧ t = if Train.opt_str_truthy (Train.weights_enum args) && Train.test_only args
                then WeightsTransforms (default "" (Train.weights_enum args))
                else ClassificationPresetEval (val_crop_size dargs) (val_resize_size dargs)
                       (interpolation dargs)).
Proof.
  intros Hrun. unfold load_data in Hrun.
  destruct (is_interpolation_mode (interpolation dargs)); [|done]. cbn [negb] in Hrun.
  assert (Hsamplers : s = (make_samplers args dargs).1 ∧ st = (make_samplers args dargs).2
    ∧ (from_cache dt = false →
       ∃ t, (dt = ImageFolder valdir t
             ∨ dt = CocoClassification valdir
                      (annotation_path normpath valdir (annotation_prefix dargs) "_val.json") t)
            ∧ t = if Train.opt_str_truthy (Train.weights_enum args) && Train.test_only args
                  then WeightsTransforms (default "" (Train.weights_enum args))
                  else ClassificationPresetEval (val_crop_size dargs) (val_resize_size dargs)
                         (interpolation dargs))).
  { unfold save_cache in Hrun.
    destruct (cache_dataset dargs); cbn [andb] in Hrun;
      repeat match type of Hrun with
             | context [bool_decide ?P] => destruct (bool_decide P); cbn beta iota zeta in Hrun
             end;
      destruct (Train.opt_str_truthy (Train.weights_enum args) && Train.test_only args);
      try destruct (get_weight_error _); try discriminate;
      cbn beta iota zeta in Hrun;
      injection Hrun as _ _ _ <- <- <-; (split; [done|]); (split; [done|]);
      try discriminate; intros _; eexists; (split; [|reflexivity]);
      unfold make_dataset; destruct (String.eqb (dataset dargs) "modelmaker");
      first [by right|by left]. }
  destruct Hsamplers as (-> & -> & Hdt). unfold make_samplers, Train.int_truthy.
  split; [|split; [|exact Hdt]].
  - intros ->. done.
  - intros Hd. apply Z.eqb_neq in Hd. rewrite Hd. done.
Qed.

(** *** The annotation file of a 'modelmaker' dataset *)

Lemma py_split_app_sep (sep : ascii) (s1 s2 : string) :
  py_split sep (s1 +:+ String sep s2) = py_split sep s1 ++ py_split sep s2.
Proof.
  induction s1 as [|c s1 IH].
  - change ("" +:+ String sep s2) with (String sep s2). simpl.
    by rewrite Ascii.eqb_refl.
  - change (String c s1 +:+ String sep s2) with (String c (s1 +:+ String sep s2)).
    cbn [py_split]. rewrite IH.
    destruct (Ascii.eqb c sep); [done|].
    pose proof (py_split_nonempty sep s1) as Hne.
    by destruct (py_split sep s1).
Qed.

Lemma concat_py_split (sep : ascii) (s : string) :
  String.concat (String sep "") (py_split sep s) = s.
Proof.
  induction s as [|c s IH]; [done|]. cbn [py_split].
  pose proof (py_split_nonempty sep s) as Hne.
  destruct (Ascii.eqb_spec c sep) as [->|Hc].
  - destruct (py_split sep s) as [|t ts]; [done|].
    change (String.concat (String sep "") ("" :: t :: ts))
      with (String sep (String.concat (String sep "") (t :: ts))).
    by rewrite IH.
  - destruct (py_split sep s) as [|t ts]; [done|].
    destruct ts as [|t' ts].
    + simpl in *. by rewrite IH.
    + change (String.concat (String sep "") (String c t :: t' :: ts))
        with (String c (String.concat (String sep "") (t :: t' :: ts))).
      by rewrite IH.
Qed.

Lemma py_slice_to_drop_last {A} (l : list A) (x : A) : py_slice_to (l ++ [x]) (-1) = l.
Proof.
  unfold py_slice_to. simpl. rewrite length_app. simpl.
  replace (Z.to_nat (Z.of_nat (length l + 1) + -1)) with (length l) by lia.
  by rewrite take_app_length.
Qed.

(** X26.  For a 'modelmaker' dataset the annotation file of a split lies
    in the folder [annotations] beside the image folder of the split: when
    the normalized image folder is [d/name], the file is
    [d/annotations/<prefix><suffix>]; when it is a single name, the file is
    looked for under [annotations] in the working directory. *)
Theorem annotation_path_beside_images (dir name prefix suffix : string) :
  py_split "/"%char name = [name] →
  (∀ d, normpath dir = d +:+ String "/"%char name →
     annotation_path normpath dir prefix suffix
     = os_path_join (os_path_join d "annotations") (prefix +:+ suffix))
  ∧ (normpath dir = name →
     annotation_path normpath dir prefix suffix
     = os_path_join "annotations" (prefix +:+ suffix)).
Proof.
  intros Hname. unfold annotation_path. split.
  - intros d ->. rewrite py_split_app_sep, Hname, py_slice_to_drop_last.
    by rewrite (concat_py_split "/"%char d).
  - intros ->. rewrite Hname. reflexivity.
Qed.

End LoadDataProperties.

(** ** The properties of the loader and of the constructor on examples *)

Lemma COCOSegmentation_new_succeeds_witness :
  is_Some (DatasetFiles.COCOSegmentation_new DataExamples.listdir_example
             DataExamples.load_COCO_example Examples.reverse_shuffle "coco" "val" 0 None None)
  ∧ DatasetFiles.image_dir "coco" "val" ["annotations"; "images"] = "coco/images/val".
Proof.
  destruct (COCOSegmentation_new_succeeds DataExamples.listdir_example
              DataExamples.load_COCO_example Examples.reverse_shuffle "coco" "val" 0 None None
              reverse_shuffle_permutes) as (Hiff & Hdir & _).
  split.
  - apply Hiff. exists ["annotations"; "images"]. split; [reflexivity|]. split.
    + apply (bool_decide_unpack _). vm_compute. exact I.
    + split; vm_compute; by eexists.
  - rewrite Hdir by reflexivity. vm_compute. reflexivity.
Defined.

(** Training and validating on the same folder with the cache on and no
    cache file yet: the validation dataset is read from the file written
    for the training dataset. *)
Lemma load_data_cache_witness :
  ∃ d s st,
    (DataExamples.load_data_example "data/train" "data/train" ∅).2
    = Ok (d, LoadData.FromCache "~/.torch/vision/datasets/imagefolder/data/train.pt", s, st).
Proof.
  assert (Hres : ∃ d dt s st,
    (DataExamples.load_data_example "data/train" "data/train" ∅).2 = Ok (d, dt, s, st))
    by (vm_compute; by eexists _, _, _, _).
  destruct Hres as (d & dt & s & st & Hres). rewrite Hres.
  assert (Hrun : DataExamples.load_data_example "data/train" "data/train" ∅
                 = ((DataExamples.load_data_example "data/train" "data/train" ∅).1.1,
                    (DataExamples.load_data_example "data/train" "data/train" ∅).1.2,
                    Ok (d, dt, s, st))).
  { rewrite <- Hres.
    by destruct (DataExamples.load_data_example "data/train" "data/train" ∅) as [[? ?] ?]. }
  destruct (load_data_cache DataExamples.digest_example DataExamples.same_path
              DataExamples.same_path DataExamples.dirname_example
              DataExamples.interpolation_example DataExamples.no_weight_error true
              "data/train" "data/train" Examples.args_plain DataExamples.dargs_example
              ∅ _ _ _ eq_refl Hrun) as (_ & _ & Hsame).
  destruct (Hsame eq_refl eq_refl eq_refl d dt s st eq_refl) as [-> _].
  by exists d, s, st.
Defined.

(** One process, separate folders: a random and a sequential sampler. *)
Lemma load_data_samplers_witness :
  ∃ d dt,
    (DataExamples.load_data_example "data/train" "data/val" ∅).2
    = Ok (d, dt, LoadData.RandomSampler, LoadData.SequentialSampler).
Proof.
  assert (Hres : ∃ d dt s st,
    (DataExamples.load_data_example "data/train" "data/val" ∅).2 = Ok (d, dt, s, st))
    by (vm_compute; by eexists _, _, _, _).
  destruct Hres as (d & dt & s & st & Hres). rewrite Hres.
  assert (Hrun : DataExamples.load_data_example "data/train" "data/val" ∅
                 = ((DataExamples.load_data_example "data/train" "data/val" ∅).1.1,
                    (DataExamples.load_data_example "data/train" "data/val" ∅).1.2,
                    Ok (d, dt, s, st))).
  { rewrite <- Hres.
    by destruct (DataExamples.load_data_example "data/train" "data/val" ∅) as [[? ?] ?]. }
  destruct (load_data_samplers _ _ _ _ _ _ _ _ _ _ _ _ _ _ _ _ _ _ Hrun) as (Hone & _).
  destruct (Hone eq_refl) as [-> ->]. by exists d, dt.
Defined.

Lemma annotation_path_beside_images_witness :
  LoadData.annotation_path DataExamples.same_path "data/ds/train" "instances" "_train.json"
  = "data/ds/annotations/instances_train.json".
Proof.
  destruct (annotation_path_beside_images DataExamples.same_path "data/ds/train" "train"
              "instances" "_train.json" eq_refl) as [Hparent _].
  rewrite (Hparent "data/ds" eq_refl). reflexivity.
Defined.
